(** * RigelEngine: tile-map renderer, player control and map scrolling

    A shallow embedding of [src/engine/map_renderer.cpp] and
    [src/game_logic/player_control_system.cpp].

    - C++ [int] values are integers of [Z] kept in the 32-bit two's
      complement range: every arithmetic operation of the source is
      followed by [wrap].
    - [std::uint32_t] counters and tile indices are integers reduced
      modulo [2^32].
    - [float] velocities are IEEE-754 values ([spec_float]); [==] is
      [SFeqb].
    - Mutable components become record fields; a member function that
      mutates them returns the new record. *)

From Stdlib Require Import ZArith List Bool Lia QArith Qround Qabs Lqa.
From Stdlib Require Import Floats.SpecFloat.
Import ListNotations.

Local Open Scope Z_scope.

(* ================================================================== *)
(** * Machine integers and geometry ([base/spatial_types.hpp])          *)
(* ================================================================== *)

Module Base.

Definition int_min : Z := - 2 ^ 31.
Definition int_max : Z := 2 ^ 31 - 1.

(** Two's complement reduction of an integer to the range of [int]. *)
Definition wrap (z : Z) : Z := (z + 2 ^ 31) mod 2 ^ 32 - 2 ^ 31.

Definition is_int (z : Z) : Prop := int_min <= z <= int_max.

Definition iadd (a b : Z) : Z := wrap (a + b).
Definition isub (a b : Z) : Z := wrap (a - b).
Definition imul (a b : Z) : Z := wrap (a * b).
Definition ineg (a : Z) : Z := wrap (- a).

(** C++ [%] on [int]: the remainder has the sign of the dividend. *)
Definition irem (a b : Z) : Z := Z.rem a b.

(** [std::uint32_t] reduction. *)
Definition u32 (z : Z) : Z := z mod 2 ^ 32.

Record Vector : Type := mkVector { vx : Z; vy : Z }.
Record Extents : Type := mkExtents { width : Z; height : Z }.
Record Rect : Type := mkRect { topLeft : Vector; size : Extents }.

Definition vadd (a b : Vector) : Vector :=
  mkVector (iadd (vx a) (vx b)) (iadd (vy a) (vy b)).

Definition vsub (a b : Vector) : Vector :=
  mkVector (isub (vx a) (vx b)) (isub (vy a) (vy b)).

(** Corner accessors of [base::Rect]. The header is not among the
    sources; the rectangle is inclusive of its last row and column, in
    line with [topLeft.y -= size.height-1] in the callers. *)
Definition bottomLeft (r : Rect) : Vector :=
  mkVector (vx (topLeft r))
           (iadd (vy (topLeft r)) (isub (height (size r)) 1)).

Definition bottomRight (r : Rect) : Vector :=
  mkVector (iadd (vx (topLeft r)) (isub (width (size r)) 1))
           (iadd (vy (topLeft r)) (isub (height (size r)) 1)).

Definition top (r : Rect) : Z := vy (topLeft r).
Definition bottom (r : Rect) : Z := vy (bottomLeft r).

(** Modelled from the spec: [utils::clamp] of [utils/math_tools.hpp],
    which is not among the sources ("final offset is clamped to
    [0, mapExtent - viewportExtent] per axis"). *)
Definition clamp (value minValue maxValue : Z) : Z :=
  Z.min maxValue (Z.max value minValue).

(** The constants of [data::GameTraits] ([data/game_traits.hpp] is not
    among the sources): they are parameters of the development. *)
Record GameTraits : Type := mkGameTraits {
  tileSize : Z;
  viewPortWidthPx : Z;
  viewPortHeightPx : Z;
  mapViewPortWidthTiles : Z;
  mapViewPortHeightTiles : Z
}.

(** The screen of the original game: 320x200 pixels, 8-pixel tiles and
    a 32x20 tile map view. Used for concrete evaluation only. *)
Definition classicTraits : GameTraits := mkGameTraits 8 320 200 32 20.

End Base.

Export Base.

(* ================================================================== *)
(** * Components of the player entity                                   *)
(* ================================================================== *)

Module Components.

(** [PlayerState]; the enumeration is declared in a header that is not
    among the sources, its members are the ones the spec lists and the
    code switches over. *)
Inductive PlayerState : Type :=
  | Standing | Walking | Airborne | Crouching | LookingUp | ClimbingLadder.

Inductive Orientation : Type := Left | Right.

Definition PlayerState_eqb (a b : PlayerState) : bool :=
  match a, b with
  | Standing, Standing | Walking, Walking | Airborne, Airborne
  | Crouching, Crouching | LookingUp, LookingUp
  | ClimbingLadder, ClimbingLadder => true
  | _, _ => false
  end.

Definition Orientation_eqb (a b : Orientation) : bool :=
  match a, b with
  | Left, Left | Right, Right => true
  | _, _ => false
  end.

Record PlayerControlled : Type := mkPlayerControlled {
  mOrientation : Orientation;
  mState : PlayerState;
  mIsLookingUp : bool;
  mIsLookingDown : bool;
  mPerformedInteraction : bool
}.

Record Velocity : Type := mkVelocity { velX : spec_float; velY : spec_float }.

Record Physical : Type := mkPhysical {
  mCollisionRect : Rect;
  mVelocity : Velocity;
  mGravityAffected : bool
}.

End Components.

Export Components.

(* ================================================================== *)
(** * MapScrollSystem                                                   *)
(* ================================================================== *)

Module MapScroll.

Section WithTraits.

Variable gt : GameTraits.

Definition DefaultDeadZone : Rect :=
  mkRect (mkVector 11 2)
         (mkExtents (isub (mapViewPortWidthTiles gt) 23)
                    (isub (mapViewPortHeightTiles gt) 3)).

Definition ClimbingDeadZone : Rect :=
  mkRect (mkVector 11 7)
         (mkExtents (isub (mapViewPortWidthTiles gt) 23)
                    (isub (mapViewPortHeightTiles gt) 14)).

Definition scrollDeadZoneForState (state : PlayerState) : Rect :=
  match state with
  | ClimbingLadder => ClimbingDeadZone
  | _ => DefaultDeadZone
  end.

(** The members of [MapScrollSystem] that [updateScrollOffset] touches:
    the shared scroll offset behind [mpScrollOffset] and the bound
    computed by the constructor. *)
Record MapScrollSystem : Type := mkMapScrollSystem {
  scrollOffset : Vector;
  mMaxScrollOffset : Extents
}.

(** Constructor; [mapWidth] and [mapHeight] are [map.width()] and
    [map.height()], [initialOffset] is the value the shared offset has
    when the system is created. *)
Definition create (initialOffset : Vector) (mapWidth mapHeight : Z)
  : MapScrollSystem :=
  mkMapScrollSystem
    initialOffset
    (mkExtents (wrap (mapWidth - mapViewPortWidthTiles gt))
               (wrap (mapHeight - mapViewPortHeightTiles gt))).

(** [updateScrollOffset]. [hasTicks] is the result of
    [updateAndCheckIfDesiredTicksElapsed(mTimeStepper, 2, dt)], which
    depends on the time accumulator only. *)
Definition updateScrollOffset
    (state : PlayerControlled) (playerPosition : Vector)
    (physical : Physical) (hasTicks : bool)
    (sys : MapScrollSystem) : MapScrollSystem :=
  let off0 := scrollOffset sys in
  let y1 :=
    if hasTicks then
      let ya := if mIsLookingDown state then iadd (vy off0) 2 else vy off0 in
      if mIsLookingUp state then isub ya 2 else ya
    else vy off0 in
  let off1 := mkVector (vx off0) y1 in
  let playerBounds0 := mCollisionRect physical in
  let playerBounds :=
    mkRect (vsub playerPosition
                 (mkVector 0 (isub (height (size playerBounds0)) 1)))
           (size playerBounds0) in
  let deadZone := scrollDeadZoneForState (mState state) in
  let worldSpaceDeadZone :=
    mkRect (vadd (topLeft deadZone) off1) (size deadZone) in
  (* horizontal *)
  let offsetLeft :=
    Z.max 0 (isub (vx (topLeft worldSpaceDeadZone)) (vx playerPosition)) in
  let offsetRight :=
    Z.min 0 (isub (vx (bottomRight worldSpaceDeadZone))
                  (vx (bottomRight playerBounds))) in
  let offsetX := isub (ineg offsetLeft) offsetRight in
  (* vertical *)
  let offsetTop :=
    Z.max 0 (isub (top worldSpaceDeadZone) (top playerBounds)) in
  let offsetBottom :=
    Z.min 0 (isub (bottom worldSpaceDeadZone) (bottom playerBounds)) in
  let offsetY := isub (ineg offsetTop) offsetBottom in
  (* update and clamp *)
  let off2 := vadd off1 (mkVector offsetX offsetY) in
  mkMapScrollSystem
    (mkVector (clamp (vx off2) 0 (width (mMaxScrollOffset sys)))
              (clamp (vy off2) 0 (height (mMaxScrollOffset sys))))
    (mMaxScrollOffset sys).

(** What one call of [MapScrollSystem::update] reads from the player
    entity, together with the outcome of the tick check. *)
Record Frame : Type := mkFrame {
  fState : PlayerControlled;
  fPosition : Vector;
  fPhysical : Physical;
  fHasTicks : bool
}.

Definition update (f : Frame) (sys : MapScrollSystem) : MapScrollSystem :=
  updateScrollOffset (fState f) (fPosition f) (fPhysical f) (fHasTicks f) sys.

(** The systems obtained after each call of a sequence of updates. *)
Fixpoint run (fs : list Frame) (sys : MapScrollSystem)
  : list MapScrollSystem :=
  match fs with
  | [] => []
  | f :: fs' => let sys' := update f sys in sys' :: run fs' sys'
  end.

Definition offsetInBounds (sys : MapScrollSystem) : Prop :=
  0 <= vx (scrollOffset sys) <= width (mMaxScrollOffset sys) /\
  0 <= vy (scrollOffset sys) <= height (mMaxScrollOffset sys).

Definition maxIsMapMinusViewport
    (mapWidth mapHeight : Z) (sys : MapScrollSystem) : Prop :=
  width (mMaxScrollOffset sys) = mapWidth - mapViewPortWidthTiles gt /\
  height (mMaxScrollOffset sys) = mapHeight - mapViewPortHeightTiles gt.

End WithTraits.

End MapScroll.

(* ================================================================== *)
(** * The tile map ([data/map.hpp])                                     *)
(* ================================================================== *)

Module TileMap.

(** [data::map::TileIndex] is an unsigned 32-bit integer. *)
Definition TileIndex : Type := Z.

Record TileAttributes : Type := mkTileAttributes {
  isForeGround : bool;
  isAnimated : bool;
  isFastAnimation : bool;
  isLadder : bool
}.

(** The map class is declared outside the sources. Its dimensions are
    [int]s, as the loop counters they are compared with; its two layers
    hold a tile index for the cells of the grid only. *)
Record Map : Type := mkMap {
  mapWidth : Z;
  mapHeight : Z;
  mapTiles : Z -> Z -> Z -> TileIndex;  (* layer, column, row *)
  attributes : TileIndex -> TileAttributes
}.

Definition inMap (m : Map) (col row : Z) : bool :=
  (0 <=? col) && (col <? mapWidth m) && (0 <=? row) && (row <? mapHeight m).

(** [Map::tileAt]: the cell must be one of the grid (a lookup elsewhere
    is outside the contract of the map and has no value). *)
Definition tileAt (m : Map) (layer col row : Z) : option TileIndex :=
  if (0 <=? layer) && (layer <? 2) && inMap m col row
  then Some (mapTiles m layer col row)
  else None.

(** Counter of a [for (int i=0; i<n; ++i)] loop. *)
Definition upto (n : Z) : list Z := map Z.of_nat (seq 0 (Z.to_nat n)).

(** Counter of a [for (auto i=from; i<bound; ++i)] loop. *)
Definition fromTo (from bound : Z) : list Z :=
  map (fun i => from + Z.of_nat i) (seq 0 (Z.to_nat (bound - from))).

End TileMap.

Export TileMap.

(* ================================================================== *)
(** * MapRenderer ([src/engine/map_renderer.cpp])                       *)
(* ================================================================== *)

Module MapRenderer.

Definition ANIM_STATES : Z := 4.
Definition FAST_ANIM_FRAME_DELAY : Z := 1.
Definition SLOW_ANIM_FRAME_DELAY : Z := 2.
Definition PARALLAX_FACTOR : Z := 4.

(** Modelled from the spec: the enumeration [BackdropScrollMode] of the
    map header, which is not among the sources ("None |
    ParallaxHorizontal | ParallaxVertical | ParallaxBoth |
    AutoHorizontal | AutoVertical"). The renderer names four of its
    members: [ParallaxBoth], [ParallaxHorizontal], [AutoHorizontal] and
    [AutoVertical]. *)
Inductive BackdropScrollMode : Type :=
  | ScrollNone
  | ParallaxHorizontal
  | ParallaxVertical
  | ParallaxBoth
  | AutoHorizontal
  | AutoVertical.

Definition BackdropScrollMode_eqb (a b : BackdropScrollMode) : bool :=
  match a, b with
  | ScrollNone, ScrollNone
  | ParallaxHorizontal, ParallaxHorizontal
  | ParallaxVertical, ParallaxVertical
  | ParallaxBoth, ParallaxBoth
  | AutoHorizontal, AutoHorizontal
  | AutoVertical, AutoVertical => true
  | _, _ => false
  end.

Record Image : Type := mkImage { imageId : Z; imageExtents : Extents }.

(** [renderer::OwningTexture]: a texture handle with its size; a
    default-constructed one owns nothing. *)
Record OwningTexture : Type := mkOwningTexture {
  textureData : option Z;
  textureExtents : Extents
}.

Definition noTexture : OwningTexture := mkOwningTexture None (mkExtents 0 0).

Definition textureOf (img : Image) : OwningTexture :=
  mkOwningTexture (Some (imageId img)) (imageExtents img).

Record MapRenderData : Type := mkMapRenderData {
  mTileSetImage : Image;
  mBackdropImage : Image;
  mSecondaryBackdropImage : option Image;
  mBackdropScrollMode : BackdropScrollMode
}.

Record MapRenderer : Type := mkMapRenderer {
  mpMap : Map;
  mTileSetTexture : OwningTexture;
  mBackdropTexture : OwningTexture;
  mAlternativeBackdropTexture : OwningTexture;
  mScrollMode : BackdropScrollMode;
  mElapsedFrames : Z;
  mElapsedFrames60Fps : Z
}.

(** Constructor. *)
Definition create (map : Map) (renderData : MapRenderData) : MapRenderer :=
  mkMapRenderer
    map
    (textureOf (mTileSetImage renderData))
    (textureOf (mBackdropImage renderData))
    (match mSecondaryBackdropImage renderData with
     | Some img => textureOf img
     | None => noTexture
     end)
    (mBackdropScrollMode renderData)
    0 0.

(** [switchBackdrops]: [std::swap] of the two textures. *)
Definition switchBackdrops (r : MapRenderer) : MapRenderer :=
  mkMapRenderer
    (mpMap r) (mTileSetTexture r)
    (mAlternativeBackdropTexture r) (mBackdropTexture r)
    (mScrollMode r) (mElapsedFrames r) (mElapsedFrames60Fps r).

(** [updateAnimatedMapTiles]. *)
Definition updateAnimatedMapTiles (r : MapRenderer) : MapRenderer :=
  mkMapRenderer
    (mpMap r) (mTileSetTexture r)
    (mBackdropTexture r) (mAlternativeBackdropTexture r)
    (mScrollMode r) (u32 (mElapsedFrames r + 1)) (mElapsedFrames60Fps r).

(** [n] calls of [updateAnimatedMapTiles]. *)
Fixpoint ticks (n : nat) (r : MapRenderer) : MapRenderer :=
  match n with
  | O => r
  | S k => updateAnimatedMapTiles (ticks k r)
  end.

(** [animatedTileIndex]; counter and tile index are [std::uint32_t]. *)
Definition animatedTileIndex (r : MapRenderer) (tileIndex : TileIndex)
  : TileIndex :=
  if isAnimated (attributes (mpMap r) tileIndex) then
    let fastAnimOffset :=
      (mElapsedFrames r / FAST_ANIM_FRAME_DELAY) mod ANIM_STATES in
    let slowAnimOffset :=
      (mElapsedFrames r / SLOW_ANIM_FRAME_DELAY) mod ANIM_STATES in
    let isFastAnim := isFastAnimation (attributes (mpMap r) tileIndex) in
    u32 (tileIndex + (if isFastAnim then fastAnimOffset else slowAnimOffset))
  else
    tileIndex.

(** What the renderer does, in order: a tile lookup in the map, the
    drawing of a tile of the tile set. *)
Inductive RenderEvent : Type :=
  | TileLookup (layer col row : Z)
  | TileDraw (tileIndex : TileIndex) (x y : Z).

(** [renderTile]. *)
Definition renderTile (r : MapRenderer) (tileIndex : TileIndex) (x y : Z)
  : list RenderEvent :=
  if negb (tileIndex =? 0)
  then [TileDraw (animatedTileIndex r tileIndex) x y]
  else [].

(** [renderSingleTile]. *)
Definition renderSingleTile (r : MapRenderer) (index : TileIndex)
    (position cameraPosition : Vector) : list RenderEvent :=
  let screenPosition := vsub position cameraPosition in
  renderTile r index (vx screenPosition) (vy screenPosition).

Inductive DrawMode : Type := Background | Foreground.

Definition isForegroundMode (d : DrawMode) : bool :=
  match d with Foreground => true | Background => false end.

(** The iterations of the three nested loops of [renderMapTiles] in
    the order they run: layer, then [y], then [x]. *)
Definition sectionCells (sectionSize : Extents) : list (Z * Z * Z) :=
  flat_map (fun layer =>
    flat_map (fun y =>
      map (fun x => (layer, y, x)) (upto (width sectionSize)))
      (upto (height sectionSize)))
    (upto 2).

(** The loop body over the remaining iterations. The result is the
    list of events and whether the sweep ran to its end: it stops at a
    lookup the map has no value for. *)
Fixpoint renderCells (r : MapRenderer) (sectionStart : Vector)
    (drawMode : DrawMode) (cells : list (Z * Z * Z))
  : list RenderEvent * bool :=
  match cells with
  | [] => ([], true)
  | (layer, y, x) :: rest =>
      let col := iadd x (vx sectionStart) in
      let row := iadd y (vy sectionStart) in
      if (col >=? mapWidth (mpMap r)) || (row >=? mapHeight (mpMap r)) then
        renderCells r sectionStart drawMode rest
      else
        match tileAt (mpMap r) layer col row with
        | None => ([TileLookup layer col row], false)
        | Some tileIndex =>
            let isForeground :=
              isForeGround (attributes (mpMap r) tileIndex) in
            let shouldRenderForeground := isForegroundMode drawMode in
            let drawn :=
              if negb (Bool.eqb isForeground shouldRenderForeground)
              then []
              else renderTile r tileIndex x y in
            let '(events, finished) :=
              renderCells r sectionStart drawMode rest in
            (TileLookup layer col row :: drawn ++ events, finished)
        end
  end.

Definition renderMapTiles (r : MapRenderer) (sectionStart : Vector)
    (sectionSize : Extents) (drawMode : DrawMode)
  : list RenderEvent * bool :=
  renderCells r sectionStart drawMode (sectionCells sectionSize).

Definition renderBackground (r : MapRenderer) (sectionStart : Vector)
    (sectionSize : Extents) : list RenderEvent * bool :=
  renderMapTiles r sectionStart sectionSize Background.

Definition renderForeground (r : MapRenderer) (sectionStart : Vector)
    (sectionSize : Extents) : list RenderEvent * bool :=
  renderMapTiles r sectionStart sectionSize Foreground.

(** The cells of the map a list of events looks up. *)
Definition lookupInMap (m : Map) (e : RenderEvent) : bool :=
  match e with
  | TileLookup _ col row => inMap m col row
  | TileDraw _ _ _ => true
  end.

Section Backdrop.

Variable gt : GameTraits.

(** [base::round] applied to a [double], with the integer it returns.
    The quotient of a 32-bit counter by [2.0] or [1.0] is exact in a
    [double], so the argument is the rational it denotes; the function
    itself is declared in [base/math_tools.hpp], outside the sources,
    and is a parameter here (the spec: "rounding uses
    round-to-nearest"). *)
Variable base_round : Q -> Z.

(** What is assumed of [base_round]: within the range of [int] it
    returns an integer nearest to its argument. Nothing is assumed of
    its result for an argument outside that range, where the
    conversion of the rounded [double] to [int] has no defined
    value. *)
Definition roundsToNearest : Prop :=
  forall q : Q,
    (inject_Z int_min <= q)%Q -> (q <= inject_Z int_max)%Q ->
    (Qabs (inject_Z (base_round q) - q) <= 1 # 2)%Q.

Definition wrapBackgroundOffset (offset : Vector) : Vector :=
  mkVector (irem (vx offset) (viewPortWidthPx gt))
           (irem (vy offset) (viewPortHeightPx gt)).

(** The local [offsetPixels] of the auto-scroll branch: the result of
    [base::round] for the counter divided by the speed factor. *)
Definition autoScrollOffsetPixels (autoScrollX : bool) (frames : Z) : Z :=
  let speedFactor : Q := if autoScrollX then 2 # 1 else 1 # 1 in
  base_round (inject_Z frames / speedFactor)%Q.

(** Lines 97 to 126 of [renderBackdrop]: the offset of the backdrop
    and the new value of [mElapsedFrames60Fps]. A default-constructed
    [base::Vector] is the origin. *)
Definition backdropOffset (scrollMode : BackdropScrollMode)
    (cameraPosition : Vector) (frames : Z) : Vector * Z :=
  let parallaxBoth := BackdropScrollMode_eqb scrollMode ParallaxBoth in
  let parallaxHorizontal :=
    BackdropScrollMode_eqb scrollMode ParallaxHorizontal || parallaxBoth in
  let autoScrollX := BackdropScrollMode_eqb scrollMode AutoHorizontal in
  let autoScrollY := BackdropScrollMode_eqb scrollMode AutoVertical in
  if parallaxHorizontal || parallaxBoth then
    (wrapBackgroundOffset
       (mkVector
          (if parallaxHorizontal
           then imul (vx cameraPosition) PARALLAX_FACTOR else 0)
          (if parallaxBoth
           then imul (vy cameraPosition) PARALLAX_FACTOR else 0)),
     frames)
  else if autoScrollX || autoScrollY then
    let offsetPixels := autoScrollOffsetPixels autoScrollX frames in
    let frames' := u32 (frames + 1) in
    if autoScrollX then
      (mkVector (irem offsetPixels (viewPortWidthPx gt)) 0, frames')
    else
      let baseOffset := irem offsetPixels (viewPortHeightPx gt) in
      (mkVector 0 (isub (viewPortHeightPx gt) baseOffset), frames')
  else
    (mkVector 0 0, frames).

(** The call of [drawTexture] that ends [renderBackdrop]. *)
Record DrawTexture : Type := mkDrawTexture {
  drawnTexture : option Z;
  sourceRect : Rect;
  targetRect : Rect;
  repeatTexture : bool
}.

Definition tilesToPixels (tiles : Z) : Z := imul tiles (tileSize gt).

(** Modelled from the spec: [base::integerDivCeil] of
    [base/math_tools.hpp], which is not among the sources ("repetition
    count = ceiling(viewport pixel width / backdrop pixel width)");
    undefined for a zero divisor. *)
Definition integerDivCeil (a b : Z) : option Z :=
  if b =? 0 then None
  else Some (Z.quot a b + (if Z.rem a b =? 0 then 0 else 1)).

(** [renderBackdrop]: the draw call issued and the renderer after it;
    [None] when the backdrop texture has no width. *)
Definition renderBackdrop (r : MapRenderer) (cameraPosition : Vector)
    (viewPortSize : Extents) : option (DrawTexture * MapRenderer) :=
  let '(offset, frames') :=
    backdropOffset (mScrollMode r) cameraPosition (mElapsedFrames60Fps r) in
  let backdropWidth := width (textureExtents (mBackdropTexture r)) in
  match integerDivCeil (tilesToPixels (width viewPortSize)) backdropWidth with
  | None => None
  | Some numRepetitions =>
      let sourceRectSize :=
        mkExtents (imul backdropWidth numRepetitions)
                  (height (textureExtents (mBackdropTexture r))) in
      let targetRectWidth := imul backdropWidth numRepetitions in
      let targetRectSize :=
        mkExtents targetRectWidth (tilesToPixels (height viewPortSize)) in
      Some (mkDrawTexture
              (textureData (mBackdropTexture r))
              (mkRect offset sourceRectSize)
              (mkRect (mkVector 0 0) targetRectSize)
              true,
            mkMapRenderer
              (mpMap r) (mTileSetTexture r)
              (mBackdropTexture r) (mAlternativeBackdropTexture r)
              (mScrollMode r) (mElapsedFrames r) frames')
  end.

End Backdrop.

(** Rounding to the nearest integer, halves upwards: an instance of
    [base_round] for concrete evaluation. *)
Definition roundHalfUp (q : Q) : Z := Qfloor (q + (1 # 2))%Q.

(** The tile lookups among the events of a sweep, in order. *)
Definition isTileLookup (e : RenderEvent) : bool :=
  match e with
  | TileLookup _ _ _ => true
  | TileDraw _ _ _ => false
  end.

Definition lookupsOf (events : list RenderEvent) : list RenderEvent :=
  filter isTileLookup events.

End MapRenderer.

(* ================================================================== *)
(** * PlayerControlSystem ([src/game_logic/player_control_system.cpp])  *)
(* ================================================================== *)

Module PlayerControl.

(** ** Values of type [float] *)

Definition f_zero : spec_float := S754_zero false.            (*  0.0f *)
Definition f_one : spec_float := S754_finite false 8388608 (-23).  (*  1.0f *)
Definition f_minus_one : spec_float := S754_finite true 8388608 (-23). (* -1.0f *)
Definition f_jump : spec_float := S754_finite true 15099494 (-22). (* -3.6f *)

(** ** The ladder flag grid *)

(** Modelled from the spec: the grid class of [mLadderFlags], whose
    header is not among the sources ("boolean grid, same dimensions as
    the map"; "out-of-bounds reads treated as 'not a ladder' (default
    value), never erroring"). A flag is stored as 0 or 1. *)
Record Grid : Type := mkGrid {
  gridWidth : Z;
  gridHeight : Z;
  gridValues : Z -> Z -> Z  (* column, row *)
}.

Definition newGrid (w h : Z) : Grid := mkGrid w h (fun _ _ => 0).

Definition inGrid (g : Grid) (col row : Z) : bool :=
  (0 <=? col) && (col <? gridWidth g) && (0 <=? row) && (row <? gridHeight g).

Definition setValueAt (g : Grid) (col row value : Z) : Grid :=
  if inGrid g col row then
    mkGrid (gridWidth g) (gridHeight g)
           (fun c r => if (c =? col) && (r =? row) then value
                       else gridValues g c r)
  else g.

Definition valueAtWithDefault (g : Grid) (col row default : Z) : Z :=
  if inGrid g col row then gridValues g col row else default.

(** ** The player entity *)

Record AnimationSequence : Type := mkAnimationSequence {
  delayInTicks : Z;
  startFrame : Z;
  endFrame : Z
}.

(** The components of the player entity: [PlayerControlled],
    [Physical], the frames of its [Sprite], [WorldPosition] and the
    optional [Animated] component. *)
Record Player : Type := mkPlayer {
  controlled : PlayerControlled;
  physical : Physical;
  mFramesToRender : list Z;
  worldPosition : Vector;
  animated : option AnimationSequence
}.

Record PlayerInputState : Type := mkPlayerInputState {
  mMovingLeft : bool;
  mMovingRight : bool;
  mMovingUp : bool;
  mMovingDown : bool;
  mJumping : bool
}.

(** An entity with the components [Interactable], [WorldPosition] and
    [Physical], as [es.each] enumerates them. *)
Record InteractableEntity : Type := mkInteractableEntity {
  entityId : Z;
  interactableType : Z;
  entityPosition : Vector
}.

(** The event [events::PlayerInteraction]. *)
Record PlayerInteraction : Type := mkPlayerInteraction {
  interactedEntity : Z;
  interactionType : Z
}.

(** [initializePlayerEntity], on an entity that has a sprite. *)
Definition initializePlayerEntity (position : Vector) (isFacingRight : bool)
  : Player :=
  mkPlayer
    (mkPlayerControlled (if isFacingRight then Right else Left)
                        Standing false false false)
    (mkPhysical (mkRect (mkVector 0 0) (mkExtents 3 5))
                (mkVelocity f_zero f_zero)
                true)
    [if isFacingRight then 39 else 0]
    position
    None.

(** Constructor of [PlayerControlSystem]: the ladder flags of a map. *)
Definition ladderAt (m : Map) (col row : Z) : bool :=
  match tileAt m 0 col row, tileAt m 1 col row with
  | Some t0, Some t1 =>
      isLadder (attributes m t0) || isLadder (attributes m t1)
  | _, _ => false
  end.

Definition ladderFlagsOf (m : Map) : Grid :=
  fold_left
    (fun g row =>
       fold_left
         (fun g' col =>
            setValueAt g' col row (if ladderAt m col row then 1 else 0))
         (upto (mapWidth m)) g)
    (upto (mapHeight m))
    (newGrid (mapWidth m) (mapHeight m)).

(** ** Ladder queries *)

Definition canClimbUp (ladder : Grid) (worldSpacePlayerBounds : Rect) : bool :=
  let row := isub (vy (topLeft worldSpacePlayerBounds)) 1 in
  existsb
    (fun x =>
       let col := iadd x (vx (topLeft worldSpacePlayerBounds)) in
       valueAtWithDefault ladder col row 0 =? 1)
    (upto (width (size worldSpacePlayerBounds))).

Definition canClimbDown (ladder : Grid) (worldSpacePlayerBounds : Rect)
  : bool :=
  let row := iadd (vy (bottomLeft worldSpacePlayerBounds)) 1 in
  existsb
    (fun x =>
       let col := iadd x (vx (topLeft worldSpacePlayerBounds)) in
       valueAtWithDefault ladder col row 0 =? 1)
    (upto (width (size worldSpacePlayerBounds))).

(** The cells [findLadderTouchPoint] visits, in the order of its two
    loops: rows from the top of the box down, columns from the left. *)
Definition boxCells (worldSpacePlayerBounds : Rect) : list Vector :=
  let position := topLeft worldSpacePlayerBounds in
  let size := size worldSpacePlayerBounds in
  flat_map
    (fun row =>
       map (fun col => mkVector col row)
           (fromTo (vx position) (iadd (vx position) (width size))))
    (fromTo (vy position) (iadd (vy position) (height size))).

Definition findLadderTouchPoint (ladder : Grid) (worldSpacePlayerBounds : Rect)
  : option Vector :=
  find (fun c => negb (valueAtWithDefault ladder (vx c) (vy c) 0 =? 0))
       (boxCells worldSpacePlayerBounds).

(** ** SDL *)

Record SDL_Rect : Type := mkSDL_Rect { sx : Z; sy : Z; sw : Z; sh : Z }.

(** [SDL_HasIntersection] of the SDL library: both rectangles are
    non-empty and their spans overlap on both axes. *)
Definition SDL_HasIntersection (A B : SDL_Rect) : bool :=
  let empty (r : SDL_Rect) := (sw r <=? 0) || (sh r <=? 0) in
  let overlap (amin aw bmin bw : Z) :=
    let amax := iadd amin aw in
    let bmax := iadd bmin bw in
    let amin' := if bmin >? amin then bmin else amin in
    let amax' := if bmax <? amax then bmax else amax in
    negb (amax' <=? amin') in
  if empty A || empty B then false
  else overlap (sx A) (sw A) (sx B) (sw B) &&
       overlap (sy A) (sh A) (sy B) (sh B).

(** ** [updateAnimationStateAndBoundingBox] *)

Definition replaceFirst (frame : Z) (frames : list Z) : list Z :=
  match frames with
  | [] => []
  | _ :: rest => frame :: rest
  end.

Definition updateAnimationStateAndBoundingBox (p : Player) : Player :=
  let state := controlled p in
  let newBoundingRect :=
    mkRect (mkVector 0 0)
           (mkExtents 3 (match mState state with Crouching => 4 | _ => 5 end)) in
  let newAnimationFrame :=
    match mState state with
    | Standing => 0
    | Walking => 1
    | LookingUp => 16
    | Crouching => 17
    | Airborne => 8
    | ClimbingLadder => 36
    end in
  let endFrameOffset : option Z :=
    match mState state with Walking => Some 3 | _ => None end in
  let orientationOffset :=
    match mOrientation state with Right => 39 | Left => 0 end in
  let orientedAnimationFrame := iadd newAnimationFrame orientationOffset in
  mkPlayer
    state
    (mkPhysical newBoundingRect
                (mVelocity (physical p))
                (mGravityAffected (physical p)))
    (replaceFirst orientedAnimationFrame (mFramesToRender p))
    (worldPosition p)
    (match endFrameOffset with
     | Some offset =>
         Some (mkAnimationSequence 4 orientedAnimationFrame
                 (iadd orientedAnimationFrame offset))
     | None => None
     end).

(** ** Field updates *)

Definition withControlled (c : PlayerControlled) (p : Player) : Player :=
  mkPlayer c (physical p) (mFramesToRender p) (worldPosition p) (animated p).

Definition withPhysical (ph : Physical) (p : Player) : Player :=
  mkPlayer (controlled p) ph (mFramesToRender p) (worldPosition p)
           (animated p).

Definition withWorldPosition (v : Vector) (p : Player) : Player :=
  mkPlayer (controlled p) (physical p) (mFramesToRender p) v (animated p).

Definition setState (s : PlayerState) (p : Player) : Player :=
  let c := controlled p in
  withControlled
    (mkPlayerControlled (mOrientation c) s (mIsLookingUp c)
                        (mIsLookingDown c) (mPerformedInteraction c)) p.

Definition setOrientation (o : Orientation) (p : Player) : Player :=
  let c := controlled p in
  withControlled
    (mkPlayerControlled o (mState c) (mIsLookingUp c)
                        (mIsLookingDown c) (mPerformedInteraction c)) p.

Definition setLooking (up down : bool) (p : Player) : Player :=
  let c := controlled p in
  withControlled
    (mkPlayerControlled (mOrientation c) (mState c) up down
                        (mPerformedInteraction c)) p.

Definition setPerformedInteraction (b : bool) (p : Player) : Player :=
  let c := controlled p in
  withControlled
    (mkPlayerControlled (mOrientation c) (mState c) (mIsLookingUp c)
                        (mIsLookingDown c) b) p.

Definition setGravityAffected (b : bool) (p : Player) : Player :=
  let ph := physical p in
  withPhysical (mkPhysical (mCollisionRect ph) (mVelocity ph) b) p.

Definition setVelocityX (v : spec_float) (p : Player) : Player :=
  let ph := physical p in
  withPhysical
    (mkPhysical (mCollisionRect ph) (mkVelocity v (velY (mVelocity ph)))
                (mGravityAffected ph)) p.

Definition setVelocityY (v : spec_float) (p : Player) : Player :=
  let ph := physical p in
  withPhysical
    (mkPhysical (mCollisionRect ph) (mkVelocity (velX (mVelocity ph)) v)
                (mGravityAffected ph)) p.

Definition stateIs (s : PlayerState) (p : Player) : bool :=
  PlayerState_eqb (mState (controlled p)) s.

(** ** [PlayerControlSystem::update] *)

(** The directional inputs after conflicting pairs are filtered out. *)
Record Moves : Type := mkMoves {
  movingLeft : bool;
  movingRight : bool;
  movingUp : bool;
  movingDown : bool;
  jumping : bool
}.

(** The locals of [update] that later blocks overwrite, next to the
    entity and the events emitted so far. *)
Record Locals : Type := mkLocals {
  player : Player;
  horizontalMovementWanted : bool;
  verticalMovementWanted : bool;
  emitted : list PlayerInteraction
}.

Definition withPlayer (p : Player) (l : Locals) : Locals :=
  mkLocals p (horizontalMovementWanted l) (verticalMovementWanted l)
           (emitted l).

Definition withHorizontal (b : bool) (l : Locals) : Locals :=
  mkLocals (player l) b (verticalMovementWanted l) (emitted l).

Definition withVertical (b : bool) (l : Locals) : Locals :=
  mkLocals (player l) (horizontalMovementWanted l) b (emitted l).

(** Lines 144-146. *)
Definition clearInteraction (inputs : PlayerInputState) (p : Player)
  : Player :=
  if mPerformedInteraction (controlled p) && negb (mMovingUp inputs)
  then setPerformedInteraction false p
  else p.

(** Lines 148-154. *)
Definition filterInputs (inputs : PlayerInputState) : Moves :=
  let lr := mMovingLeft inputs && mMovingRight inputs in
  let ud := mMovingUp inputs && mMovingDown inputs in
  mkMoves (if lr then false else mMovingLeft inputs)
          (if lr then false else mMovingRight inputs)
          (if ud then false else mMovingUp inputs)
          (if ud then false else mMovingDown inputs)
          (mJumping inputs).

(** Lines 160-162. *)
Definition worldSpaceBounds (p : Player) : Rect :=
  let r := mCollisionRect (physical p) in
  let moved := vadd (topLeft r) (worldPosition p) in
  mkRect (mkVector (vx moved) (isub (vy moved) (isub (height (size r)) 1)))
         (size r).

Definition offsetForOrientation (o : Orientation) : Z :=
  match o with Left => 0 | Right => 1 end.

(** Lines 177-184: the snap to the ladder found at [ladderTouchPoint]. *)
Definition grabLadder (ladderTouchPoint : Vector) (p : Player) : Player :=
  let p1 := setState ClimbingLadder p in
  let relativeLadderTouchX :=
    isub (vx ladderTouchPoint) (vx (worldPosition p1)) in
  let diff :=
    isub relativeLadderTouchX
         (offsetForOrientation (mOrientation (controlled p1))) in
  let p2 :=
    withWorldPosition
      (mkVector (iadd (vx (worldPosition p1)) diff) (vy (worldPosition p1)))
      p1 in
  setGravityAffected false p2.

(** The condition of lines 165-169 and the search of lines 170-171:
    the ladder cell the player grabs in this call, if any. *)
Definition ladderGrab (ladder : Grid) (mv : Moves)
    (worldSpacePlayerBounds : Rect) (l : Locals) : option Vector :=
  if verticalMovementWanted l && negb (stateIs ClimbingLadder (player l)) then
    if movingUp mv
    then findLadderTouchPoint ladder worldSpacePlayerBounds
    else None
  else None.

(** Lines 164-187. *)
Definition attachToLadder (ladder : Grid) (mv : Moves)
    (worldSpacePlayerBounds : Rect) (l : Locals) : Locals :=
  match ladderGrab ladder mv worldSpacePlayerBounds l with
  | Some ladderTouchPoint =>
      withPlayer (grabLadder ladderTouchPoint (player l)) l
  | None => l
  end.

(** Lines 189-191. *)
Definition ignoreHorizontalOnLadder (l : Locals) : Locals :=
  if stateIs ClimbingLadder (player l) then withHorizontal false l else l.

(** Lines 193-198. *)
Definition adjustOrientation (mv : Moves) (l : Locals) : Locals :=
  if horizontalMovementWanted l then
    withPlayer
      (setOrientation (if movingLeft mv then Left else Right) (player l)) l
  else l.

(** Lines 201-203. *)
Definition ignoreVerticalInAir (l : Locals) : Locals :=
  if stateIs Airborne (player l) then withVertical false l else l.

(** Lines 205-214. *)
Definition cancelHorizontal (l : Locals) : Locals :=
  if verticalMovementWanted l &&
     (stateIs LookingUp (player l) || stateIs Crouching (player l) ||
      stateIs Standing (player l) || stateIs Walking (player l))
  then withHorizontal false l
  else l.

(** Lines 216-235. *)
Definition climb (ladder : Grid) (mv : Moves)
    (worldSpacePlayerBounds : Rect) (l : Locals) : Locals :=
  if stateIs ClimbingLadder (player l) then
    if movingUp mv then
      if canClimbUp ladder worldSpacePlayerBounds
      then withPlayer (setVelocityY f_minus_one (player l)) l
      else withPlayer (setVelocityY f_zero (player l)) l
    else if movingDown mv then
      if canClimbDown ladder worldSpacePlayerBounds
      then withPlayer (setVelocityY f_one (player l)) l
      else
        withVertical false
          (withPlayer
             (setVelocityY f_one
                (setGravityAffected true (setState Airborne (player l))))
             l)
    else withPlayer (setVelocityY f_zero (player l)) l
  else l.

(** The body of the lambda of lines 248-269 for one entity. *)
Definition interactWith (worldSpacePlayerBounds : Rect)
    (l : Locals) (e : InteractableEntity) : Locals :=
  let ph := physical (player l) in
  let sdlObjectBounds :=
    mkSDL_Rect
      (vx (entityPosition e))
      (isub (vy (entityPosition e))
            (isub (height (size (mCollisionRect ph))) 1))
      (width (size (mCollisionRect ph)))
      (height (size (mCollisionRect ph))) in
  let sdlPlayerBounds :=
    mkSDL_Rect
      (vx (topLeft worldSpacePlayerBounds))
      (vy (topLeft worldSpacePlayerBounds))
      (width (size worldSpacePlayerBounds))
      (height (size worldSpacePlayerBounds)) in
  if SDL_HasIntersection sdlObjectBounds sdlPlayerBounds then
    mkLocals (setPerformedInteraction true (player l))
             (horizontalMovementWanted l) (verticalMovementWanted l)
             (emitted l ++
              [mkPlayerInteraction (entityId e) (interactableType e)])
  else l.

(** Lines 237-275. *)
Definition lookOrCrouch (interactables : list InteractableEntity)
    (mv : Moves) (worldSpacePlayerBounds : Rect) (l : Locals) : Locals :=
  let l0 := withPlayer (setLooking false false (player l)) l in
  if verticalMovementWanted l0 && negb (stateIs ClimbingLadder (player l0))
  then
    if movingUp mv then
      let l1 :=
        withPlayer (setLooking true false (setState LookingUp (player l0)))
                   l0 in
      if negb (mPerformedInteraction (controlled (player l1)))
      then fold_left (interactWith worldSpacePlayerBounds) interactables l1
      else l1
    else
      withPlayer
        (setLooking (mIsLookingUp (controlled (player l0))) true
                    (setState Crouching (player l0)))
        l0
  else l0.

(** Lines 277-285. *)
Definition standUp (l : Locals) : Locals :=
  if negb (verticalMovementWanted l) &&
     (stateIs LookingUp (player l) || stateIs Crouching (player l))
  then withPlayer (setState Standing (player l)) l
  else l.

(** Lines 287-312. *)
Definition walk (hasTicks : bool) (mv : Moves) (l : Locals) : Locals :=
  if negb (horizontalMovementWanted l) then
    let p1 :=
      if stateIs Walking (player l)
      then setState Standing (player l) else player l in
    withPlayer (setVelocityX f_zero p1) l
  else
    let p1 :=
      if stateIs Standing (player l)
      then setState Walking (player l) else player l in
    if stateIs Walking p1 || stateIs Airborne p1 then
      if hasTicks then
        if horizontalMovementWanted l then
          withPlayer
            (setVelocityX (if movingLeft mv then f_minus_one else f_one) p1)
            l
        else withPlayer p1 l
      else withPlayer p1 l
    else withPlayer p1 l.

(** Lines 314-319. *)
Definition land (l : Locals) : Locals :=
  if SFeqb (velY (mVelocity (physical (player l)))) f_zero &&
     stateIs Airborne (player l)
  then withPlayer (setState Standing (player l)) l
  else l.

(** Lines 321-325. *)
Definition jump (mv : Moves) (l : Locals) : Locals :=
  if jumping mv && negb (stateIs Airborne (player l)) then
    withPlayer
      (setState Airborne
         (setGravityAffected true (setVelocityY f_jump (player l))))
      l
  else l.

(** Lines 144-162: the locals when the ladder attachment check is
    reached. *)
Definition beforeAttachment (inputs : PlayerInputState) (p : Player)
  : Locals :=
  let p0 := clearInteraction inputs p in
  let mv := filterInputs inputs in
  mkLocals p0 (movingLeft mv || movingRight mv)
           (movingUp mv || movingDown mv) [].

(** The ladder cell the player grabs in a call of [update], if any. *)
Definition grabbedLadder (ladder : Grid) (inputs : PlayerInputState)
    (p : Player) : option Vector :=
  ladderGrab ladder (filterInputs inputs)
             (worldSpaceBounds (clearInteraction inputs p))
             (beforeAttachment inputs p).

(** The blocks of [update] up to the ladder attachment included. *)
Definition beforeOrientation (ladder : Grid) (inputs : PlayerInputState)
    (p : Player) : Locals :=
  attachToLadder ladder (filterInputs inputs)
                 (worldSpaceBounds (clearInteraction inputs p))
                 (beforeAttachment inputs p).

(** Lines 193-325: the blocks that follow the capture of
    [oldOrientation]. *)
Definition resolveMovement (ladder : Grid)
    (interactables : list InteractableEntity) (hasTicks : bool)
    (mv : Moves) (worldSpacePlayerBounds : Rect) (l2 : Locals) : Locals :=
  let l3 := adjustOrientation mv l2 in
  let l4 := ignoreVerticalInAir l3 in
  let l5 := cancelHorizontal l4 in
  let l6 := climb ladder mv worldSpacePlayerBounds l5 in
  let l7 := lookOrCrouch interactables mv worldSpacePlayerBounds l6 in
  let l8 := standUp l7 in
  let l9 := walk hasTicks mv l8 in
  let l10 := land l9 in
  jump mv l10.

(** Lines 189-325 applied to the locals the attachment check leaves. *)
Definition afterAttachment (ladder : Grid)
    (interactables : list InteractableEntity) (hasTicks : bool)
    (mv : Moves) (worldSpacePlayerBounds : Rect) (l1 : Locals) : Locals :=
  resolveMovement ladder interactables hasTicks mv worldSpacePlayerBounds
                  (ignoreHorizontalOnLadder l1).

(** [update]. [hasTicks] is the result of
    [updateAndCheckIfDesiredTicksElapsed(mTimeStepper, 2, dt)];
    [interactables] are the entities [es.each] enumerates. The result
    is the player entity after the call and the events emitted. *)
Definition update (ladder : Grid) (interactables : list InteractableEntity)
    (hasTicks : bool) (inputs : PlayerInputState) (p : Player)
  : Player * list PlayerInteraction :=
  let p0 := clearInteraction inputs p in
  let mv := filterInputs inputs in
  let oldState := mState (controlled p0) in
  let worldSpacePlayerBounds := worldSpaceBounds p0 in
  let l1 := beforeOrientation ladder inputs p in
  let l2 := ignoreHorizontalOnLadder l1 in
  let oldOrientation := mOrientation (controlled (player l2)) in
  let l11 :=
    resolveMovement ladder interactables hasTicks mv worldSpacePlayerBounds
                    l2 in
  let p' := player l11 in
  let changed :=
    negb (PlayerState_eqb (mState (controlled p')) oldState) ||
    negb (Orientation_eqb (mOrientation (controlled p')) oldOrientation) in
  (if changed then updateAnimationStateAndBoundingBox p' else p',
   emitted l11).

(** ** Frame conditions on the blocks of [update] *)

(** A block leaves the world position and the collision box alone. *)
Definition keepsBody (f : Locals -> Locals) : Prop :=
  forall l,
    worldPosition (player (f l)) = worldPosition (player l) /\
    mCollisionRect (physical (player (f l)))
    = mCollisionRect (physical (player l)).

(** A block leaves the orientation alone. *)
Definition keepsOrientation (f : Locals -> Locals) : Prop :=
  forall l,
    mOrientation (controlled (player (f l)))
    = mOrientation (controlled (player l)).

(** The ladder flag of a cell, out of the grid 0. *)
Definition ladderFlag (ladder : Grid) (cell : Vector) : Z :=
  valueAtWithDefault ladder (vx cell) (vy cell) 0.

(** Every flag of the grid is 0 or 1. *)
Definition binaryGrid (g : Grid) : Prop :=
  forall col row, gridValues g col row = 0 \/ gridValues g col row = 1.

(** The condition under which the attachment check looks for a
    ladder: not climbing, up requested and not cancelled by down. *)
Definition attachmentChecked (inputs : PlayerInputState) (p : Player)
  : bool :=
  negb (stateIs ClimbingLadder p) &&
  mMovingUp inputs && negb (mMovingDown inputs).

(** ** Notions used to state facts about [update] *)

(** The test of the lambda of lines 248-269 for one entity: its box,
    built with the size of the player's collision box, meets the
    world-space box of the player. *)
Definition interactableHit (worldSpacePlayerBounds : Rect) (p : Player)
    (e : InteractableEntity) : bool :=
  SDL_HasIntersection
    (mkSDL_Rect
       (vx (entityPosition e))
       (isub (vy (entityPosition e))
             (isub (height (size (mCollisionRect (physical p)))) 1))
       (width (size (mCollisionRect (physical p))))
       (height (size (mCollisionRect (physical p)))))
    (mkSDL_Rect
       (vx (topLeft worldSpacePlayerBounds))
       (vy (topLeft worldSpacePlayerBounds))
       (width (size worldSpacePlayerBounds))
       (height (size worldSpacePlayerBounds))).

Definition interactionOf (e : InteractableEntity) : PlayerInteraction :=
  mkPlayerInteraction (entityId e) (interactableType e).

(** The four states of a player on the ground. *)
Definition onGround (s : PlayerState) : bool :=
  match s with
  | Standing | Walking | Crouching | LookingUp => true
  | Airborne | ClimbingLadder => false
  end.

(** The collision box, the sprite frame and the animation that
    [updateAnimationStateAndBoundingBox] assigns for a state and an
    orientation. *)
Definition boxOf (s : PlayerState) : Rect :=
  mkRect (mkVector 0 0)
         (mkExtents 3 (match s with Crouching => 4 | _ => 5 end)).

Definition frameOf (s : PlayerState) (o : Orientation) : Z :=
  (match s with
   | Standing => 0
   | Walking => 1
   | LookingUp => 16
   | Crouching => 17
   | Airborne => 8
   | ClimbingLadder => 36
   end) + (match o with Right => 39 | Left => 0 end).

Definition animationOf (s : PlayerState) (o : Orientation)
  : option AnimationSequence :=
  match s with
  | Walking => Some (mkAnimationSequence 4 (frameOf s o) (frameOf s o + 3))
  | _ => None
  end.

(** The appearance of the player agrees with its state and
    orientation. *)
Definition consistent (p : Player) : Prop :=
  mCollisionRect (physical p) = boxOf (mState (controlled p)) /\
  hd_error (mFramesToRender p)
  = Some (frameOf (mState (controlled p)) (mOrientation (controlled p))) /\
  animated p
  = animationOf (mState (controlled p)) (mOrientation (controlled p)).

(** A block leaves the sprite frames and the animation alone. *)
Definition keepsSprite (f : Locals -> Locals) : Prop :=
  forall l,
    mFramesToRender (player (f l)) = mFramesToRender (player l) /\
    animated (player (f l)) = animated (player l).

(** A block leaves the horizontal velocity alone. *)
Definition keepsVelocityX (f : Locals -> Locals) : Prop :=
  forall l,
    velX (mVelocity (physical (player (f l))))
    = velX (mVelocity (physical (player l))).

(** A block never turns a request for horizontal movement on. *)
Definition keepsHorizontalOff (f : Locals -> Locals) : Prop :=
  forall l,
    horizontalMovementWanted l = false ->
    horizontalMovementWanted (f l) = false.

(** The ladder grid has a ladder cell in row [row], at one of the
    columns of [box]. *)
Definition ladderCellInRow (ladder : Grid) (box : Rect) (row : Z) : Prop :=
  exists x,
    0 <= x < width (size box) /\
    valueAtWithDefault ladder (iadd x (vx (topLeft box))) row 0 = 1.

(** The player holds a ladder when the attachment check is over: it
    was climbing already or grabs a ladder in this call. *)
Definition onLadder (ladder : Grid) (inputs : PlayerInputState) (p : Player)
  : bool :=
  stateIs ClimbingLadder p ||
  match grabbedLadder ladder inputs p with
  | Some _ => true
  | None => false
  end.

(** ** Three blocks in a form that evaluates well *)

(** [land] with the test of the state first. *)
Definition landStateFirst (l : Locals) : Locals :=
  if stateIs Airborne (player l) &&
     SFeqb (velY (mVelocity (physical (player l)))) f_zero
  then withPlayer (setState Standing (player l)) l
  else l.

(** [lookOrCrouch] with the loop over the interactable entities in
    closed form: the flag is set when some entity is hit, and one
    event is emitted for each entity hit, in order. *)
Definition lookOrCrouchClosed (interactables : list InteractableEntity)
    (mv : Moves) (worldSpacePlayerBounds : Rect) (l : Locals) : Locals :=
  let l0 := withPlayer (setLooking false false (player l)) l in
  if verticalMovementWanted l0 && negb (stateIs ClimbingLadder (player l0))
  then
    if movingUp mv then
      let l1 :=
        withPlayer (setLooking true false (setState LookingUp (player l0)))
                   l0 in
      if negb (mPerformedInteraction (controlled (player l1)))
      then
        mkLocals
          (setPerformedInteraction
             (mPerformedInteraction (controlled (player l1))
              || existsb (interactableHit worldSpacePlayerBounds (player l1))
                         interactables)
             (player l1))
          (horizontalMovementWanted l1) (verticalMovementWanted l1)
          (emitted l1
           ++ map interactionOf
                  (filter (interactableHit worldSpacePlayerBounds (player l1))
                          interactables))
      else l1
    else
      withPlayer
        (setLooking (mIsLookingUp (controlled (player l0))) true
                    (setState Crouching (player l0)))
        l0
  else l0.

(** [climb] given the answers of the two ladder queries. *)
Definition climbWith (canUp canDown : bool) (mv : Moves) (l : Locals)
  : Locals :=
  if stateIs ClimbingLadder (player l) then
    if movingUp mv then
      if canUp
      then withPlayer (setVelocityY f_minus_one (player l)) l
      else withPlayer (setVelocityY f_zero (player l)) l
    else if movingDown mv then
      if canDown
      then withPlayer (setVelocityY f_one (player l)) l
      else
        withVertical false
          (withPlayer
             (setVelocityY f_one
                (setGravityAffected true (setState Airborne (player l))))
             l)
    else withPlayer (setVelocityY f_zero (player l)) l
  else l.

(** [resolveMovement] built from these forms. *)
Definition resolveMovementClosed (ladder : Grid)
    (interactables : list InteractableEntity) (hasTicks : bool)
    (mv : Moves) (worldSpacePlayerBounds : Rect) (l2 : Locals) : Locals :=
  let l3 := adjustOrientation mv l2 in
  let l4 := ignoreVerticalInAir l3 in
  let l5 := cancelHorizontal l4 in
  let l6 :=
    climbWith (canClimbUp ladder worldSpacePlayerBounds)
              (canClimbDown ladder worldSpacePlayerBounds) mv l5 in
  let l7 := lookOrCrouchClosed interactables mv worldSpacePlayerBounds l6 in
  let l8 := standUp l7 in
  let l9 := walk hasTicks mv l8 in
  let l10 := landStateFirst l9 in
  jump mv l10.

(** One call of [update] in a sequence: what the entity manager
    enumerates, the outcome of the tick check and the inputs. *)
Record Step : Type := mkStep {
  stepInteractables : list InteractableEntity;
  stepHasTicks : bool;
  stepInputs : PlayerInputState
}.

(** The player after a sequence of calls of [update]. *)
Fixpoint runUpdates (ladder : Grid) (steps : list Step) (p : Player)
  : Player :=
  match steps with
  | [] => p
  | s :: rest =>
      runUpdates ladder rest
        (fst (update ladder (stepInteractables s) (stepHasTicks s)
                     (stepInputs s) p))
  end.

End PlayerControl.

(* ================================================================== *)
(** * Concrete data used to evaluate the definitions                    *)
(* ================================================================== *)

Module Examples.

Import PlayerControl.

(** A player at [position] with the given orientation and state, at
    rest, with the collision box [initializePlayerEntity] assigns. *)
Definition playerAt (position : Vector) (o : Orientation) (s : PlayerState)
  : Player :=
  mkPlayer
    (mkPlayerControlled o s false false false)
    (mkPhysical (mkRect (mkVector 0 0) (mkExtents 3 5))
                (mkVelocity f_zero f_zero)
                (negb (PlayerState_eqb s ClimbingLadder)))
    [match o with Right => 39 | Left => 0 end]
    position
    None.

(** Two calls of the scroll system: a crouching player who looks down
    while the tick check succeeds, and a player on a ladder left of the
    map. *)
Definition lookingDownFrame : MapScroll.Frame :=
  MapScroll.mkFrame
    (mkPlayerControlled Left Crouching false true false)
    (mkVector 70 90)
    (mkPhysical (mkRect (mkVector 0 0) (mkExtents 3 4))
                (mkVelocity f_zero f_zero) true)
    true.

Definition climbingFrame : MapScroll.Frame :=
  MapScroll.mkFrame
    (mkPlayerControlled Right ClimbingLadder false false false)
    (mkVector (-4) 3)
    (mkPhysical (mkRect (mkVector 0 0) (mkExtents 3 5))
                (mkVelocity f_zero f_minus_one) false)
    false.

(** A 2x2 map of plain background tiles (tile 1 everywhere). *)
Definition smallMap : Map :=
  mkMap 2 2 (fun _ _ _ => 1)
        (fun _ => mkTileAttributes false false false false).

(** A map whose tiles 8 to 11 are a fast animation and whose tiles 12
    to 15 are a slow one. *)
Definition animatedMap : Map :=
  mkMap 2 2 (fun _ col _ => if col =? 0 then 8 else 12)
        (fun t => mkTileAttributes false
                    ((8 <=? t) && (t <? 16))
                    ((8 <=? t) && (t <? 12))
                    false).

Definition someImage : MapRenderer.Image :=
  MapRenderer.mkImage 7 (mkExtents 320 200).

Definition smallRenderer : MapRenderer.MapRenderer :=
  MapRenderer.create smallMap
    (MapRenderer.mkMapRenderData someImage someImage None
       MapRenderer.ScrollNone).

Definition smallRenderData : MapRenderer.MapRenderData :=
  MapRenderer.mkMapRenderData someImage someImage None
    MapRenderer.ScrollNone.

Definition animatedRenderer : MapRenderer.MapRenderer :=
  MapRenderer.ticks 3 (MapRenderer.create animatedMap smallRenderData).

(** An 8x8 ladder grid with a single ladder cell. *)
Definition ladderAtCell (col row : Z) : Grid :=
  setValueAt (newGrid 8 8) col row 1.

(** The same grid with the two ladder cells (5, 1) and (5, 3). *)
Definition ladderAtTwoCells : Grid :=
  setValueAt (ladderAtCell 5 3) 5 1 1.

Definition holdUp : PlayerInputState :=
  mkPlayerInputState false false true false false.

Definition holdDown : PlayerInputState :=
  mkPlayerInputState false false false true false.

End Examples.

(* ================================================================== *)
(** * Facts about machine integers                                      *)
(* ================================================================== *)

Lemma wrap_range (z : Z) : is_int (wrap z).
Proof.
  unfold is_int, wrap, int_min, int_max.
  pose proof (Z.mod_pos_bound (z + 2 ^ 31) (2 ^ 32) ltac:(lia)). lia.
Qed.

Lemma wrap_small (z : Z) : is_int z -> wrap z = z.
Proof.
  unfold is_int, wrap, int_min, int_max. intros H.
  rewrite Z.mod_small; lia.
Qed.

Lemma wrap_congr (a b : Z) :
  a mod 2 ^ 32 = b mod 2 ^ 32 -> wrap a = wrap b.
Proof.
  unfold wrap. intros H.
  rewrite <- (Zplus_mod_idemp_l a), <- (Zplus_mod_idemp_l b), H.
  reflexivity.
Qed.

Lemma wrap_mod (z : Z) : wrap z mod 2 ^ 32 = z mod 2 ^ 32.
Proof.
  unfold wrap.
  rewrite Zminus_mod_idemp_l.
  f_equal. lia.
Qed.

Lemma clamp_range (v lo hi : Z) : lo <= hi -> lo <= clamp v lo hi <= hi.
Proof. unfold clamp. lia. Qed.

Lemma PlayerState_eqb_eq (a b : PlayerState) :
  PlayerState_eqb a b = true <-> a = b.
Proof. destruct a, b; simpl; split; intros H; congruence. Qed.

(* ================================================================== *)
(** * The scroll offset stays inside the map                            *)
(* ================================================================== *)

Section ScrollFacts.

Import MapScroll.

Variable gt : GameTraits.

Lemma update_max (f : Frame) (sys : MapScrollSystem) :
  mMaxScrollOffset (update gt f sys) = mMaxScrollOffset sys.
Proof. reflexivity. Qed.

Lemma update_in_bounds (f : Frame) (sys : MapScrollSystem) :
  0 <= width (mMaxScrollOffset sys) ->
  0 <= height (mMaxScrollOffset sys) ->
  offsetInBounds (update gt f sys).
Proof.
  intros Hw Hh. unfold offsetInBounds, update, updateScrollOffset.
  cbn [scrollOffset mMaxScrollOffset vx vy].
  split; apply clamp_range; assumption.
Qed.

Lemma run_in_bounds (fs : list Frame) :
  forall sys,
    0 <= width (mMaxScrollOffset sys) ->
    0 <= height (mMaxScrollOffset sys) ->
    Forall (fun s => offsetInBounds s /\
                     mMaxScrollOffset s = mMaxScrollOffset sys)
           (run gt fs sys).
Proof.
  induction fs as [|f fs IH]; intros sys Hw Hh; cbn [run].
  - constructor.
  - constructor.
    + split; [apply update_in_bounds; assumption | apply update_max].
    + specialize (IH (update gt f sys)).
      rewrite update_max in IH. apply IH; assumption.
Qed.

Lemma create_max (initialOffset : Vector) (mapWidth mapHeight : Z) :
  0 <= mapViewPortWidthTiles gt <= mapWidth ->
  0 <= mapViewPortHeightTiles gt <= mapHeight ->
  mapWidth <= int_max -> mapHeight <= int_max ->
  maxIsMapMinusViewport gt mapWidth mapHeight
    (create gt initialOffset mapWidth mapHeight).
Proof.
  intros Hw Hh Mw Mh. unfold maxIsMapMinusViewport, create.
  cbn [mMaxScrollOffset width height].
  unfold int_max in *.
  rewrite !wrap_small; [split; reflexivity | |];
    unfold is_int, int_min, int_max; lia.
Qed.

(** C1. Scroll offset invariant: for a map at least as large as the
    viewport (both with [int] dimensions), whatever offset the system
    starts from and whatever player states, positions and tick outcomes
    a sequence of [update] calls sees, the scroll offset after each call
    lies in [0, mapExtent - viewportExtent] on both axes. *)
Theorem scroll_offset_always_in_bounds
    (initialOffset : Vector) (mapWidth mapHeight : Z) (fs : list Frame) :
  0 <= mapViewPortWidthTiles gt <= mapWidth ->
  0 <= mapViewPortHeightTiles gt <= mapHeight ->
  mapWidth <= int_max -> mapHeight <= int_max ->
  Forall
    (fun sys =>
       0 <= vx (scrollOffset sys) <= mapWidth - mapViewPortWidthTiles gt /\
       0 <= vy (scrollOffset sys) <= mapHeight - mapViewPortHeightTiles gt)
    (run gt fs (create gt initialOffset mapWidth mapHeight)).
Proof.
  intros Hw Hh Mw Mh.
  destruct (create_max initialOffset mapWidth mapHeight Hw Hh Mw Mh)
    as [Ew Eh].
  eapply Forall_impl;
    [| apply (run_in_bounds fs (create gt initialOffset mapWidth mapHeight));
       lia].
  intros s [[Hx Hy] Hmax]. cbv beta in *.
  rewrite Hmax in Hx, Hy. rewrite Ew in Hx. rewrite Eh in Hy.
  split; assumption.
Qed.

End ScrollFacts.

(** The invariant on a 64x40 map with the classic 32x20 view, from an
    offset outside the map, over two calls. *)
Lemma scroll_offset_always_in_bounds_witness :
  Forall
    (fun sys =>
       0 <= vx (MapScroll.scrollOffset sys) <= 64 - 32 /\
       0 <= vy (MapScroll.scrollOffset sys) <= 40 - 20)
    (MapScroll.run classicTraits
       [Examples.lookingDownFrame; Examples.climbingFrame]
       (MapScroll.create classicTraits (mkVector 500 (-7)) 64 40)).
Proof.
  apply (scroll_offset_always_in_bounds classicTraits (mkVector 500 (-7))
           64 40 [Examples.lookingDownFrame; Examples.climbingFrame]);
    unfold int_max; simpl; lia.
Defined.

(* ================================================================== *)
(** * Clipping of the tile sweep                                        *)
(* ================================================================== *)

Section RenderFacts.

Import MapRenderer.

Lemma in_upto (n i : Z) : In i (upto n) <-> 0 <= i < n.
Proof.
  unfold upto. rewrite in_map_iff. split.
  - intros [k [Hk Hin]]. apply in_seq in Hin. lia.
  - intros H. exists (Z.to_nat i). split; [lia|].
    apply in_seq. lia.
Qed.

Lemma in_fromTo (from bound i : Z) :
  In i (fromTo from bound) <-> from <= i < bound.
Proof.
  unfold fromTo. rewrite in_map_iff. split.
  - intros [k [Hk Hin]]. apply in_seq in Hin. lia.
  - intros H. exists (Z.to_nat (i - from)). split; [lia|].
    apply in_seq. lia.
Qed.

Lemma in_sectionCells (sectionSize : Extents) (layer y x : Z) :
  In (layer, y, x) (sectionCells sectionSize) ->
  0 <= layer < 2 /\ 0 <= y < height sectionSize /\ 0 <= x < width sectionSize.
Proof.
  unfold sectionCells. intros H.
  apply in_flat_map in H. destruct H as [l [Hl H]].
  apply in_flat_map in H. destruct H as [y' [Hy H]].
  apply in_map_iff in H. destruct H as [x' [E Hx]].
  inversion E; subst.
  apply in_upto in Hl, Hy, Hx. lia.
Qed.

(** For a section that starts at non-negative coordinates and whose
    last column and row are [int]s, the sweep runs to its end and every
    lookup is inside the map. *)
Lemma renderCells_clips (r : MapRenderer) (sectionStart : Vector)
    (sectionSize : Extents) (drawMode : DrawMode) :
  0 <= vx sectionStart -> 0 <= vy sectionStart ->
  vx sectionStart + width sectionSize - 1 <= int_max ->
  vy sectionStart + height sectionSize - 1 <= int_max ->
  forall cells,
    (forall c, In c cells -> In c (sectionCells sectionSize)) ->
    snd (renderCells r sectionStart drawMode cells) = true /\
    forallb (lookupInMap (mpMap r))
            (fst (renderCells r sectionStart drawMode cells)) = true.
Proof.
  intros Hx Hy Mx My cells.
  induction cells as [|[[layer y] x] rest IH]; intros Hin.
  - split; reflexivity.
  - assert (Hrest : forall c, In c rest -> In c (sectionCells sectionSize))
      by (intros c Hc; apply Hin; right; exact Hc).
    specialize (IH Hrest).
    destruct (in_sectionCells sectionSize layer y x (Hin _ (or_introl eq_refl)))
      as [Hl [Hy' Hx']].
    cbn [renderCells].
    assert (Ecol : iadd x (vx sectionStart) = x + vx sectionStart)
      by (apply wrap_small; unfold is_int, int_min, int_max in *; lia).
    assert (Erow : iadd y (vy sectionStart) = y + vy sectionStart)
      by (apply wrap_small; unfold is_int, int_min, int_max in *; lia).
    rewrite Ecol, Erow.
    destruct ((x + vx sectionStart >=? mapWidth (mpMap r)) ||
              (y + vy sectionStart >=? mapHeight (mpMap r))) eqn:Eskip.
    + exact IH.
    + apply orb_false_iff in Eskip. destruct Eskip as [Ec Er].
      assert (Hin' : inMap (mpMap r) (x + vx sectionStart)
                       (y + vy sectionStart) = true).
      { unfold inMap. rewrite !andb_true_iff. lia. }
      unfold tileAt. rewrite Hin'.
      replace ((0 <=? layer) && (layer <? 2)) with true
        by (symmetry; apply andb_true_iff; lia).
      cbn [andb].
      destruct (renderCells r sectionStart drawMode rest)
        as [events finished] eqn:Erest.
      cbn [fst snd] in *. destruct IH as [IH1 IH2].
      split; [exact IH1|].
      cbn [forallb lookupInMap]. rewrite Hin'. cbn [andb].
      rewrite forallb_app, IH2, andb_true_r.
      destruct (negb (Bool.eqb _ _)); [reflexivity|].
      unfold renderTile. destruct (negb _); reflexivity.
Qed.

Lemma renderMapTiles_clips_nonnegative (r : MapRenderer)
    (sectionStart : Vector) (sectionSize : Extents) (drawMode : DrawMode) :
  0 <= vx sectionStart -> 0 <= vy sectionStart ->
  vx sectionStart + width sectionSize - 1 <= int_max ->
  vy sectionStart + height sectionSize - 1 <= int_max ->
  snd (renderMapTiles r sectionStart sectionSize drawMode) = true /\
  forallb (lookupInMap (mpMap r))
          (fst (renderMapTiles r sectionStart sectionSize drawMode)) = true.
Proof.
  intros Hx Hy Mx My. unfold renderMapTiles.
  apply (renderCells_clips r sectionStart sectionSize drawMode Hx Hy Mx My).
  intros c Hc. exact Hc.
Qed.

(** C2. The sweep has no check for a negative column or row: on the
    2x2 map, a one-cell section at origin (-1, 0) makes both
    [renderBackground] and [renderForeground] look up the cell
    (-1, 0), which is outside the map, and the sweep stops there. *)
Theorem render_negative_origin_looks_up_outside_map :
  renderBackground Examples.smallRenderer (mkVector (-1) 0) (mkExtents 1 1)
    = ([TileLookup 0 (-1) 0], false) /\
  renderForeground Examples.smallRenderer (mkVector (-1) 0) (mkExtents 1 1)
    = ([TileLookup 0 (-1) 0], false) /\
  lookupInMap Examples.smallMap (TileLookup 0 (-1) 0) = false.
Proof. repeat split; vm_compute; reflexivity. Qed.

End RenderFacts.

(* ================================================================== *)
(** * The two backdrop textures                                         *)
(* ================================================================== *)

Section BackdropTextureFacts.

Import MapRenderer.

Lemma switchBackdrops_involutive (r : MapRenderer) :
  switchBackdrops (switchBackdrops r) = r.
Proof. destruct r; reflexivity. Qed.



End BackdropTextureFacts.


(* ================================================================== *)
(** * Animated tiles                                                    *)
(* ================================================================== *)

Section AnimationFacts.

Import MapRenderer.

Lemma u32_add_l (a b : Z) : u32 (u32 a + b) = u32 (a + b).
Proof. unfold u32. apply Zplus_mod_idemp_l. Qed.

Lemma ticks_map (n : nat) (r : MapRenderer) : mpMap (ticks n r) = mpMap r.
Proof. induction n as [|n IH]; [reflexivity | exact IH]. Qed.

Lemma ticks_elapsed (n : nat) (r : MapRenderer) :
  mElapsedFrames (ticks (S n) r)
  = u32 (mElapsedFrames r + Z.of_nat (S n)).
Proof.
  induction n as [|n IH].
  - reflexivity.
  - change (mElapsedFrames (ticks (S (S n)) r))
      with (u32 (mElapsedFrames (ticks (S n) r) + 1)).
    rewrite IH, u32_add_l. f_equal. lia.
Qed.

Lemma fast_cycle_period (e : Z) :
  (u32 (e + 4) / FAST_ANIM_FRAME_DELAY) mod ANIM_STATES
  = (e / FAST_ANIM_FRAME_DELAY) mod ANIM_STATES.
Proof.
  unfold u32, FAST_ANIM_FRAME_DELAY, ANIM_STATES.
  change (2 ^ 32) with 4294967296.
  Z.div_mod_to_equations. lia.
Qed.

Lemma slow_cycle_period (e : Z) :
  (u32 (e + 8) / SLOW_ANIM_FRAME_DELAY) mod ANIM_STATES
  = (e / SLOW_ANIM_FRAME_DELAY) mod ANIM_STATES.
Proof.
  unfold u32, SLOW_ANIM_FRAME_DELAY, ANIM_STATES.
  change (2 ^ 32) with 4294967296.
  Z.div_mod_to_equations. lia.
Qed.

(** C9. For an animated tile the drawn index is the base index plus
    the cycle offset [(elapsedFrames / delay) mod 4] (in unsigned 32-bit
    arithmetic, hence plainly so when the four frames of the tile are
    representable), with delay 1 for a fast and 2 for a slow animation;
    the drawn index is the same again after 4 calls of
    [updateAnimatedMapTiles] for a fast tile and after 8 for a slow
    one. *)
Theorem animated_tile_index_cycles (r : MapRenderer) (tileIndex : TileIndex) :
  isAnimated (attributes (mpMap r) tileIndex) = true ->
  let fast := isFastAnimation (attributes (mpMap r) tileIndex) in
  let delay := if fast then 1 else 2 in
  let cycle := (mElapsedFrames r / delay) mod 4 in
  0 <= cycle < 4 /\
  animatedTileIndex r tileIndex = u32 (tileIndex + cycle) /\
  (0 <= tileIndex -> tileIndex + 3 < 2 ^ 32 ->
   animatedTileIndex r tileIndex = tileIndex + cycle) /\
  animatedTileIndex (ticks (if fast then 4 else 8) r) tileIndex
    = animatedTileIndex r tileIndex.
Proof.
  intros Hanim fast delay cycle.
  assert (Hcycle : 0 <= cycle < 4)
    by (subst cycle; apply Z.mod_pos_bound; lia).
  assert (Hformula : animatedTileIndex r tileIndex = u32 (tileIndex + cycle)).
  { unfold animatedTileIndex. rewrite Hanim.
    subst cycle delay fast.
    destruct (isFastAnimation (attributes (mpMap r) tileIndex));
      reflexivity. }
  split; [exact Hcycle|]. split; [exact Hformula|]. split.
  - intros H0 H3. rewrite Hformula. unfold u32.
    apply Z.mod_small. lia.
  - unfold animatedTileIndex.
    rewrite ticks_map, Hanim.
    subst cycle delay fast.
    destruct (isFastAnimation (attributes (mpMap r) tileIndex)).
    + rewrite ticks_elapsed.
      change (Z.of_nat 4) with 4. rewrite fast_cycle_period. reflexivity.
    + rewrite ticks_elapsed.
      change (Z.of_nat 8) with 8. rewrite slow_cycle_period. reflexivity.
Qed.

End AnimationFacts.

(** The fast tile 8 of the example map, three ticks after the renderer
    was created: frame 3 of its cycle is drawn. *)
Lemma animated_tile_index_cycles_witness :
  0 <= 3 < 4 /\
  MapRenderer.animatedTileIndex Examples.animatedRenderer 8 = u32 (8 + 3) /\
  (0 <= 8 -> 8 + 3 < 2 ^ 32 ->
   MapRenderer.animatedTileIndex Examples.animatedRenderer 8 = 8 + 3) /\
  MapRenderer.animatedTileIndex
    (MapRenderer.ticks 4 Examples.animatedRenderer) 8
  = MapRenderer.animatedTileIndex Examples.animatedRenderer 8.
Proof.
  apply (animated_tile_index_cycles Examples.animatedRenderer 8).
  reflexivity.
Defined.

(* ================================================================== *)
(** * The backdrop offset                                               *)
(* ================================================================== *)

Lemma roundHalfUp_nearest : MapRenderer.roundsToNearest MapRenderer.roundHalfUp.
Proof.
  intros q _ _. unfold MapRenderer.roundHalfUp.
  pose proof (Qfloor_le (q + (1 # 2))) as H1.
  pose proof (Qlt_floor (q + (1 # 2))) as H2.
  rewrite inject_Z_plus in H2. change (inject_Z 1) with 1%Q in H2.
  apply Qabs_Qle_condition. split; lra.
Qed.

Lemma nearest_to_half (k n : Z) :
  (Qabs (inject_Z k - inject_Z n / (2 # 1)) <= 1 # 2)%Q ->
  n <= 2 * k + 1 /\ 2 * k <= n + 1.
Proof.
  intros H. apply Qabs_Qle_condition in H. destruct H as [H1 H2].
  unfold Qdiv in *. change (/ 2)%Q with (1 # 2)%Q in *.
  split; rewrite Zle_Qle; rewrite inject_Z_plus, inject_Z_mult;
    change (inject_Z 2) with 2%Q; change (inject_Z 1) with 1%Q; lra.
Qed.

Lemma nearest_to_integer (k n : Z) :
  (Qabs (inject_Z k - inject_Z n / (1 # 1)) <= 1 # 2)%Q -> k = n.
Proof.
  intros H. apply Qabs_Qle_condition in H. destruct H as [H1 H2].
  unfold Qdiv in *. change (/ 1)%Q with 1%Q in *.
  assert (B1 : 2 * n <= 2 * k + 1).
  { rewrite Zle_Qle. rewrite inject_Z_plus, !inject_Z_mult.
    change (inject_Z 2) with 2%Q; change (inject_Z 1) with 1%Q; lra. }
  assert (B2 : 2 * k <= 2 * n + 1).
  { rewrite Zle_Qle. rewrite inject_Z_plus, !inject_Z_mult.
    change (inject_Z 2) with 2%Q; change (inject_Z 1) with 1%Q; lra. }
  lia.
Qed.

Section BackdropFacts.

Import MapRenderer.

Variable gt : GameTraits.
Variable base_round : Q -> Z.

Lemma irem_nonneg (a b : Z) :
  0 <= a -> 0 < b -> irem a b = a mod b /\ 0 <= irem a b < b.
Proof.
  intros Ha Hb. unfold irem. rewrite Z.rem_mod_nonneg by lia.
  split; [reflexivity | apply Z.mod_pos_bound; lia].
Qed.

Lemma imul_parallax (c : Z) :
  0 <= c -> 4 * c <= int_max -> imul c PARALLAX_FACTOR = c * 4 /\ 0 <= c * 4.
Proof.
  intros H0 H1. unfold imul, PARALLAX_FACTOR.
  rewrite wrap_small; [lia|].
  unfold is_int, int_min, int_max in *. lia.
Qed.

(** In the mode the spec calls [ParallaxVertical] the renderer, which
    never names that mode, leaves the offset at the origin. *)
Lemma parallax_vertical_offset (cameraPosition : Vector) (frames : Z) :
  backdropOffset gt base_round ParallaxVertical cameraPosition frames
  = (mkVector 0 0, frames).
Proof. reflexivity. Qed.

(** C3, amended. In the two parallax modes the renderer handles,
    [ParallaxHorizontal] and [ParallaxBoth], and for a camera position
    whose coordinates on the scrolled axes are non-negative with a
    fourfold that is an [int]: the offset on each scrolled axis (x in
    both modes, y in [ParallaxBoth]) is [cameraPosition * 4] modulo the
    viewport extent of the axis and lies in [0, extent); the axis that
    is not scrolled gets offset 0; the frame counter is untouched. *)
Theorem parallax_offset_wraps
    (scrollMode : BackdropScrollMode) (cameraPosition : Vector) (frames : Z) :
  0 < viewPortWidthPx gt -> 0 < viewPortHeightPx gt ->
  scrollMode = ParallaxHorizontal \/ scrollMode = ParallaxBoth ->
  0 <= vx cameraPosition -> 4 * vx cameraPosition <= int_max ->
  (scrollMode = ParallaxBoth ->
   0 <= vy cameraPosition /\ 4 * vy cameraPosition <= int_max) ->
  let result :=
    backdropOffset gt base_round scrollMode cameraPosition frames in
  let offset := fst result in
  vx offset = (vx cameraPosition * 4) mod viewPortWidthPx gt /\
  0 <= vx offset < viewPortWidthPx gt /\
  vy offset =
    (match scrollMode with
     | ParallaxBoth => (vy cameraPosition * 4) mod viewPortHeightPx gt
     | _ => 0
     end) /\
  0 <= vy offset < viewPortHeightPx gt /\
  snd result = frames.
Proof.
  intros HW HH Hmode Hx0 Hx1 Hy result offset.
  destruct (imul_parallax (vx cameraPosition) Hx0 Hx1) as [Ex Px].
  destruct (irem_nonneg (vx cameraPosition * 4) (viewPortWidthPx gt) Px HW)
    as [Rx Bx].
  destruct Hmode as [-> | ->]; subst offset result;
    unfold backdropOffset, wrapBackgroundOffset;
    cbn [BackdropScrollMode_eqb orb fst snd vx vy].
  - rewrite Ex, Rx.
    repeat split; try (rewrite <- Rx; apply Bx); try lia.
    all: change (irem 0 (viewPortHeightPx gt)) with 0; lia.
  - destruct (Hy eq_refl) as [Hy0 Hy1].
    destruct (imul_parallax (vy cameraPosition) Hy0 Hy1) as [Ey Py].
    destruct (irem_nonneg (vy cameraPosition * 4) (viewPortHeightPx gt) Py HH)
      as [Ry By].
    rewrite Ex, Rx, Ey, Ry.
    repeat split; try (rewrite <- Rx; apply Bx);
      try (rewrite <- Ry; apply By).
Qed.

Hypothesis round_nearest : roundsToNearest base_round.

Lemma quotient_in_int (frames : Z) (speedFactor : Q) :
  0 <= frames <= int_max ->
  speedFactor = (1 # 1)%Q \/ speedFactor = (2 # 1)%Q ->
  (inject_Z int_min <= inject_Z frames / speedFactor)%Q /\
  (inject_Z frames / speedFactor <= inject_Z int_max)%Q.
Proof.
  intros [H0 H1] Hs.
  assert (Q0 : (0 <= inject_Z frames)%Q)
    by (change 0%Q with (inject_Z 0); rewrite <- Zle_Qle; exact H0).
  assert (Q1 : (inject_Z frames <= inject_Z int_max)%Q)
    by (rewrite <- Zle_Qle; exact H1).
  assert (Qm : (inject_Z int_min <= 0)%Q)
    by (change 0%Q with (inject_Z 0); rewrite <- Zle_Qle;
        unfold int_min; lia).
  destruct Hs as [-> | ->]; unfold Qdiv;
    [change (/ (1 # 1))%Q with 1%Q | change (/ (2 # 1))%Q with (1 # 2)%Q];
    split; lra.
Qed.

Lemma autoScroll_vertical_pixels (frames : Z) :
  0 <= frames <= int_max ->
  autoScrollOffsetPixels base_round false frames = frames.
Proof.
  intros Hf. unfold autoScrollOffsetPixels.
  destruct (quotient_in_int frames (1 # 1) Hf (or_introl eq_refl))
    as [Hlo Hhi].
  exact (nearest_to_integer _ frames (round_nearest _ Hlo Hhi)).
Qed.

Lemma autoScroll_horizontal_pixels (frames : Z) :
  0 <= frames <= int_max ->
  frames <= 2 * autoScrollOffsetPixels base_round true frames + 1 /\
  2 * autoScrollOffsetPixels base_round true frames <= frames + 1.
Proof.
  intros Hf. unfold autoScrollOffsetPixels.
  destruct (quotient_in_int frames (2 # 1) Hf (or_intror eq_refl))
    as [Hlo Hhi].
  exact (nearest_to_half _ frames (round_nearest _ Hlo Hhi)).
Qed.

(** C7, amended. In the auto-scroll modes, while the frame counter is
    at most the largest [int] (beyond it the rounded counter has no
    defined conversion to [int]), the offset depends on the frame
    counter only, never on the camera. With [AutoHorizontal] it
    is [round(frames / 2) mod viewPortWidthPx] on x; with
    [AutoVertical] it is [viewPortHeightPx - (frames mod
    viewPortHeightPx)] on y, the mirrored offset. The horizontal
    displacement [round(frames / 2)] is half the vertical displacement
    [frames] (exactly for an even counter, within half a pixel for an
    odd one): horizontal auto-scroll advances at half the rate of the
    vertical one. Both modes advance the counter by one. *)
Theorem autoscroll_offset_from_frame_counter
    (cameraPosition : Vector) (frames : Z) :
  0 < viewPortWidthPx gt ->
  0 < viewPortHeightPx gt <= int_max ->
  0 <= frames <= int_max ->
  let horizontal := autoScrollOffsetPixels base_round true frames in
  let vertical := autoScrollOffsetPixels base_round false frames in
  backdropOffset gt base_round AutoHorizontal cameraPosition frames
    = (mkVector (horizontal mod viewPortWidthPx gt) 0, u32 (frames + 1)) /\
  backdropOffset gt base_round AutoVertical cameraPosition frames
    = (mkVector 0 (viewPortHeightPx gt - vertical mod viewPortHeightPx gt),
       u32 (frames + 1)) /\
  vertical = frames /\
  vertical - 1 <= 2 * horizontal <= vertical + 1 /\
  (Z.even frames = true -> 2 * horizontal = vertical).
Proof.
  intros HW HH Hf horizontal vertical.
  assert (Ev : vertical = frames)
    by (apply autoScroll_vertical_pixels; exact Hf).
  destruct (autoScroll_horizontal_pixels frames Hf) as [Hlo Hhi].
  fold horizontal in Hlo, Hhi.
  assert (Hh0 : 0 <= horizontal) by lia.
  split; [|split; [|split; [exact Ev | split; [lia|]]]].
  - unfold backdropOffset. cbn [BackdropScrollMode_eqb orb].
    fold horizontal.
    destruct (irem_nonneg horizontal (viewPortWidthPx gt) Hh0 HW) as [E _].
    rewrite E. reflexivity.
  - unfold backdropOffset. cbn [BackdropScrollMode_eqb orb].
    fold vertical.
    assert (Hv0 : 0 <= vertical) by lia.
    destruct (irem_nonneg vertical (viewPortHeightPx gt) Hv0 (proj1 HH))
      as [E B].
    rewrite E in *. unfold isub. rewrite wrap_small; [reflexivity|].
    unfold is_int, int_min, int_max in *. lia.
  - intros Heven. rewrite Ev.
    apply Z.even_spec in Heven. destruct Heven as [m Hm]. lia.
Qed.

End BackdropFacts.

(** C3, as stated: with [ParallaxHorizontal] and the camera at
    (-1, 0) the offset on x is -4, which is neither (-1 * 4) modulo
    the viewport width nor inside [0, viewPortWidthPx); and in the mode
    the spec calls [ParallaxVertical] the camera at (0, 1) leaves the
    offset on y at 0 and not at 4. *)
Lemma parallax_offset_counterexample :
  let offset :=
    fst (MapRenderer.backdropOffset classicTraits MapRenderer.roundHalfUp
           MapRenderer.ParallaxHorizontal (mkVector (-1) 0) 0) in
  let offset' :=
    fst (MapRenderer.backdropOffset classicTraits MapRenderer.roundHalfUp
           MapRenderer.ParallaxVertical (mkVector 0 1) 0) in
  vx offset = -4 /\
  ~ (0 <= vx offset < viewPortWidthPx classicTraits) /\
  vx offset <> (-1 * 4) mod viewPortWidthPx classicTraits /\
  vy offset' = 0 /\
  vy offset' <> (1 * 4) mod viewPortHeightPx classicTraits.
Proof.
  vm_compute. repeat split; try discriminate.
  intros [H _]. apply H. reflexivity.
Qed.

Lemma parallax_offset_wraps_witness :
  let result :=
    MapRenderer.backdropOffset classicTraits MapRenderer.roundHalfUp
      MapRenderer.ParallaxBoth (mkVector 100 60) 5 in
  vx (fst result) = (100 * 4) mod 320 /\
  0 <= vx (fst result) < 320 /\
  vy (fst result) = (60 * 4) mod 200 /\
  0 <= vy (fst result) < 200 /\
  snd result = 5.
Proof.
  apply (parallax_offset_wraps classicTraits MapRenderer.roundHalfUp
           MapRenderer.ParallaxBoth (mkVector 100 60) 5);
    unfold int_max; simpl; try lia; try (right; reflexivity).
Defined.

(** C7, as stated: at frame 120 the horizontal auto-scroll has moved
    the backdrop by 60 pixels and the vertical one by 120 pixels
    (mirrored to 200 - 120): the horizontal displacement is not twice
    the vertical one, it is half of it. *)
Lemma autoscroll_rate_counterexample :
  MapRenderer.autoScrollOffsetPixels MapRenderer.roundHalfUp true 120 = 60 /\
  MapRenderer.autoScrollOffsetPixels MapRenderer.roundHalfUp false 120
    = 120 /\
  fst (MapRenderer.backdropOffset classicTraits MapRenderer.roundHalfUp
         MapRenderer.AutoHorizontal (mkVector 0 0) 120) = mkVector 60 0 /\
  fst (MapRenderer.backdropOffset classicTraits MapRenderer.roundHalfUp
         MapRenderer.AutoVertical (mkVector 0 0) 120)
    = mkVector 0 (200 - 120) /\
  60 <> 2 * 120.
Proof. vm_compute. repeat split; discriminate. Qed.

Lemma autoscroll_offset_from_frame_counter_witness :
  let horizontal :=
    MapRenderer.autoScrollOffsetPixels MapRenderer.roundHalfUp true 121 in
  let vertical :=
    MapRenderer.autoScrollOffsetPixels MapRenderer.roundHalfUp false 121 in
  MapRenderer.backdropOffset classicTraits MapRenderer.roundHalfUp
    MapRenderer.AutoHorizontal (mkVector 9 9) 121
    = (mkVector (horizontal mod 320) 0, u32 (121 + 1)) /\
  MapRenderer.backdropOffset classicTraits MapRenderer.roundHalfUp
    MapRenderer.AutoVertical (mkVector 9 9) 121
    = (mkVector 0 (200 - vertical mod 200), u32 (121 + 1)) /\
  vertical = 121 /\
  vertical - 1 <= 2 * horizontal <= vertical + 1 /\
  (Z.even 121 = true -> 2 * horizontal = vertical).
Proof.
  apply (autoscroll_offset_from_frame_counter classicTraits
           MapRenderer.roundHalfUp roundHalfUp_nearest (mkVector 9 9) 121);
    unfold int_max; simpl; lia.
Defined.

(* ================================================================== *)
(** * The player control update                                         *)
(* ================================================================== *)

Section PlayerFacts.

Import PlayerControl.

Ltac split_ifs :=
  repeat match goal with
         | |- context [if ?b then _ else _] => destruct b
         end.

Ltac frame_block f := intros l; unfold f; split_ifs; try split; reflexivity.

(** ** Frame conditions *)

Lemma keepsBody_compose (f g : Locals -> Locals) :
  keepsBody f -> keepsBody g -> keepsBody (fun l => g (f l)).
Proof.
  intros Hf Hg l. destruct (Hf l) as [F1 F2]. destruct (Hg (f l)) as [G1 G2].
  split; congruence.
Qed.

Lemma keepsOrientation_compose (f g : Locals -> Locals) :
  keepsOrientation f -> keepsOrientation g ->
  keepsOrientation (fun l => g (f l)).
Proof. intros Hf Hg l. rewrite Hg. apply Hf. Qed.

Lemma keepsBody_interact (box : Rect) (es : list InteractableEntity) :
  keepsBody (fold_left (interactWith box) es).
Proof.
  induction es as [|e es IH]; intros l; cbn [fold_left].
  - split; reflexivity.
  - destruct (IH (interactWith box l e)) as [E1 E2]. rewrite E1, E2.
    unfold interactWith. split_ifs; split; reflexivity.
Qed.

Lemma keepsOrientation_interact (box : Rect) (es : list InteractableEntity) :
  keepsOrientation (fold_left (interactWith box) es).
Proof.
  induction es as [|e es IH]; intros l; cbn [fold_left].
  - reflexivity.
  - rewrite IH. unfold interactWith. split_ifs; reflexivity.
Qed.

Lemma keepsBody_ignoreHorizontalOnLadder : keepsBody ignoreHorizontalOnLadder.
Proof. frame_block ignoreHorizontalOnLadder. Qed.

Lemma keepsBody_adjustOrientation (mv : Moves) :
  keepsBody (adjustOrientation mv).
Proof. frame_block adjustOrientation. Qed.

Lemma keepsBody_ignoreVerticalInAir : keepsBody ignoreVerticalInAir.
Proof. frame_block ignoreVerticalInAir. Qed.

Lemma keepsBody_cancelHorizontal : keepsBody cancelHorizontal.
Proof. frame_block cancelHorizontal. Qed.

Lemma keepsBody_climb (ladder : Grid) (mv : Moves) (box : Rect) :
  keepsBody (climb ladder mv box).
Proof. frame_block climb. Qed.

Lemma keepsBody_lookOrCrouch (es : list InteractableEntity)
    (mv : Moves) (box : Rect) :
  keepsBody (lookOrCrouch es mv box).
Proof.
  intros l. unfold lookOrCrouch. split_ifs; try (split; reflexivity).
  match goal with
  | |- context [fold_left _ _ ?l0] =>
      destruct (keepsBody_interact box es l0) as [E1 E2]
  end.
  rewrite E1, E2. split; reflexivity.
Qed.

Lemma keepsBody_standUp : keepsBody standUp.
Proof. frame_block standUp. Qed.

Lemma keepsBody_walk (hasTicks : bool) (mv : Moves) :
  keepsBody (walk hasTicks mv).
Proof. frame_block walk. Qed.

Lemma keepsBody_land : keepsBody land.
Proof. frame_block land. Qed.

Lemma keepsBody_jump (mv : Moves) : keepsBody (jump mv).
Proof. frame_block jump. Qed.

Lemma keepsBody_resolveMovement (ladder : Grid)
    (es : list InteractableEntity) (hasTicks : bool) (mv : Moves)
    (box : Rect) :
  keepsBody (resolveMovement ladder es hasTicks mv box).
Proof.
  intros l. unfold resolveMovement. cbv zeta.
  split.
  - rewrite (proj1 (keepsBody_jump mv _)), (proj1 (keepsBody_land _)),
      (proj1 (keepsBody_walk hasTicks mv _)), (proj1 (keepsBody_standUp _)),
      (proj1 (keepsBody_lookOrCrouch es mv box _)),
      (proj1 (keepsBody_climb ladder mv box _)),
      (proj1 (keepsBody_cancelHorizontal _)),
      (proj1 (keepsBody_ignoreVerticalInAir _)),
      (proj1 (keepsBody_adjustOrientation mv _)).
    reflexivity.
  - rewrite (proj2 (keepsBody_jump mv _)), (proj2 (keepsBody_land _)),
      (proj2 (keepsBody_walk hasTicks mv _)), (proj2 (keepsBody_standUp _)),
      (proj2 (keepsBody_lookOrCrouch es mv box _)),
      (proj2 (keepsBody_climb ladder mv box _)),
      (proj2 (keepsBody_cancelHorizontal _)),
      (proj2 (keepsBody_ignoreVerticalInAir _)),
      (proj2 (keepsBody_adjustOrientation mv _)).
    reflexivity.
Qed.

Lemma keepsBody_afterAttachment (ladder : Grid)
    (es : list InteractableEntity) (hasTicks : bool) (mv : Moves)
    (box : Rect) :
  keepsBody (afterAttachment ladder es hasTicks mv box).
Proof.
  apply (keepsBody_compose ignoreHorizontalOnLadder
           (resolveMovement ladder es hasTicks mv box)).
  - apply keepsBody_ignoreHorizontalOnLadder.
  - apply keepsBody_resolveMovement.
Qed.

(** ** What the last step of [update] keeps *)

Lemma update_result (ladder : Grid) (es : list InteractableEntity)
    (hasTicks : bool) (inputs : PlayerInputState) (p : Player) :
  let q :=
    player (afterAttachment ladder es hasTicks (filterInputs inputs)
              (worldSpaceBounds (clearInteraction inputs p))
              (beforeOrientation ladder inputs p)) in
  let p' := fst (update ladder es hasTicks inputs p) in
  controlled p' = controlled q /\
  mVelocity (physical p') = mVelocity (physical q) /\
  mGravityAffected (physical p') = mGravityAffected (physical q) /\
  worldPosition p' = worldPosition q /\
  (mCollisionRect (physical p') = mCollisionRect (physical q) \/
   topLeft (mCollisionRect (physical p')) = mkVector 0 0).
Proof.
  intros q p'. subst p'. unfold update. cbn [fst].
  fold (afterAttachment ladder es hasTicks (filterInputs inputs)
          (worldSpaceBounds (clearInteraction inputs p))
          (beforeOrientation ladder inputs p)).
  fold q.
  match goal with
  | |- context [if ?c then _ else _] => destruct c
  end.
  - unfold updateAnimationStateAndBoundingBox. cbn.
    repeat split. right. reflexivity.
  - repeat split. left. reflexivity.
Qed.

(** ** The first blocks *)

Lemma clearInteraction_keeps (inputs : PlayerInputState) (p : Player) :
  let p0 := clearInteraction inputs p in
  worldPosition p0 = worldPosition p /\
  physical p0 = physical p /\
  mState (controlled p0) = mState (controlled p) /\
  mOrientation (controlled p0) = mOrientation (controlled p).
Proof.
  unfold clearInteraction. split_ifs; cbn; repeat split.
Qed.

Lemma worldSpaceBounds_clearInteraction (inputs : PlayerInputState)
    (p : Player) :
  worldSpaceBounds (clearInteraction inputs p) = worldSpaceBounds p.
Proof.
  destruct (clearInteraction_keeps inputs p) as [E1 [E2 _]].
  unfold worldSpaceBounds. rewrite E1, E2. reflexivity.
Qed.

Lemma grabbedLadder_checked (ladder : Grid) (inputs : PlayerInputState)
    (p : Player) :
  grabbedLadder ladder inputs p
  = if attachmentChecked inputs p
    then findLadderTouchPoint ladder (worldSpaceBounds p)
    else None.
Proof.
  unfold grabbedLadder, ladderGrab, beforeAttachment, attachmentChecked.
  rewrite worldSpaceBounds_clearInteraction.
  cbn [player verticalMovementWanted].
  unfold stateIs.
  destruct (clearInteraction_keeps inputs p) as [_ [_ [-> _]]].
  destruct inputs as [ml mr mu md j]. cbn.
  destruct mu, md, (PlayerState_eqb (mState (controlled p)) ClimbingLadder);
    reflexivity.
Qed.

Lemma beforeOrientation_grab (ladder : Grid) (inputs : PlayerInputState)
    (p : Player) :
  beforeOrientation ladder inputs p
  = match grabbedLadder ladder inputs p with
    | Some cell =>
        withPlayer (grabLadder cell (clearInteraction inputs p))
                   (beforeAttachment inputs p)
    | None => beforeAttachment inputs p
    end.
Proof. reflexivity. Qed.

(** ** The search for a ladder *)

Lemma in_boxCells (box : Rect) (cell : Vector) :
  In cell (boxCells box) <->
  vx (topLeft box) <= vx cell < iadd (vx (topLeft box)) (width (size box)) /\
  vy (topLeft box) <= vy cell < iadd (vy (topLeft box)) (height (size box)).
Proof.
  unfold boxCells. rewrite in_flat_map. split.
  - intros [row [Hrow Hin]]. apply in_map_iff in Hin.
    destruct Hin as [col [E Hcol]]. subst cell.
    apply in_fromTo in Hrow, Hcol. cbn. lia.
  - intros [Hc Hr]. exists (vy cell). split.
    + apply in_fromTo. exact Hr.
    + apply in_map_iff. exists (vx cell). split.
      * destruct cell; reflexivity.
      * apply in_fromTo. exact Hc.
Qed.

Lemma findLadderTouchPoint_some (ladder : Grid) (box : Rect) (cell : Vector) :
  findLadderTouchPoint ladder box = Some cell ->
  In cell (boxCells box) /\ ladderFlag ladder cell <> 0.
Proof.
  unfold findLadderTouchPoint. intros H. apply find_some in H.
  destruct H as [Hin Hflag]. split; [exact Hin|].
  unfold ladderFlag. apply negb_true_iff in Hflag.
  apply Z.eqb_neq. exact Hflag.
Qed.

Lemma findLadderTouchPoint_none (ladder : Grid) (box : Rect) :
  findLadderTouchPoint ladder box = None <->
  forall cell, In cell (boxCells box) -> ladderFlag ladder cell = 0.
Proof.
  unfold findLadderTouchPoint, ladderFlag. split.
  - intros H cell Hin.
    pose proof (find_none _ _ H cell Hin) as Hc. cbv beta in Hc.
    apply negb_false_iff in Hc. apply Z.eqb_eq. exact Hc.
  - intros H.
    destruct (find _ (boxCells box)) as [cell|] eqn:E; [|reflexivity].
    apply find_some in E. destruct E as [Hin Hflag].
    rewrite (H cell Hin) in Hflag. discriminate.
Qed.

Lemma canClimbDown_false (ladder : Grid) (box : Rect) :
  (forall col, valueAtWithDefault ladder col (iadd (bottom box) 1) 0 = 0) ->
  canClimbDown ladder box = false.
Proof.
  intros H. unfold canClimbDown.
  apply not_true_is_false. intros E. apply existsb_exists in E.
  destruct E as [x [_ Hx]]. cbv zeta in Hx.
  unfold bottom in H. rewrite H in Hx. discriminate.
Qed.

(** ** Scenarios of the blocks after the attachment check *)

Ltac expose l mv :=
  destruct l as [[[o s lu ld pi] [rect [velx vely] g] frames wp an] hW vW em];
  destruct mv as [ml mr mu md j].

Lemma afterAttachment_climbing_up (ladder : Grid)
    (es : list InteractableEntity) (hasTicks : bool) (mv : Moves)
    (box : Rect) (l : Locals) :
  stateIs ClimbingLadder (player l) = true ->
  movingUp mv = true ->
  jumping mv = false ->
  let q := player (afterAttachment ladder es hasTicks mv box l) in
  mState (controlled q) = ClimbingLadder /\
  mGravityAffected (physical q) = mGravityAffected (physical (player l)).
Proof.
  expose l mv. unfold stateIs. cbn.
  intros Hs -> ->. apply PlayerState_eqb_eq in Hs. subst s.
  unfold afterAttachment, resolveMovement, ignoreHorizontalOnLadder,
    adjustOrientation, ignoreVerticalInAir, cancelHorizontal, climb.
  cbn.
  destruct vW, (canClimbUp ladder box); cbn; split; reflexivity.
Qed.

Lemma afterAttachment_climbing_orientation (ladder : Grid)
    (es : list InteractableEntity) (hasTicks : bool) (mv : Moves)
    (box : Rect) (l : Locals) :
  stateIs ClimbingLadder (player l) = true ->
  mOrientation
    (controlled (player (afterAttachment ladder es hasTicks mv box l)))
  = mOrientation (controlled (player l)).
Proof.
  expose l mv. unfold stateIs. cbn.
  intros Hs. apply PlayerState_eqb_eq in Hs. subst s.
  unfold afterAttachment, resolveMovement, ignoreHorizontalOnLadder,
    adjustOrientation, ignoreVerticalInAir, cancelHorizontal, climb.
  cbn.
  destruct vW, mu, md, (canClimbUp ladder box), (canClimbDown ladder box),
    j; cbn; reflexivity.
Qed.

Lemma afterAttachment_falls_off (ladder : Grid)
    (es : list InteractableEntity) (hasTicks : bool) (mv : Moves)
    (box : Rect) (l : Locals) :
  stateIs ClimbingLadder (player l) = true ->
  movingUp mv = false ->
  movingDown mv = true ->
  canClimbDown ladder box = false ->
  let q := player (afterAttachment ladder es hasTicks mv box l) in
  mState (controlled q) = Airborne /\
  mGravityAffected (physical q) = true /\
  velY (mVelocity (physical q)) = f_one.
Proof.
  expose l mv. unfold stateIs. cbn.
  intros Hs -> -> Hdown. apply PlayerState_eqb_eq in Hs. subst s.
  unfold afterAttachment, resolveMovement, ignoreHorizontalOnLadder,
    adjustOrientation, ignoreVerticalInAir, cancelHorizontal, climb.
  cbn. rewrite Hdown. cbn.
  destruct vW, j; cbn; repeat split; reflexivity.
Qed.

(** ** The ladder flags of a map *)

Lemma setValueAt_binary (g : Grid) (col row value : Z) :
  binaryGrid g -> value = 0 \/ value = 1 ->
  binaryGrid (setValueAt g col row value).
Proof.
  intros Hg Hv c r. unfold setValueAt.
  destruct (inGrid g col row); [|apply Hg].
  cbn [gridValues]. destruct ((c =? col) && (r =? row)); [exact Hv|apply Hg].
Qed.

Lemma fold_setValueAt_binary (f : Z -> Z) (row : Z) (cols : list Z) :
  (forall col, f col = 0 \/ f col = 1) ->
  forall g, binaryGrid g ->
  binaryGrid (fold_left (fun g' col => setValueAt g' col row (f col)) cols g).
Proof.
  intros Hf. induction cols as [|col cols IH]; intros g Hg; cbn [fold_left].
  - exact Hg.
  - apply IH. apply setValueAt_binary; [exact Hg | apply Hf].
Qed.

Lemma fold_rows_binary (m : Map) (rows : list Z) :
  forall g, binaryGrid g ->
  binaryGrid
    (fold_left
       (fun g0 row =>
          fold_left
            (fun g' col =>
               setValueAt g' col row (if ladderAt m col row then 1 else 0))
            (upto (mapWidth m)) g0)
       rows g).
Proof.
  induction rows as [|row rows IH]; intros g Hg; cbn [fold_left].
  - exact Hg.
  - apply IH.
    apply (fold_setValueAt_binary
             (fun col => if ladderAt m col row then 1 else 0)).
    + intros col. destruct (ladderAt m col row); [right|left]; reflexivity.
    + exact Hg.
Qed.

(** The grid the constructor builds holds 0 or 1 in every cell, so a
    flag that is not 0, the test of [findLadderTouchPoint], is a flag
    equal to 1, the test of [canClimbUp] and [canClimbDown]. *)
Lemma ladderFlagsOf_binary (m : Map) (cell : Vector) :
  ladderFlag (ladderFlagsOf m) cell = 0 \/
  ladderFlag (ladderFlagsOf m) cell = 1.
Proof.
  assert (H : binaryGrid (ladderFlagsOf m)).
  { apply fold_rows_binary. intros c r. left. reflexivity. }
  unfold ladderFlag, valueAtWithDefault.
  destruct (inGrid _ _ _); [apply H | left; reflexivity].
Qed.

(** ** The snap to the ladder *)

Lemma wrap_add_mod (a b : Z) :
  (wrap a + b) mod 2 ^ 32 = (a + b) mod 2 ^ 32.
Proof. rewrite Zplus_mod, wrap_mod, <- Zplus_mod. reflexivity. Qed.

Lemma snap_reaches (cx wpx off : Z) :
  is_int cx -> iadd (iadd wpx (isub (isub cx wpx) off)) off = cx.
Proof.
  intros Hcx. unfold iadd, isub.
  rewrite <- (wrap_small cx Hcx) at 2.
  apply wrap_congr.
  rewrite wrap_add_mod.
  replace (wpx + wrap (wrap (cx - wpx) - off) + off)
    with (wrap (wrap (cx - wpx) - off) + (wpx + off)) by lia.
  rewrite wrap_add_mod.
  replace (wrap (cx - wpx) - off + (wpx + off))
    with (wrap (cx - wpx) + wpx) by lia.
  rewrite wrap_add_mod.
  f_equal. lia.
Qed.

Lemma grabbed_cell_in_int (ladder : Grid) (inputs : PlayerInputState)
    (p : Player) (cell : Vector) :
  grabbedLadder ladder inputs p = Some cell ->
  attachmentChecked inputs p = true /\
  In cell (boxCells (worldSpaceBounds p)) /\
  ladderFlag ladder cell <> 0 /\
  is_int (vx cell).
Proof.
  rewrite grabbedLadder_checked.
  destruct (attachmentChecked inputs p); [|discriminate].
  intros H. apply findLadderTouchPoint_some in H. destruct H as [Hin Hflag].
  split; [reflexivity|]. split; [exact Hin|]. split; [exact Hflag|].
  apply in_boxCells in Hin. destruct Hin as [[Hlo Hhi] _].
  pose proof (wrap_range
                (vx (topLeft (worldSpaceBounds p))
                 + width (size (worldSpaceBounds p)))) as Hb.
  unfold iadd in Hhi.
  assert (Hl : is_int (vx (topLeft (worldSpaceBounds p))))
    by (unfold worldSpaceBounds, vadd; cbn [topLeft vx]; apply wrap_range).
  unfold is_int in *. lia.
Qed.

Lemma grab_state (cell : Vector) (p : Player) :
  let q := grabLadder cell p in
  mState (controlled q) = ClimbingLadder /\
  mGravityAffected (physical q) = false /\
  mOrientation (controlled q) = mOrientation (controlled p) /\
  mCollisionRect (physical q) = mCollisionRect (physical p) /\
  worldPosition q =
    mkVector
      (iadd (vx (worldPosition p))
            (isub (isub (vx cell) (vx (worldPosition p)))
                  (offsetForOrientation (mOrientation (controlled p)))))
      (vy (worldPosition p)).
Proof. cbn. repeat split. Qed.

Lemma update_worldPosition (ladder : Grid) (es : list InteractableEntity)
    (hasTicks : bool) (inputs : PlayerInputState) (p : Player) :
  worldPosition (fst (update ladder es hasTicks inputs p))
  = match grabbedLadder ladder inputs p with
    | Some cell =>
        mkVector
          (iadd (vx (worldPosition p))
                (isub (isub (vx cell) (vx (worldPosition p)))
                      (offsetForOrientation (mOrientation (controlled p)))))
          (vy (worldPosition p))
    | None => worldPosition p
    end.
Proof.
  destruct (update_result ladder es hasTicks inputs p)
    as [_ [_ [_ [Hwp _]]]].
  rewrite Hwp.
  rewrite (proj1 (keepsBody_afterAttachment ladder es hasTicks _ _ _)).
  rewrite beforeOrientation_grab.
  destruct (clearInteraction_keeps inputs p) as [Ewp [_ [_ Eo]]].
  destruct (grabbedLadder ladder inputs p) as [cell|].
  - cbn [withPlayer player].
    destruct (grab_state cell (clearInteraction inputs p))
      as [_ [_ [_ [_ Eq]]]].
    rewrite Eq, Ewp, Eo. reflexivity.
  - cbn [beforeAttachment player]. exact Ewp.
Qed.

(** C10. A call of [update] never changes the vertical world position;
    it changes the horizontal one in the snap to a grabbed ladder only:
    without a grab the world position is the one before the call, with
    a grab its x is the one the snap assigns. *)
Theorem update_moves_player_only_in_snap (ladder : Grid)
    (es : list InteractableEntity) (hasTicks : bool)
    (inputs : PlayerInputState) (p : Player) :
  let p' := fst (update ladder es hasTicks inputs p) in
  vy (worldPosition p') = vy (worldPosition p) /\
  match grabbedLadder ladder inputs p with
  | None => worldPosition p' = worldPosition p
  | Some cell =>
      vx (worldPosition p') =
      iadd (vx (worldPosition p))
           (isub (isub (vx cell) (vx (worldPosition p)))
                 (offsetForOrientation (mOrientation (controlled p))))
  end.
Proof.
  intros p'. subst p'. rewrite update_worldPosition.
  destruct (grabbedLadder ladder inputs p) as [cell|];
    split; reflexivity.
Qed.

(** C5. After a call of [update] in which the player grabs the ladder
    cell [cell], the orientation is the one before the call, and the
    snap has put the anchor column on the column of [cell]: for a
    player facing [Left] the world position's x is the column of
    [cell]; for a player facing [Right] the world position's x plus 1
    is. When the collision box has its origin at x = 0, as every box
    the code assigns, the world position's x is the left column of the
    world-space bounding box, so that the column of [cell] is column 0
    of the box for [Left] and column 1 for [Right]. *)
Theorem ladder_snap_aligns_anchor (ladder : Grid)
    (es : list InteractableEntity) (hasTicks : bool)
    (inputs : PlayerInputState) (p : Player) (cell : Vector) :
  grabbedLadder ladder inputs p = Some cell ->
  let p' := fst (update ladder es hasTicks inputs p) in
  let boxAtOrigin := vx (topLeft (mCollisionRect (physical p))) = 0 in
  mOrientation (controlled p') = mOrientation (controlled p) /\
  (mOrientation (controlled p') = Left ->
   vx (worldPosition p') = vx cell /\
   (boxAtOrigin -> vx (topLeft (worldSpaceBounds p')) = vx cell)) /\
  (mOrientation (controlled p') = Right ->
   iadd (vx (worldPosition p')) 1 = vx cell /\
   (boxAtOrigin -> iadd (vx (topLeft (worldSpaceBounds p'))) 1 = vx cell)).
Proof.
  intros Hgrab p' boxAtOrigin. subst boxAtOrigin.
  destruct (grabbed_cell_in_int ladder inputs p cell Hgrab)
    as [_ [_ [_ Hint]]].
  assert (Hx : vx (worldPosition p') =
               iadd (vx (worldPosition p))
                    (isub (isub (vx cell) (vx (worldPosition p)))
                          (offsetForOrientation
                             (mOrientation (controlled p)))))
    by (subst p'; rewrite update_worldPosition, Hgrab; reflexivity).
  destruct (update_result ladder es hasTicks inputs p)
    as [Hc [_ [_ [_ Hrect]]]].
  fold p' in Hc, Hrect.
  destruct (clearInteraction_keeps inputs p) as [_ [Eph [_ Eo]]].
  assert (Ho : mOrientation (controlled p') = mOrientation (controlled p)).
  { rewrite Hc, afterAttachment_climbing_orientation;
      rewrite beforeOrientation_grab, Hgrab; cbn [withPlayer player].
    - rewrite (proj1 (proj2 (proj2 (grab_state cell _)))). exact Eo.
    - reflexivity. }
  assert (Hw : is_int (vx (worldPosition p')))
    by (rewrite Hx; apply wrap_range).
  assert (Hleft : vx (topLeft (mCollisionRect (physical p))) = 0 ->
                  vx (topLeft (worldSpaceBounds p'))
                  = vx (worldPosition p')).
  { intros Hbox.
    assert (Hbox' : vx (topLeft (mCollisionRect (physical p'))) = 0).
    { destruct Hrect as [-> | ->]; [|reflexivity].
      rewrite (proj2 (keepsBody_afterAttachment ladder es hasTicks _ _ _)).
      rewrite beforeOrientation_grab, Hgrab. cbn [withPlayer player].
      rewrite (proj1 (proj2 (proj2 (proj2 (grab_state cell _))))).
      rewrite Eph. exact Hbox. }
    unfold worldSpaceBounds, vadd. cbn [topLeft vx]. rewrite Hbox'.
    unfold iadd. cbn [Z.add]. apply wrap_small. exact Hw. }
  split; [exact Ho|].
  rewrite Ho. split; intros Hside; rewrite Hside in Hx.
  - assert (Hcol : vx (worldPosition p') = vx cell).
    { pose proof (snap_reaches (vx cell) (vx (worldPosition p)) 0 Hint)
        as Hs.
      cbn [offsetForOrientation] in Hx. rewrite <- Hx in Hs.
      unfold iadd in Hs. rewrite Z.add_0_r in Hs.
      rewrite (wrap_small _ Hw) in Hs. exact Hs. }
    split; [exact Hcol|].
    intros Hbox. rewrite (Hleft Hbox). exact Hcol.
  - assert (Hcol : iadd (vx (worldPosition p')) 1 = vx cell).
    { rewrite Hx. cbn [offsetForOrientation].
      apply snap_reaches. exact Hint. }
    split; [exact Hcol|].
    intros Hbox. rewrite (Hleft Hbox). exact Hcol.
Qed.

(** C6. A call of [update] with the player in state [ClimbingLadder],
    down held, up not held, and no ladder flag in the row below the
    world-space bounding box leaves the player [Airborne], affected by
    gravity, with vertical velocity 1.0. *)
Theorem climbing_down_off_ladder_falls (ladder : Grid)
    (es : list InteractableEntity) (hasTicks : bool)
    (inputs : PlayerInputState) (p : Player) :
  mState (controlled p) = ClimbingLadder ->
  mMovingDown inputs = true ->
  mMovingUp inputs = false ->
  (forall col,
      valueAtWithDefault ladder col
        (iadd (bottom (worldSpaceBounds p)) 1) 0 = 0) ->
  let p' := fst (update ladder es hasTicks inputs p) in
  mState (controlled p') = Airborne /\
  mGravityAffected (physical p') = true /\
  velY (mVelocity (physical p')) = f_one.
Proof.
  intros Hstate Hdown Hup Hrow p'.
  destruct (update_result ladder es hasTicks inputs p)
    as [Hc [Hv [Hg _]]].
  fold p' in Hc, Hv, Hg. rewrite Hc, Hv, Hg.
  assert (Hnone : grabbedLadder ladder inputs p = None).
  { rewrite grabbedLadder_checked. unfold attachmentChecked, stateIs.
    rewrite Hstate. reflexivity. }
  rewrite beforeOrientation_grab, Hnone.
  apply afterAttachment_falls_off.
  - unfold stateIs, beforeAttachment. cbn [player].
    rewrite (proj1 (proj2 (proj2 (clearInteraction_keeps inputs p)))).
    rewrite Hstate. reflexivity.
  - destruct inputs as [ml mr mu md j]. cbn in *. subst. reflexivity.
  - destruct inputs as [ml mr mu md j]. cbn in *. subst. reflexivity.
  - rewrite worldSpaceBounds_clearInteraction.
    apply canClimbDown_false. exact Hrow.
Qed.

(** C4, amended. The ladder attachment check looks for a ladder only
    when the player is not climbing and up is held without down. It
    then searches every cell of the player's world-space bounding box,
    the rows from the top of the box to its bottom and the columns from
    left to right, and no cell outside the box: it finds a cell exactly
    when some cell of the box has a ladder flag. When a cell is found,
    the state becomes [ClimbingLadder] and gravity is switched off;
    both still hold when the call returns, unless a jump is requested
    in the same call. *)
Theorem ladder_attachment_searches_box (ladder : Grid)
    (es : list InteractableEntity) (hasTicks : bool)
    (inputs : PlayerInputState) (p : Player) :
  let box := worldSpaceBounds p in
  let attached := player (beforeOrientation ladder inputs p) in
  let p' := fst (update ladder es hasTicks inputs p) in
  grabbedLadder ladder inputs p
    = (if attachmentChecked inputs p
       then findLadderTouchPoint ladder box else None) /\
  (forall cell,
      In cell (boxCells box) <->
      vx (topLeft box) <= vx cell
        < iadd (vx (topLeft box)) (width (size box)) /\
      vy (topLeft box) <= vy cell
        < iadd (vy (topLeft box)) (height (size box))) /\
  (findLadderTouchPoint ladder box = None <->
   forall cell, In cell (boxCells box) -> ladderFlag ladder cell = 0) /\
  (forall cell,
      grabbedLadder ladder inputs p = Some cell ->
      In cell (boxCells box) /\
      ladderFlag ladder cell <> 0 /\
      mState (controlled attached) = ClimbingLadder /\
      mGravityAffected (physical attached) = false /\
      (mJumping inputs = false ->
       mState (controlled p') = ClimbingLadder /\
       mGravityAffected (physical p') = false)).
Proof.
  intros box attached p'.
  split; [apply grabbedLadder_checked|].
  split; [intros cell; apply in_boxCells|].
  split; [apply findLadderTouchPoint_none|].
  intros cell Hgrab.
  destruct (grabbed_cell_in_int ladder inputs p cell Hgrab)
    as [Hchecked [Hin [Hflag _]]].
  split; [exact Hin|]. split; [exact Hflag|].
  assert (Eatt : attached = grabLadder cell (clearInteraction inputs p)).
  { subst attached. rewrite beforeOrientation_grab, Hgrab. reflexivity. }
  destruct (grab_state cell (clearInteraction inputs p))
    as [Gs [Gg _]].
  rewrite Eatt. split; [exact Gs|]. split; [exact Gg|].
  intros Hjump.
  destruct (update_result ladder es hasTicks inputs p)
    as [Hc [_ [Hg _]]].
  fold p' in Hc, Hg. rewrite Hc, Hg.
  fold attached.
  assert (Hup : movingUp (filterInputs inputs) = true).
  { unfold attachmentChecked in Hchecked.
    apply andb_true_iff in Hchecked. destruct Hchecked as [Hc1 Hd].
    apply andb_true_iff in Hc1. destruct Hc1 as [_ Hu].
    apply negb_true_iff in Hd.
    destruct inputs as [ml mr mu md j]. cbn in *. subst. reflexivity. }
  assert (Hj : jumping (filterInputs inputs) = false)
    by (destruct inputs; exact Hjump).
  destruct (afterAttachment_climbing_up ladder es hasTicks
              (filterInputs inputs)
              (worldSpaceBounds (clearInteraction inputs p))
              (beforeOrientation ladder inputs p)) as [Fs Fg];
    try assumption.
  - fold attached. unfold stateIs. rewrite Eatt, Gs. reflexivity.
  - fold attached in Fs, Fg. rewrite Fs, Fg.
    rewrite Eatt, Gg. split; reflexivity.
Qed.

End PlayerFacts.

(** C4, as stated: the only ladder cell is (0, 4), in the bottom row
    of the bounding box of a player standing at (0, 4), whose top row
    is row 0. Neither the top row of the box nor the row above it has
    a ladder cell, and still the player who holds up grabs the ladder
    and is in state [ClimbingLadder] after the call. *)
Lemma ladder_attachment_counterexample :
  let ladder := Examples.ladderAtCell 0 4 in
  let p := Examples.playerAt (mkVector 0 4) Left Standing in
  let box := PlayerControl.worldSpaceBounds p in
  top box = 0 /\
  (forall col, PlayerControl.valueAtWithDefault ladder col (top box - 1) 0
               = 0) /\
  (forall col, PlayerControl.valueAtWithDefault ladder col (top box) 0 = 0) /\
  PlayerControl.grabbedLadder ladder Examples.holdUp p
    = Some (mkVector 0 4) /\
  mState (PlayerControl.controlled
            (fst (PlayerControl.update ladder [] true Examples.holdUp p)))
    = ClimbingLadder.
Proof.
  cbv zeta. split; [reflexivity|].
  split; [|split; [|split; vm_compute; reflexivity]].
  - intros col. change (top _ - 1) with (-1).
    unfold PlayerControl.valueAtWithDefault, PlayerControl.inGrid.
    cbn. rewrite andb_false_r. reflexivity.
  - intros col. change (top _) with 0.
    unfold PlayerControl.valueAtWithDefault, PlayerControl.inGrid.
    cbn. destruct ((0 <=? col) && (col <? 8)); cbn; [|reflexivity].
    rewrite andb_false_r. reflexivity.
Qed.

(** A player at (4, 6) who holds up below the ladder cell (5, 3), in
    the second row of the bounding box: the cell is grabbed, and the
    call returns in state [ClimbingLadder] without gravity. *)
Lemma ladder_attachment_searches_box_witness :
  let ladder := Examples.ladderAtCell 5 3 in
  let p := Examples.playerAt (mkVector 4 6) Right Standing in
  let p' := fst (PlayerControl.update ladder [] true Examples.holdUp p) in
  PlayerControl.grabbedLadder ladder Examples.holdUp p
    = Some (mkVector 5 3) /\
  mState (PlayerControl.controlled p') = ClimbingLadder /\
  mGravityAffected (PlayerControl.physical p') = false.
Proof.
  split; [reflexivity|].
  destruct (ladder_attachment_searches_box (Examples.ladderAtCell 5 3) []
              true Examples.holdUp
              (Examples.playerAt (mkVector 4 6) Right Standing))
    as [_ [_ [_ H]]].
  destruct (H (mkVector 5 3) eq_refl) as [_ [_ [_ [_ H']]]].
  apply H'. reflexivity.
Defined.

(** A player at (4, 6) facing right, whose box spans the columns 4
    to 6, grabs the ladder cell (6, 3): the snap moves the player from
    x = 4 to x = 5, so that column 1 of the box is the ladder column
    6. *)
Lemma ladder_snap_aligns_anchor_witness :
  let ladder := Examples.ladderAtCell 6 3 in
  let p := Examples.playerAt (mkVector 4 6) Right Standing in
  let p' := fst (PlayerControl.update ladder [] true Examples.holdUp p) in
  PlayerControl.grabbedLadder ladder Examples.holdUp p
    = Some (mkVector 6 3) /\
  vx (PlayerControl.worldPosition p) = 4 /\
  vx (PlayerControl.worldPosition p') = 5 /\
  mOrientation (PlayerControl.controlled p') = Right /\
  iadd (vx (PlayerControl.worldPosition p')) 1 = 6 /\
  iadd (vx (topLeft (PlayerControl.worldSpaceBounds p'))) 1 = 6.
Proof.
  assert (Hgrab :
            PlayerControl.grabbedLadder (Examples.ladderAtCell 6 3)
              Examples.holdUp
              (Examples.playerAt (mkVector 4 6) Right Standing)
            = Some (mkVector 6 3)) by (vm_compute; reflexivity).
  destruct (ladder_snap_aligns_anchor (Examples.ladderAtCell 6 3) [] true
              Examples.holdUp
              (Examples.playerAt (mkVector 4 6) Right Standing)
              (mkVector 6 3) Hgrab) as [Ho [_ Hright]].
  destruct (Hright Ho) as [Hcol Hbox].
  split; [exact Hgrab|]. split; [reflexivity|].
  split; [vm_compute; reflexivity|]. split; [exact Ho|].
  split; [exact Hcol|]. apply Hbox. reflexivity.
Defined.

(** A player climbing at (4, 3) holds down; the only ladder cell is
    (5, 3), none is in row 4 below the player. *)
Lemma climbing_down_off_ladder_falls_witness :
  let ladder := Examples.ladderAtCell 5 3 in
  let p := Examples.playerAt (mkVector 4 3) Left ClimbingLadder in
  let p' := fst (PlayerControl.update ladder [] false Examples.holdDown p) in
  mState (PlayerControl.controlled p') = Airborne /\
  mGravityAffected (PlayerControl.physical p') = true /\
  velY (mVelocity (PlayerControl.physical p')) = PlayerControl.f_one.
Proof.
  apply (climbing_down_off_ladder_falls (Examples.ladderAtCell 5 3) [] false
           Examples.holdDown
           (Examples.playerAt (mkVector 4 3) Left ClimbingLadder)).
  - reflexivity.
  - reflexivity.
  - reflexivity.
  - intros col.
    change (iadd (bottom _) 1) with 4.
    unfold PlayerControl.valueAtWithDefault, PlayerControl.inGrid.
    cbn. destruct ((0 <=? col) && (col <? 8)); cbn; [|reflexivity].
    rewrite andb_false_r. reflexivity.
Defined.

(* ================================================================== *)
(** * The dead zone of the scroll system                                *)
(* ================================================================== *)

Section DeadZoneFacts.

Import MapScroll.

Variable gt : GameTraits.

Ltac no_wrap :=
  repeat match goal with
         | |- context [wrap ?z] =>
             lazymatch z with
             | context [wrap _] => fail
             | _ =>
                 rewrite (wrap_small z)
                   by (unfold is_int, int_min, int_max; lia)
             end
         end.

Ltac open_scroll :=
  unfold update, updateScrollOffset, scrollDeadZoneForState,
    ClimbingDeadZone, DefaultDeadZone, bottomRight, bottom, bottomLeft, top,
    vadd, vsub, clamp, iadd, isub, ineg;
  cbn [fState fPosition fPhysical fHasTicks scrollOffset mMaxScrollOffset
       mState mIsLookingDown mIsLookingUp mCollisionRect
       topLeft size vx vy width height].

(** The camera rests while the player stays inside the dead zone: in a
    call without a look nudge, with the player's box between the left
    and right edge and between the top and bottom edge of the dead zone
    of the player's state, an offset that is in range is left as it
    is. (All coordinates and sizes are below 2^20 in magnitude, far
    from the limits of [int].) *)
Theorem camera_rests_inside_dead_zone
    (state : PlayerControlled) (position : Vector) (physical : Physical)
    (hasTicks : bool) (sys : MapScrollSystem) :
  let bound := 2 ^ 20 in
  let w := width (size (mCollisionRect physical)) in
  let h := height (size (mCollisionRect physical)) in
  let ox := vx (scrollOffset sys) in
  let oy := vy (scrollOffset sys) in
  let dzTop := match mState state with ClimbingLadder => 7 | _ => 2 end in
  let dzHeight :=
    mapViewPortHeightTiles gt
    - match mState state with ClimbingLadder => 14 | _ => 3 end in
  0 <= mapViewPortWidthTiles gt <= bound ->
  0 <= mapViewPortHeightTiles gt <= bound ->
  0 <= w <= bound -> 0 <= h <= bound ->
  - bound <= vx position <= bound -> - bound <= vy position <= bound ->
  0 <= ox <= width (mMaxScrollOffset sys) ->
  0 <= oy <= height (mMaxScrollOffset sys) ->
  width (mMaxScrollOffset sys) <= bound ->
  height (mMaxScrollOffset sys) <= bound ->
  hasTicks = false \/
  (mIsLookingDown state = false /\ mIsLookingUp state = false) ->
  11 + ox <= vx position ->
  vx position + (w - 1) <= 11 + ox + (mapViewPortWidthTiles gt - 23 - 1) ->
  dzTop + oy <= vy position - (h - 1) ->
  vy position <= dzTop + oy + (dzHeight - 1) ->
  scrollOffset (update gt (mkFrame state position physical hasTicks) sys)
  = scrollOffset sys.
Proof.
  intros bound w h ox oy dzTop dzHeight.
  subst bound w h ox oy dzTop dzHeight.
  intros Hvw Hvh Hw Hh Hpx Hpy Hox Hoy Mw Mh Hlook Hl Hr Ht Hb.
  destruct sys as [[ox oy] [maxW maxH]].
  destruct position as [px py].
  destruct physical as [[tl [w h]] vel grav].
  destruct state as [o s lu ld pi].
  cbn [scrollOffset mMaxScrollOffset vx vy width height size mCollisionRect
       mState mIsLookingDown mIsLookingUp] in *.
  change (2 ^ 20) with 1048576 in *.
  assert (Hquiet : hasTicks = false \/ (ld = false /\ lu = false))
    by exact Hlook.
  clear Hlook.
  destruct Hquiet as [-> | [-> ->]]; [|destruct hasTicks];
    open_scroll;
    destruct s; cbn [topLeft size vx vy width height] in *;
    no_wrap; f_equal; lia.
Qed.

(** The camera follows a player who leaves the dead zone sideways, as
    far as the map allows: when the player's x is left of the dead
    zone, the new offset puts the left edge of the dead zone on it;
    when the right edge of the player's box is beyond the right edge of
    the dead zone, the new offset puts that edge on it; in both cases
    clamped to [0, maximum]. (The box is not wider than the dead zone;
    all coordinates and sizes are below 2^20 in magnitude.) *)
Theorem camera_follows_sideways
    (state : PlayerControlled) (position : Vector) (physical : Physical)
    (hasTicks : bool) (sys : MapScrollSystem) :
  let bound := 2 ^ 20 in
  let w := width (size (mCollisionRect physical)) in
  let h := height (size (mCollisionRect physical)) in
  let ox := vx (scrollOffset sys) in
  let deadZoneWidth := mapViewPortWidthTiles gt - 23 in
  let ox' :=
    vx (scrollOffset
          (update gt (mkFrame state position physical hasTicks) sys)) in
  23 <= mapViewPortWidthTiles gt <= bound ->
  0 <= mapViewPortHeightTiles gt <= bound ->
  1 <= w <= deadZoneWidth -> 0 <= h <= bound ->
  - bound <= vx position <= bound -> - bound <= vy position <= bound ->
  - bound <= ox <= bound ->
  - bound <= vy (scrollOffset sys) <= bound ->
  (vx position < 11 + ox ->
   ox' = clamp (vx position - 11) 0 (width (mMaxScrollOffset sys))) /\
  (11 + ox + (deadZoneWidth - 1) < vx position + (w - 1) ->
   ox' = clamp (vx position + (w - 1) - (11 + (deadZoneWidth - 1))) 0
               (width (mMaxScrollOffset sys))).
Proof.
  intros bound w h ox deadZoneWidth ox'.
  subst bound w h ox deadZoneWidth ox'.
  intros Hvw Hvh Hw Hh Hpx Hpy Hox Hoy.
  destruct sys as [[ox oy] [maxW maxH]].
  destruct position as [px py].
  destruct physical as [[tl [w h]] vel grav].
  destruct state as [o s lu ld pi].
  cbn [scrollOffset mMaxScrollOffset vx vy width height size mCollisionRect
       mState mIsLookingDown mIsLookingUp] in *.
  change (2 ^ 20) with 1048576 in *.
  split; intros Hout; open_scroll;
    destruct s; cbn [topLeft size vx vy width height] in *;
    no_wrap; unfold clamp; f_equal; lia.
Qed.

End DeadZoneFacts.

Lemma camera_rests_inside_dead_zone_witness :
  MapScroll.scrollOffset
    (MapScroll.update classicTraits
       (MapScroll.mkFrame
          (mkPlayerControlled Left Standing true false false)
          (mkVector 25 20)
          (mkPhysical (mkRect (mkVector 0 0) (mkExtents 3 5))
                      (mkVelocity PlayerControl.f_zero PlayerControl.f_zero)
                      true)
          false)
       (MapScroll.mkMapScrollSystem (mkVector 10 8) (mkExtents 32 20)))
  = mkVector 10 8.
Proof.
  apply (camera_rests_inside_dead_zone classicTraits
           (mkPlayerControlled Left Standing true false false)
           (mkVector 25 20)
           (mkPhysical (mkRect (mkVector 0 0) (mkExtents 3 5))
                       (mkVelocity PlayerControl.f_zero PlayerControl.f_zero)
                       true)
           false
           (MapScroll.mkMapScrollSystem (mkVector 10 8) (mkExtents 32 20)));
    simpl; try lia; try (left; reflexivity).
Defined.

Lemma camera_follows_sideways_witness :
  let ox' :=
    vx (MapScroll.scrollOffset
          (MapScroll.update classicTraits
             (MapScroll.mkFrame
                (mkPlayerControlled Left Walking false false false)
                (mkVector 17 20)
                (mkPhysical (mkRect (mkVector 0 0) (mkExtents 3 5))
                            (mkVelocity PlayerControl.f_minus_one
                                        PlayerControl.f_zero)
                            true)
                false)
             (MapScroll.mkMapScrollSystem (mkVector 10 8)
                                          (mkExtents 32 20)))) in
  (17 < 11 + 10 -> ox' = clamp (17 - 11) 0 32) /\
  (11 + 10 + (32 - 23 - 1) < 17 + (3 - 1) ->
   ox' = clamp (17 + (3 - 1) - (11 + (32 - 23 - 1))) 0 32).
Proof.
  apply (camera_follows_sideways classicTraits
           (mkPlayerControlled Left Walking false false false)
           (mkVector 17 20)
           (mkPhysical (mkRect (mkVector 0 0) (mkExtents 3 5))
                       (mkVelocity PlayerControl.f_minus_one
                                   PlayerControl.f_zero)
                       true)
           false
           (MapScroll.mkMapScrollSystem (mkVector 10 8) (mkExtents 32 20)));
    simpl; lia.
Defined.

(* ================================================================== *)
(** * More on the tile sweep                                            *)
(* ================================================================== *)

Section SweepFacts.

Import MapRenderer.

Lemma upto_nonpositive (n : Z) : n <= 0 -> upto n = [].
Proof.
  intros H. unfold upto. replace (Z.to_nat n) with O by lia. reflexivity.
Qed.

Lemma flat_map_nil {A B : Type} (f : A -> list B) (l : list A) :
  (forall a, f a = []) -> flat_map f l = [].
Proof.
  intros H. induction l as [|a l IH]; cbn; [reflexivity|].
  rewrite H, IH. reflexivity.
Qed.

(** A section without columns or without rows: nothing is looked up,
    nothing is drawn, and the sweep runs to its end. *)
Theorem empty_section_renders_nothing (r : MapRenderer)
    (sectionStart : Vector) (sectionSize : Extents) (drawMode : DrawMode) :
  width sectionSize <= 0 \/ height sectionSize <= 0 ->
  renderMapTiles r sectionStart sectionSize drawMode = ([], true).
Proof.
  intros H. unfold renderMapTiles.
  replace (sectionCells sectionSize) with (@nil (Z * Z * Z)); [reflexivity|].
  symmetry. unfold sectionCells. apply flat_map_nil. intros layer.
  destruct H as [Hw | Hh].
  - rewrite (upto_nonpositive _ Hw). apply flat_map_nil. reflexivity.
  - rewrite (upto_nonpositive _ Hh). reflexivity.
Qed.

Lemma in_renderTile (r : MapRenderer) (t : TileIndex) (x y : Z)
    (e : RenderEvent) :
  In e (renderTile r t x y) <->
  t <> 0 /\ e = TileDraw (animatedTileIndex r t) x y.
Proof.
  unfold renderTile. destruct (t =? 0) eqn:E; cbn.
  - apply Z.eqb_eq in E. split; [contradiction | intros [H _]; contradiction].
  - apply Z.eqb_neq in E. split.
    + intros [H | []]. split; [exact E | symmetry; exact H].
    + intros [_ H]. left. symmetry. exact H.
Qed.

Lemma renderCells_draw_sound (r : MapRenderer) (sectionStart : Vector)
    (drawMode : DrawMode) (tileIndex x y : Z) (cells : list (Z * Z * Z)) :
  In (TileDraw tileIndex x y) (fst (renderCells r sectionStart drawMode cells))
  ->
  exists layer t,
    In (layer, y, x) cells /\
    tileAt (mpMap r) layer (iadd x (vx sectionStart))
           (iadd y (vy sectionStart)) = Some t /\
    t <> 0 /\
    isForeGround (attributes (mpMap r) t) = isForegroundMode drawMode /\
    tileIndex = animatedTileIndex r t.
Proof.
  induction cells as [|[[layer y'] x'] rest IH]; cbn [renderCells fst].
  - intros [].
  - destruct ((iadd x' (vx sectionStart) >=? mapWidth (mpMap r)) ||
              (iadd y' (vy sectionStart) >=? mapHeight (mpMap r))).
    + intros H. destruct (IH H) as [l [t [Hin Hrest]]].
      exists l, t. split; [right; exact Hin | exact Hrest].
    + destruct (tileAt (mpMap r) layer (iadd x' (vx sectionStart))
                  (iadd y' (vy sectionStart))) as [t|] eqn:Et.
      * destruct (renderCells r sectionStart drawMode rest)
          as [events finished].
        cbn [fst] in *. intros [H | H]; [discriminate|].
        apply in_app_or in H. destruct H as [H | H].
        -- destruct (Bool.eqb (isForeGround (attributes (mpMap r) t))
                       (isForegroundMode drawMode)) eqn:Efg;
             cbn [negb] in H; [|destruct H].
           apply in_renderTile in H. destruct H as [Ht E].
           inversion E; subst.
           exists layer, t. split; [left; reflexivity|].
           split; [exact Et|]. split; [exact Ht|].
           split; [apply eqb_prop; exact Efg | reflexivity].
        -- destruct (IH H) as [l [t' [Hin Hrest]]].
           exists l, t'. split; [right; exact Hin | exact Hrest].
      * cbn [fst]. intros [H | []]. discriminate.
Qed.

(** Whatever the section, a tile is drawn only at a position of the
    section, for a cell of the map that holds a tile other than 0
    whose foreground attribute is the one of the draw mode, and with
    the animated index of that tile: tile 0 is never drawn. *)
Theorem sweep_draws_only_visible_tiles (r : MapRenderer)
    (sectionStart : Vector) (sectionSize : Extents) (drawMode : DrawMode)
    (tileIndex x y : Z) :
  In (TileDraw tileIndex x y)
     (fst (renderMapTiles r sectionStart sectionSize drawMode)) ->
  0 <= x < width sectionSize /\ 0 <= y < height sectionSize /\
  exists layer t,
    0 <= layer < 2 /\
    tileAt (mpMap r) layer (iadd x (vx sectionStart))
           (iadd y (vy sectionStart)) = Some t /\
    t <> 0 /\
    isForeGround (attributes (mpMap r) t) = isForegroundMode drawMode /\
    tileIndex = animatedTileIndex r t.
Proof.
  intros H. apply renderCells_draw_sound in H.
  destruct H as [layer [t [Hin Hrest]]].
  apply in_sectionCells in Hin. destruct Hin as [Hl [Hy Hx]].
  split; [exact Hx|]. split; [exact Hy|].
  exists layer, t. split; [exact Hl | exact Hrest].
Qed.

Lemma renderCells_draw_complete (r : MapRenderer) (sectionStart : Vector)
    (drawMode : DrawMode) (layer x y t : Z) (cells : list (Z * Z * Z)) :
  snd (renderCells r sectionStart drawMode cells) = true ->
  In (layer, y, x) cells ->
  tileAt (mpMap r) layer (iadd x (vx sectionStart))
         (iadd y (vy sectionStart)) = Some t ->
  t <> 0 ->
  isForeGround (attributes (mpMap r) t) = isForegroundMode drawMode ->
  In (TileDraw (animatedTileIndex r t) x y)
     (fst (renderCells r sectionStart drawMode cells)).
Proof.
  intros Hfin Hin Ht Hnz Hfg.
  induction cells as [|[[layer' y'] x'] rest IH]; [destruct Hin|].
  cbn [renderCells] in *.
  destruct ((iadd x' (vx sectionStart) >=? mapWidth (mpMap r)) ||
            (iadd y' (vy sectionStart) >=? mapHeight (mpMap r))) eqn:Eskip.
  - destruct Hin as [E | Hin]; [|apply IH; assumption].
    inversion E; subst. exfalso.
    unfold tileAt, inMap in Ht.
    destruct ((0 <=? layer) && (layer <? 2) &&
              ((0 <=? iadd x (vx sectionStart)) &&
               (iadd x (vx sectionStart) <? mapWidth (mpMap r)) &&
               (0 <=? iadd y (vy sectionStart)) &&
               (iadd y (vy sectionStart) <? mapHeight (mpMap r)))) eqn:Ein;
      [|discriminate].
    rewrite !andb_true_iff in Ein. apply orb_true_iff in Eskip. lia.
  - destruct (tileAt (mpMap r) layer' (iadd x' (vx sectionStart))
                (iadd y' (vy sectionStart))) as [t'|] eqn:Et';
      [|cbn in Hfin; discriminate].
    destruct (renderCells r sectionStart drawMode rest)
      as [events finished].
    cbn [fst snd] in *. right. apply in_or_app.
    destruct Hin as [E | Hin].
    + inversion E; subst. left.
      rewrite Ht in Et'. inversion Et'; subst t'.
      rewrite Hfg, eqb_reflx. cbn [negb].
      apply in_renderTile. split; [exact Hnz | reflexivity].
    + right. apply IH; assumption.
Qed.

(** For a section at non-negative coordinates (whose last column and
    row are [int]s), every cell of the section that lies in the map
    and holds, in either layer, a tile other than 0 with the
    foreground attribute of the draw mode is drawn, at its position in
    the section. *)
Theorem sweep_draws_every_visible_tile (r : MapRenderer)
    (sectionStart : Vector) (sectionSize : Extents) (drawMode : DrawMode)
    (layer x y t : Z) :
  0 <= vx sectionStart -> 0 <= vy sectionStart ->
  vx sectionStart + width sectionSize - 1 <= int_max ->
  vy sectionStart + height sectionSize - 1 <= int_max ->
  0 <= layer < 2 -> 0 <= x < width sectionSize ->
  0 <= y < height sectionSize ->
  tileAt (mpMap r) layer (x + vx sectionStart) (y + vy sectionStart)
    = Some t ->
  t <> 0 ->
  isForeGround (attributes (mpMap r) t) = isForegroundMode drawMode ->
  In (TileDraw (animatedTileIndex r t) x y)
     (fst (renderMapTiles r sectionStart sectionSize drawMode)).
Proof.
  intros Hx0 Hy0 Mx My Hl Hx Hy Ht Hnz Hfg.
  destruct (renderMapTiles_clips_nonnegative r sectionStart sectionSize
              drawMode Hx0 Hy0 Mx My) as [Hfin _].
  unfold renderMapTiles in *.
  apply (renderCells_draw_complete r sectionStart drawMode layer x y t);
    try assumption.
  - unfold sectionCells. apply in_flat_map. exists layer.
    split; [apply in_upto; exact Hl|].
    apply in_flat_map. exists y. split; [apply in_upto; exact Hy|].
    apply in_map_iff. exists x. split; [reflexivity | apply in_upto; exact Hx].
  - unfold iadd. rewrite !wrap_small; [exact Ht | |];
      unfold is_int, int_min, int_max in *; lia.
Qed.

Lemma lookupsOf_renderTile (r : MapRenderer) (t : TileIndex) (x y : Z) :
  lookupsOf (renderTile r t x y) = [].
Proof. unfold renderTile. destruct (negb (t =? 0)); reflexivity. Qed.

(** The draw mode has no influence on the cells that are read:
    [renderBackground] and [renderForeground] perform the same lookups
    in the same order and end the same way. *)
Theorem draw_mode_does_not_change_lookups (r : MapRenderer)
    (sectionStart : Vector) (sectionSize : Extents) :
  lookupsOf (fst (renderBackground r sectionStart sectionSize))
  = lookupsOf (fst (renderForeground r sectionStart sectionSize)) /\
  snd (renderBackground r sectionStart sectionSize)
  = snd (renderForeground r sectionStart sectionSize).
Proof.
  unfold renderBackground, renderForeground, renderMapTiles.
  induction (sectionCells sectionSize) as [|[[layer y] x] rest IH].
  - split; reflexivity.
  - cbn [renderCells].
    destruct ((iadd x (vx sectionStart) >=? mapWidth (mpMap r)) ||
              (iadd y (vy sectionStart) >=? mapHeight (mpMap r)));
      [exact IH|].
    destruct (tileAt (mpMap r) layer (iadd x (vx sectionStart))
                (iadd y (vy sectionStart))) as [t|];
      [|split; reflexivity].
    destruct (renderCells r sectionStart Background rest) as [eb fb].
    destruct (renderCells r sectionStart Foreground rest) as [ef ff].
    cbn [fst snd] in *. destruct IH as [IH1 IH2].
    split; [|exact IH2].
    unfold lookupsOf in *. cbn [filter isTileLookup].
    rewrite !filter_app, IH1. f_equal. f_equal.
    destruct (negb (Bool.eqb _ (isForegroundMode Background)));
      destruct (negb (Bool.eqb _ (isForegroundMode Foreground)));
      cbn [filter];
      rewrite ?(lookupsOf_renderTile r t x y);
      try reflexivity;
      fold (lookupsOf (renderTile r t x y));
      rewrite (lookupsOf_renderTile r t x y); reflexivity.
Qed.

End SweepFacts.

Lemma empty_section_renders_nothing_witness :
  MapRenderer.renderMapTiles Examples.smallRenderer (mkVector 1 1)
    (mkExtents 0 5) MapRenderer.Foreground = ([], true).
Proof.
  apply (empty_section_renders_nothing Examples.smallRenderer (mkVector 1 1)
           (mkExtents 0 5) MapRenderer.Foreground).
  left. simpl. lia.
Defined.

Lemma sweep_draws_only_visible_tiles_witness :
  0 <= 1 < 2 /\ 0 <= 0 < 1 /\
  exists layer t,
    0 <= layer < 2 /\
    tileAt Examples.smallMap layer (iadd 1 0) (iadd 0 1) = Some t /\
    t <> 0 /\
    isForeGround (attributes Examples.smallMap t) = false /\
    1 = MapRenderer.animatedTileIndex Examples.smallRenderer t.
Proof.
  apply (sweep_draws_only_visible_tiles Examples.smallRenderer
           (mkVector 0 1) (mkExtents 2 1) MapRenderer.Background 1 1 0).
  vm_compute. repeat (first [left; reflexivity | right]).
Defined.

Lemma sweep_draws_every_visible_tile_witness :
  In (MapRenderer.TileDraw
        (MapRenderer.animatedTileIndex Examples.smallRenderer 1) 1 0)
     (fst (MapRenderer.renderMapTiles Examples.smallRenderer (mkVector 0 1)
             (mkExtents 2 1) MapRenderer.Background)).
Proof.
  apply (sweep_draws_every_visible_tile Examples.smallRenderer
           (mkVector 0 1) (mkExtents 2 1) MapRenderer.Background 1 1 0 1);
    unfold int_max; simpl; try lia; try reflexivity; try discriminate.
Defined.

(* ================================================================== *)
(** * More on the backdrop offset                                       *)
(* ================================================================== *)

Section BackdropRangeFacts.

Import MapRenderer.

Variable gt : GameTraits.
Variable base_round : Q -> Z.

Lemma irem_magnitude (a b : Z) :
  0 < b ->
  - b < irem a b < b /\
  (0 <= a -> 0 <= irem a b) /\ (a <= 0 -> irem a b <= 0).
Proof.
  intros Hb. unfold irem.
  pose proof (Z.rem_bound_abs a b ltac:(lia)) as Habs.
  split; [lia|]. split.
  - intros Ha. apply Z.rem_nonneg; lia.
  - intros Ha. apply Z.rem_nonpos; lia.
Qed.

(** In the parallax modes, for every camera position (negative
    coordinates and overflowing products included), the backdrop
    offset is smaller in magnitude than the viewport extent on each
    axis and has the sign of the camera coordinate times 4 as an
    [int]. *)
Theorem parallax_offset_magnitude
    (scrollMode : BackdropScrollMode) (cameraPosition : Vector) (frames : Z) :
  0 < viewPortWidthPx gt -> 0 < viewPortHeightPx gt ->
  scrollMode = ParallaxHorizontal \/ scrollMode = ParallaxBoth ->
  let offset :=
    fst (backdropOffset gt base_round scrollMode cameraPosition frames) in
  - viewPortWidthPx gt < vx offset < viewPortWidthPx gt /\
  - viewPortHeightPx gt < vy offset < viewPortHeightPx gt /\
  (0 <= imul (vx cameraPosition) PARALLAX_FACTOR -> 0 <= vx offset) /\
  (imul (vx cameraPosition) PARALLAX_FACTOR <= 0 -> vx offset <= 0).
Proof.
  intros HW HH Hmode offset.
  destruct (irem_magnitude (imul (vx cameraPosition) PARALLAX_FACTOR)
              (viewPortWidthPx gt) HW) as [Bx [Px Nx]].
  destruct (irem_magnitude (imul (vy cameraPosition) PARALLAX_FACTOR)
              (viewPortHeightPx gt) HH) as [By _].
  destruct (irem_magnitude 0 (viewPortHeightPx gt) HH) as [B0 _].
  destruct Hmode as [-> | ->]; subst offset;
    unfold backdropOffset, wrapBackgroundOffset;
    cbn [BackdropScrollMode_eqb orb fst vx vy];
    (split; [exact Bx|]); (split; [assumption|]);
    (split; [exact Px | exact Nx]).
Qed.

Hypothesis round_nearest : roundsToNearest base_round.

(** While the frame counter is at most the largest [int] (beyond it
    the rounded counter has no defined conversion to [int]): the
    mirrored vertical auto-scroll offset lies in [1, height], and it
    is the full viewport height, not 0, exactly when the frame counter
    is a multiple of the height (at frame 0 in particular); the
    horizontal auto-scroll offset lies in [0, width). *)
Theorem autoscroll_offset_range (cameraPosition : Vector) (frames : Z) :
  0 < viewPortWidthPx gt ->
  0 < viewPortHeightPx gt <= int_max ->
  0 <= frames <= int_max ->
  let h :=
    fst (backdropOffset gt base_round AutoHorizontal cameraPosition frames) in
  let v :=
    fst (backdropOffset gt base_round AutoVertical cameraPosition frames) in
  0 <= vx h < viewPortWidthPx gt /\ vy h = 0 /\
  vx v = 0 /\ 1 <= vy v <= viewPortHeightPx gt /\
  (vy v = viewPortHeightPx gt <-> frames mod viewPortHeightPx gt = 0).
Proof.
  intros HW HH Hf h v. subst h v.
  unfold backdropOffset. cbn [BackdropScrollMode_eqb orb fst vx vy].
  rewrite (autoScroll_vertical_pixels base_round round_nearest frames Hf).
  destruct (autoScroll_horizontal_pixels base_round round_nearest frames Hf)
    as [Hlo Hhi].
  destruct (irem_nonneg (autoScrollOffsetPixels base_round true frames)
              (viewPortWidthPx gt) ltac:(lia) HW) as [_ Bx].
  destruct (irem_nonneg frames (viewPortHeightPx gt) ltac:(lia) (proj1 HH))
    as [Ey By].
  split; [exact Bx|]. split; [reflexivity|]. split; [reflexivity|].
  unfold isub. rewrite wrap_small
    by (unfold is_int, int_min, int_max in *; lia).
  rewrite Ey in *. split; [lia|]. split; lia.
Qed.

End BackdropRangeFacts.

Lemma parallax_offset_magnitude_witness :
  let offset :=
    fst (MapRenderer.backdropOffset classicTraits MapRenderer.roundHalfUp
           MapRenderer.ParallaxBoth (mkVector (-90) 1000000000) 3) in
  - 320 < vx offset < 320 /\
  - 200 < vy offset < 200 /\
  (0 <= imul (-90) MapRenderer.PARALLAX_FACTOR -> 0 <= vx offset) /\
  (imul (-90) MapRenderer.PARALLAX_FACTOR <= 0 -> vx offset <= 0).
Proof.
  apply (parallax_offset_magnitude classicTraits MapRenderer.roundHalfUp
           MapRenderer.ParallaxBoth (mkVector (-90) 1000000000) 3);
    simpl; try lia.
  right. reflexivity.
Defined.

Lemma autoscroll_offset_range_witness :
  let h :=
    fst (MapRenderer.backdropOffset classicTraits MapRenderer.roundHalfUp
           MapRenderer.AutoHorizontal (mkVector 0 0) 400) in
  let v :=
    fst (MapRenderer.backdropOffset classicTraits MapRenderer.roundHalfUp
           MapRenderer.AutoVertical (mkVector 0 0) 400) in
  0 <= vx h < 320 /\ vy h = 0 /\
  vx v = 0 /\ 1 <= vy v <= 200 /\
  (vy v = 200 <-> 400 mod 200 = 0).
Proof.
  apply (autoscroll_offset_range classicTraits MapRenderer.roundHalfUp
           roundHalfUp_nearest (mkVector 0 0) 400);
    unfold int_max; simpl; lia.
Defined.

(* ================================================================== *)
(** * The ladder flags built by the constructor                         *)
(* ================================================================== *)

Section LadderGridFacts.

Import PlayerControl.

Lemma existsb_upto (c n : Z) :
  existsb (Z.eqb c) (upto n) = (0 <=? c) && (c <? n).
Proof.
  apply eq_true_iff_eq. rewrite existsb_exists, andb_true_iff. split.
  - intros [x [Hin E]]. apply Z.eqb_eq in E. subst x.
    apply in_upto in Hin. lia.
  - intros H. exists c. split; [apply in_upto; lia | apply Z.eqb_refl].
Qed.

Lemma fold_columns_values (f : Z -> Z) (row : Z) (cols : list Z) :
  forall g,
    let g' :=
      fold_left (fun g0 col => setValueAt g0 col row (f col)) cols g in
    gridWidth g' = gridWidth g /\ gridHeight g' = gridHeight g /\
    forall c r,
      gridValues g' c r =
      if (r =? row) && existsb (Z.eqb c) cols && inGrid g c row
      then f c else gridValues g c r.
Proof.
  induction cols as [|col cols IH]; intros g; cbn [fold_left existsb].
  - split; [reflexivity|]. split; [reflexivity|]. intros c r.
    rewrite andb_false_r. reflexivity.
  - destruct (IH (setValueAt g col row (f col))) as [Ew [Eh Ev]].
    assert (Dw : gridWidth (setValueAt g col row (f col)) = gridWidth g)
      by (unfold setValueAt; destruct (inGrid g col row); reflexivity).
    assert (Dh : gridHeight (setValueAt g col row (f col)) = gridHeight g)
      by (unfold setValueAt; destruct (inGrid g col row); reflexivity).
    split; [congruence|]. split; [congruence|].
    intros c r. rewrite Ev.
    assert (Ein : inGrid (setValueAt g col row (f col)) c row
                  = inGrid g c row)
      by (unfold inGrid; rewrite Dw, Dh; reflexivity).
    rewrite Ein.
    destruct (r =? row) eqn:Er; cbn [andb]; [|
      unfold setValueAt; destruct (inGrid g col row); [|reflexivity];
      cbn [gridValues]; rewrite Er, andb_false_r; reflexivity].
    apply Z.eqb_eq in Er. subst r.
    destruct (c =? col) eqn:Ec; cbn [orb andb].
    + apply Z.eqb_eq in Ec. subst c.
      destruct (inGrid g col row) eqn:Eg.
      * rewrite andb_true_r.
        destruct (existsb (Z.eqb col) cols); [reflexivity|].
        unfold setValueAt. rewrite Eg. cbn [gridValues].
        rewrite !Z.eqb_refl. reflexivity.
      * rewrite andb_false_r.
        unfold setValueAt. rewrite Eg. reflexivity.
    + destruct (existsb (Z.eqb c) cols && inGrid g c row); [reflexivity|].
      unfold setValueAt. destruct (inGrid g col row); [|reflexivity].
      cbn [gridValues]. rewrite Ec. reflexivity.
Qed.

Lemma fold_rows_values (f : Z -> Z -> Z) (w : Z) (rows : list Z) :
  forall g,
    let g' :=
      fold_left
        (fun g0 row =>
           fold_left (fun g1 col => setValueAt g1 col row (f col row))
                     (upto w) g0)
        rows g in
    gridWidth g' = gridWidth g /\ gridHeight g' = gridHeight g /\
    forall c r,
      gridValues g' c r =
      if existsb (Z.eqb r) rows && ((0 <=? c) && (c <? w)) && inGrid g c r
      then f c r else gridValues g c r.
Proof.
  induction rows as [|row rows IH]; intros g; cbn [fold_left existsb].
  - split; [reflexivity|]. split; [reflexivity|]. intros c r. reflexivity.
  - pose proof (fold_columns_values (fun col => f col row) row (upto w) g)
      as Hc. cbv zeta in Hc.
    set (g1 := fold_left _ (upto w) g) in *.
    destruct Hc as [Cw [Ch Cv]].
    destruct (IH g1) as [Ew [Eh Ev]].
    split; [congruence|]. split; [congruence|].
    intros c r. rewrite Ev, Cv, existsb_upto.
    assert (Ein : forall x y, inGrid g1 x y = inGrid g x y)
      by (intros x y; unfold inGrid; rewrite Cw, Ch; reflexivity).
    rewrite Ein.
    destruct (r =? row) eqn:Er; cbn [orb andb].
    + apply Z.eqb_eq in Er. subst r.
      destruct ((0 <=? c) && (c <? w)); cbn [andb];
        [|rewrite !andb_false_r; reflexivity].
      destruct (inGrid g c row); [|rewrite !andb_false_r; reflexivity].
      rewrite !andb_true_r. destruct (existsb (Z.eqb row) rows); reflexivity.
    + reflexivity.
Qed.

(** The grid the constructor builds has the dimensions of the map, and
    the flag it returns for a cell, with default 0, is 1 exactly when
    the cell lies in the map and the tile of either layer is a ladder;
    it is 0 for every other cell, outside the map included. *)
Theorem ladder_flags_mark_ladder_tiles (m : Map) (col row : Z) :
  gridWidth (ladderFlagsOf m) = mapWidth m /\
  gridHeight (ladderFlagsOf m) = mapHeight m /\
  valueAtWithDefault (ladderFlagsOf m) col row 0 =
  if inMap m col row &&
     (isLadder (attributes m (mapTiles m 0 col row)) ||
      isLadder (attributes m (mapTiles m 1 col row)))
  then 1 else 0.
Proof.
  pose proof (fold_rows_values
                (fun c r => if ladderAt m c r then 1 else 0)
                (mapWidth m) (upto (mapHeight m))
                (newGrid (mapWidth m) (mapHeight m))) as H.
  cbv beta zeta in H. fold (ladderFlagsOf m) in H.
  destruct H as [Ew [Eh Ev]].
  split; [exact Ew|]. split; [exact Eh|].
  unfold valueAtWithDefault.
  assert (Ein : inGrid (ladderFlagsOf m) col row = inMap m col row)
    by (unfold inGrid, inMap; rewrite Ew, Eh; reflexivity).
  rewrite Ein, Ev, existsb_upto.
  change (inGrid (newGrid (mapWidth m) (mapHeight m)) col row)
    with (inMap m col row).
  change (gridValues (newGrid (mapWidth m) (mapHeight m)) col row) with 0.
  destruct (inMap m col row) eqn:Em; [|reflexivity].
  assert (Er : (0 <=? row) && (row <? mapHeight m) = true /\
               (0 <=? col) && (col <? mapWidth m) = true).
  { unfold inMap in Em. rewrite !andb_true_iff in *. tauto. }
  destruct Er as [Er Ec]. rewrite Er, Ec. cbn [andb].
  unfold ladderAt, tileAt. rewrite Em. cbn.
  destruct (isLadder _ || isLadder _); reflexivity.
Qed.

End LadderGridFacts.

(* ================================================================== *)
(** * More on the player control update                                 *)
(* ================================================================== *)

Section UpdateFacts.

Import PlayerControl.

Ltac split_ifs :=
  repeat match goal with
         | |- context [if ?b then _ else _] => destruct b
         end.

Ltac frame_block f := intros l; unfold f; split_ifs; try split; reflexivity.

Ltac unfold_blocks :=
  cbv beta delta [ignoreHorizontalOnLadder adjustOrientation
                  ignoreVerticalInAir cancelHorizontal climb lookOrCrouch
                  standUp walk land jump].

(** ** The interaction loop in closed form *)

Lemma interactWith_hit (box : Rect) (l : Locals) (e : InteractableEntity) :
  interactWith box l e =
  if interactableHit box (player l) e
  then mkLocals (setPerformedInteraction true (player l))
                (horizontalMovementWanted l) (verticalMovementWanted l)
                (emitted l ++ [interactionOf e])
  else l.
Proof. reflexivity. Qed.

Lemma interact_all (box : Rect) (es : list InteractableEntity) :
  forall l,
    fold_left (interactWith box) es l =
    mkLocals
      (if existsb (interactableHit box (player l)) es
       then setPerformedInteraction true (player l) else player l)
      (horizontalMovementWanted l) (verticalMovementWanted l)
      (emitted l
       ++ map interactionOf (filter (interactableHit box (player l)) es)).
Proof.
  induction es as [|e es IH]; intros l; cbn [fold_left existsb filter map].
  - rewrite app_nil_r. destruct l; reflexivity.
  - rewrite IH, interactWith_hit.
    destruct (interactableHit box (player l) e) eqn:Ehit.
    + cbn [player horizontalMovementWanted verticalMovementWanted emitted
           orb map].
      change (interactableHit box (setPerformedInteraction true (player l)))
        with (interactableHit box (player l)).
      rewrite <- app_assoc. cbn [app].
      destruct (existsb (interactableHit box (player l)) es); reflexivity.
    + cbn [orb]. reflexivity.
Qed.

Lemma interact_all_flag (box : Rect) (es : list InteractableEntity)
    (l : Locals) :
  fold_left (interactWith box) es l =
  mkLocals
    (setPerformedInteraction
       (mPerformedInteraction (controlled (player l))
        || existsb (interactableHit box (player l)) es)
       (player l))
    (horizontalMovementWanted l) (verticalMovementWanted l)
    (emitted l
     ++ map interactionOf (filter (interactableHit box (player l)) es)).
Proof.
  rewrite interact_all.
  destruct (existsb (interactableHit box (player l)) es).
  - rewrite orb_true_r. reflexivity.
  - rewrite orb_false_r.
    destruct l as [[[o s lu ld pi] ph frames wp an] hW vW em]. reflexivity.
Qed.

(** ** Frame conditions of the blocks *)

Ltac frame_blocks :=
  intros l; unfold_blocks; cbv zeta; rewrite ?interact_all;
  split_ifs; try split; reflexivity.

Lemma keepsSprite_blocks (ladder : Grid) (es : list InteractableEntity)
    (hasTicks : bool) (mv : Moves) (box : Rect) :
  keepsSprite ignoreHorizontalOnLadder /\
  keepsSprite (adjustOrientation mv) /\
  keepsSprite ignoreVerticalInAir /\
  keepsSprite cancelHorizontal /\
  keepsSprite (climb ladder mv box) /\
  keepsSprite (lookOrCrouch es mv box) /\
  keepsSprite standUp /\
  keepsSprite (walk hasTicks mv) /\
  keepsSprite land /\
  keepsSprite (jump mv).
Proof.
  repeat apply conj; frame_blocks.
Qed.

Lemma keepsSprite_afterAttachment (ladder : Grid)
    (es : list InteractableEntity) (hasTicks : bool) (mv : Moves)
    (box : Rect) :
  keepsSprite (afterAttachment ladder es hasTicks mv box).
Proof.
  destruct (keepsSprite_blocks ladder es hasTicks mv box)
    as [K1 [K2 [K3 [K4 [K5 [K6 [K7 [K8 [K9 K10]]]]]]]]].
  intros l. unfold afterAttachment, resolveMovement. cbv zeta.
  split.
  - rewrite (proj1 (K10 _)), (proj1 (K9 _)), (proj1 (K8 _)),
      (proj1 (K7 _)), (proj1 (K6 _)), (proj1 (K5 _)), (proj1 (K4 _)),
      (proj1 (K3 _)), (proj1 (K2 _)), (proj1 (K1 _)).
    reflexivity.
  - rewrite (proj2 (K10 _)), (proj2 (K9 _)), (proj2 (K8 _)),
      (proj2 (K7 _)), (proj2 (K6 _)), (proj2 (K5 _)), (proj2 (K4 _)),
      (proj2 (K3 _)), (proj2 (K2 _)), (proj2 (K1 _)).
    reflexivity.
Qed.

(** What the blocks before the last step leave of the player given to
    [update]. *)
Lemma beforeLastStep_keeps (ladder : Grid) (es : list InteractableEntity)
    (hasTicks : bool) (inputs : PlayerInputState) (p : Player) :
  let q :=
    player (afterAttachment ladder es hasTicks (filterInputs inputs)
              (worldSpaceBounds (clearInteraction inputs p))
              (beforeOrientation ladder inputs p)) in
  mCollisionRect (physical q) = mCollisionRect (physical p) /\
  mFramesToRender q = mFramesToRender p /\
  animated q = animated p.
Proof.
  intros q. subst q.
  rewrite (proj2 (keepsBody_afterAttachment ladder es hasTicks _ _ _)).
  rewrite (proj1 (keepsSprite_afterAttachment ladder es hasTicks _ _ _)).
  rewrite (proj2 (keepsSprite_afterAttachment ladder es hasTicks _ _ _)).
  rewrite beforeOrientation_grab.
  assert (E : forall b,
             mCollisionRect (physical (setPerformedInteraction b p))
             = mCollisionRect (physical p) /\
             mFramesToRender (setPerformedInteraction b p)
             = mFramesToRender p /\
             animated (setPerformedInteraction b p) = animated p)
    by (intros b; repeat split).
  destruct (grabbedLadder ladder inputs p) as [cell|];
    unfold beforeAttachment, clearInteraction;
    destruct (mPerformedInteraction (controlled p) && negb (mMovingUp inputs));
    cbn; repeat split.
Qed.

Lemma PlayerState_eqb_refl (s : PlayerState) : PlayerState_eqb s s = true.
Proof. destruct s; reflexivity. Qed.

Lemma Orientation_eqb_eq (a b : Orientation) :
  Orientation_eqb a b = true <-> a = b.
Proof. destruct a, b; cbn; split; intros H; congruence. Qed.

Lemma updateAnimation_consistent (q : Player) :
  mFramesToRender q <> [] ->
  consistent (updateAnimationStateAndBoundingBox q).
Proof.
  intros Hne. unfold consistent, updateAnimationStateAndBoundingBox.
  cbn [controlled physical mCollisionRect mFramesToRender animated].
  destruct (mFramesToRender q) as [|f rest]; [contradiction|].
  destruct (mState (controlled q)), (mOrientation (controlled q));
    repeat split.
Qed.

(** ** The appearance follows the state *)

Lemma update_consistent (ladder : Grid) (es : list InteractableEntity)
    (hasTicks : bool) (inputs : PlayerInputState) (p : Player) :
  consistent p -> consistent (fst (update ladder es hasTicks inputs p)).
Proof.
  intros [Hbox [Hframe Hanim]].
  destruct (beforeLastStep_keeps ladder es hasTicks inputs p)
    as [Kbox [Kframes Kanim]].
  cbv zeta in Kbox, Kframes, Kanim.
  unfold update. cbn [fst].
  fold (afterAttachment ladder es hasTicks (filterInputs inputs)
          (worldSpaceBounds (clearInteraction inputs p))
          (beforeOrientation ladder inputs p)).
  set (q := player (afterAttachment ladder es hasTicks (filterInputs inputs)
                      (worldSpaceBounds (clearInteraction inputs p))
                      (beforeOrientation ladder inputs p))) in *.
  match goal with
  | |- consistent (if ?c then _ else _) => destruct c eqn:Echanged
  end.
  - apply updateAnimation_consistent. rewrite Kframes.
    intros E. rewrite E in Hframe. discriminate.
  - apply orb_false_iff in Echanged. destruct Echanged as [Es Eo].
    apply negb_false_iff in Es, Eo.
    apply PlayerState_eqb_eq in Es. apply Orientation_eqb_eq in Eo.
    rewrite (proj1 (proj2 (proj2 (clearInteraction_keeps inputs p)))) in Es.
    assert (Eo' : mOrientation (controlled q) = mOrientation (controlled p)).
    { rewrite Eo. unfold ignoreHorizontalOnLadder.
      rewrite beforeOrientation_grab.
      destruct (clearInteraction_keeps inputs p) as [_ [_ [_ Ho]]].
      destruct (grabbedLadder ladder inputs p) as [cell|].
      - cbn [withPlayer player stateIs]. split_ifs; cbn; exact Ho.
      - split_ifs; cbn; exact Ho. }
    unfold consistent. rewrite Kbox, Kframes, Kanim, Es, Eo'.
    repeat split; assumption.
Qed.

(** From the entity [initializePlayerEntity] sets up, after any
    sequence of calls of [update], the collision box, the first sprite
    frame and the animation are the ones that belong to the state and
    the orientation: the box is 3 wide and 5 high, 4 high exactly when
    crouching; the frame is the one of the state, 39 further for
    [Right]; an animation is attached exactly when walking. *)
Theorem appearance_follows_state (ladder : Grid) (steps : list Step)
    (position : Vector) (isFacingRight : bool) :
  let p :=
    runUpdates ladder steps (initializePlayerEntity position isFacingRight) in
  mCollisionRect (physical p) = boxOf (mState (controlled p)) /\
  hd_error (mFramesToRender p)
  = Some (frameOf (mState (controlled p)) (mOrientation (controlled p))) /\
  animated p
  = animationOf (mState (controlled p)) (mOrientation (controlled p)).
Proof.
  intros p. subst p.
  assert (H0 : consistent (initializePlayerEntity position isFacingRight))
    by (destruct isFacingRight; repeat split).
  revert H0. generalize (initializePlayerEntity position isFacingRight).
  induction steps as [|s steps IH]; intros p Hp; cbn [runUpdates].
  - exact Hp.
  - apply IH. apply update_consistent. exact Hp.
Qed.

(** ** Orientation *)

Lemma keepsOrientation_blocks (ladder : Grid) (es : list InteractableEntity)
    (hasTicks : bool) (mv : Moves) (box : Rect) :
  keepsOrientation ignoreHorizontalOnLadder /\
  keepsOrientation ignoreVerticalInAir /\
  keepsOrientation cancelHorizontal /\
  keepsOrientation (climb ladder mv box) /\
  keepsOrientation (lookOrCrouch es mv box) /\
  keepsOrientation standUp /\
  keepsOrientation (walk hasTicks mv) /\
  keepsOrientation land /\
  keepsOrientation (jump mv).
Proof. repeat apply conj; frame_blocks. Qed.

Lemma resolveMovement_orientation (ladder : Grid)
    (es : list InteractableEntity) (hasTicks : bool) (mv : Moves)
    (box : Rect) (l : Locals) :
  mOrientation (controlled (player (resolveMovement ladder es hasTicks mv
                                      box l)))
  = if horizontalMovementWanted l
    then (if movingLeft mv then Left else Right)
    else mOrientation (controlled (player l)).
Proof.
  destruct (keepsOrientation_blocks ladder es hasTicks mv box)
    as [_ [K3 [K4 [K5 [K6 [K7 [K8 [K9 K10]]]]]]]].
  unfold resolveMovement. cbv zeta.
  rewrite K10, K9, K8, K7, K6, K5, K4, K3.
  unfold adjustOrientation.
  destruct (horizontalMovementWanted l); reflexivity.
Qed.

Lemma beforeOrientation_fields (ladder : Grid) (inputs : PlayerInputState)
    (p : Player) :
  let l1 := beforeOrientation ladder inputs p in
  let mv := filterInputs inputs in
  stateIs ClimbingLadder (player l1) = onLadder ladder inputs p /\
  mOrientation (controlled (player l1)) = mOrientation (controlled p) /\
  horizontalMovementWanted l1 = movingLeft mv || movingRight mv /\
  verticalMovementWanted l1 = movingUp mv || movingDown mv /\
  emitted l1 = [] /\
  mPerformedInteraction (controlled (player l1))
  = mPerformedInteraction (controlled p) && mMovingUp inputs /\
  mVelocity (physical (player l1)) = mVelocity (physical p).
Proof.
  intros l1 mv. subst l1 mv. rewrite beforeOrientation_grab.
  unfold onLadder, stateIs.
  destruct (grabbedLadder ladder inputs p) as [cell|];
    unfold beforeAttachment, clearInteraction;
    cbn [withPlayer player horizontalMovementWanted verticalMovementWanted
         emitted];
    destruct (mPerformedInteraction (controlled p)) eqn:Ef;
    destruct (mMovingUp inputs) eqn:Eu; cbn;
    rewrite ?Ef, ?orb_true_r, ?orb_false_r; repeat split.
Qed.

(** The orientation after a call: the direction of the horizontal
    input when exactly one of left and right is pressed and the player
    holds no ladder once the attachment check is over, the orientation
    before the call in every other case. *)
Theorem orientation_follows_horizontal_input (ladder : Grid)
    (es : list InteractableEntity) (hasTicks : bool)
    (inputs : PlayerInputState) (p : Player) :
  let mv := filterInputs inputs in
  let p' := fst (update ladder es hasTicks inputs p) in
  mOrientation (controlled p') =
  if (movingLeft mv || movingRight mv) && negb (onLadder ladder inputs p)
  then (if movingLeft mv then Left else Right)
  else mOrientation (controlled p).
Proof.
  intros mv p'.
  destruct (update_result ladder es hasTicks inputs p) as [Hc _].
  fold p' in Hc. rewrite Hc.
  unfold afterAttachment. rewrite resolveMovement_orientation.
  destruct (beforeOrientation_fields ladder inputs p)
    as [Hs [Ho [Hh _]]].
  cbv zeta in Hs, Ho, Hh. fold mv in Hh.
  unfold ignoreHorizontalOnLadder. rewrite Hs.
  destruct (onLadder ladder inputs p);
    cbn [withHorizontal horizontalMovementWanted player negb].
  - rewrite andb_false_r. exact Ho.
  - rewrite Hh, andb_true_r, Ho. reflexivity.
Qed.

(** ** Horizontal velocity *)

Lemma keepsVelocityX_blocks (ladder : Grid) (es : list InteractableEntity)
    (mv : Moves) (box : Rect) :
  keepsVelocityX land /\ keepsVelocityX (jump mv).
Proof. repeat apply conj; frame_blocks. Qed.

Lemma keepsHorizontalOff_blocks (ladder : Grid)
    (es : list InteractableEntity) (mv : Moves) (box : Rect) :
  keepsHorizontalOff (adjustOrientation mv) /\
  keepsHorizontalOff ignoreVerticalInAir /\
  keepsHorizontalOff cancelHorizontal /\
  keepsHorizontalOff (climb ladder mv box) /\
  keepsHorizontalOff (lookOrCrouch es mv box) /\
  keepsHorizontalOff standUp.
Proof.
  repeat apply conj; intros l Hoff; unfold_blocks; cbv zeta;
    rewrite ?interact_all;
    repeat match goal with
           | |- context [if ?b then _ else _] => destruct b eqn:?
           end;
    cbn; congruence.
Qed.

Lemma resolveMovement_stops (ladder : Grid)
    (es : list InteractableEntity) (hasTicks : bool) (mv : Moves)
    (box : Rect) (l : Locals) :
  horizontalMovementWanted l = false ->
  velX (mVelocity (physical (player (resolveMovement ladder es hasTicks mv
                                       box l)))) = f_zero.
Proof.
  intros Hoff.
  destruct (keepsVelocityX_blocks ladder es mv box) as [V9 V10].
  destruct (keepsHorizontalOff_blocks ladder es mv box)
    as [H2 [H3 [H4 [H5 [H6 H7]]]]].
  unfold resolveMovement. cbv zeta. rewrite V10, V9.
  unfold walk at 1.
  rewrite (H7 _ (H6 _ (H5 _ (H4 _ (H3 _ (H2 _ Hoff)))))).
  cbn [negb]. split_ifs; reflexivity.
Qed.

(** Stopping is immediate: when neither or both of left and right are
    pressed, or the player holds a ladder once the attachment check is
    over, the horizontal velocity after the call is 0, whatever it
    was, in every state and whatever the tick check says. *)
Theorem no_horizontal_request_stops (ladder : Grid)
    (es : list InteractableEntity) (hasTicks : bool)
    (inputs : PlayerInputState) (p : Player) :
  mMovingLeft inputs = mMovingRight inputs \/
  onLadder ladder inputs p = true ->
  velX (mVelocity (physical (fst (update ladder es hasTicks inputs p))))
  = f_zero.
Proof.
  intros H.
  destruct (update_result ladder es hasTicks inputs p) as [_ [Hv _]].
  rewrite Hv. unfold afterAttachment. apply resolveMovement_stops.
  destruct (beforeOrientation_fields ladder inputs p)
    as [Hs [_ [Hh _]]].
  cbv zeta in Hs, Hh.
  unfold ignoreHorizontalOnLadder. rewrite Hs.
  destruct (onLadder ladder inputs p); [reflexivity|].
  rewrite Hh. destruct H as [H | H]; [|discriminate].
  destruct inputs as [ml mr mu md j]. cbn in *. subst mr.
  destruct ml; reflexivity.
Qed.

End UpdateFacts.

(* ================================================================== *)
(** * The player control update, state by state                         *)
(* ================================================================== *)

Section UpdateScenarios.

Import PlayerControl.

Ltac unfold_blocks :=
  cbv beta delta [ignoreHorizontalOnLadder adjustOrientation
                  ignoreVerticalInAir cancelHorizontal climb lookOrCrouch
                  standUp walk land jump].

(** The state, the gravity flag and the velocity [update] returns are
    the ones the blocks before the last step compute from the locals
    [beforeAttachment] sets up, when no ladder is grabbed. *)
Lemma update_without_grab (ladder : Grid) (es : list InteractableEntity)
    (hasTicks : bool) (inputs : PlayerInputState) (p : Player) :
  grabbedLadder ladder inputs p = None ->
  let q :=
    player (afterAttachment ladder es hasTicks (filterInputs inputs)
              (worldSpaceBounds p) (beforeAttachment inputs p)) in
  let p' := fst (update ladder es hasTicks inputs p) in
  controlled p' = controlled q /\
  mVelocity (physical p') = mVelocity (physical q) /\
  mGravityAffected (physical p') = mGravityAffected (physical q).
Proof.
  intros Hgrab q p'.
  destruct (update_result ladder es hasTicks inputs p)
    as [Hc [Hv [Hg _]]].
  rewrite beforeOrientation_grab, Hgrab,
    worldSpaceBounds_clearInteraction in Hc, Hv, Hg.
  split; [exact Hc|]. split; [exact Hv | exact Hg].
Qed.

Ltac open_update Hgrab :=
  match goal with
  | |- context [update ?ladder ?es ?hasTicks ?inputs ?p] =>
      let Hc := fresh "Hc" in
      let Hv := fresh "Hv" in
      let Hg := fresh "Hg" in
      destruct (update_without_grab ladder es hasTicks inputs p Hgrab)
        as [Hc [Hv Hg]];
      rewrite ?Hc, ?Hv, ?Hg; clear Hc Hv Hg;
      generalize (worldSpaceBounds p); intros box
  end.

Ltac expose_player p inputs :=
  destruct p as [[o s lu ld pi] [rect [velx vely] g] frames wp an];
  destruct inputs as [ml mr mu md j].

Lemma resolveMovement_closed (ladder : Grid)
    (es : list InteractableEntity) (hasTicks : bool) (mv : Moves)
    (box : Rect) (l : Locals) :
  resolveMovement ladder es hasTicks mv box l
  = resolveMovementClosed ladder es hasTicks mv box l.
Proof.
  unfold resolveMovement, resolveMovementClosed. cbv zeta.
  assert (Eland : forall x, land x = landStateFirst x)
    by (intros x; unfold land, landStateFirst; rewrite andb_comm;
        reflexivity).
  assert (Elook : forall x,
             lookOrCrouch es mv box x = lookOrCrouchClosed es mv box x).
  { intros x. unfold lookOrCrouch, lookOrCrouchClosed. cbv zeta.
    rewrite interact_all_flag. reflexivity. }
  rewrite Eland, Elook. reflexivity.
Qed.

Ltac eval_blocks :=
  cbv - [SFeqb SDL_HasIntersection existsb filter map isub iadd wrap
         canClimbUp canClimbDown findLadderTouchPoint].

Ltac open_blocks :=
  unfold afterAttachment; rewrite resolveMovement_closed.

Lemma climbing_never_grabs (ladder : Grid) (inputs : PlayerInputState)
    (p : Player) :
  mState (controlled p) = ClimbingLadder ->
  grabbedLadder ladder inputs p = None.
Proof.
  intros Hs. rewrite grabbedLadder_checked.
  unfold attachmentChecked, stateIs. rewrite Hs. reflexivity.
Qed.

(** The two ladder queries in terms of the grid: [canClimbUp] finds a
    ladder cell in the row above the box, [canClimbDown] one in the
    row below it, at the columns of the box. *)
Lemma canClimbUp_cell (ladder : Grid) (box : Rect) :
  canClimbUp ladder box = true <->
  ladderCellInRow ladder box (isub (vy (topLeft box)) 1).
Proof.
  unfold canClimbUp, ladderCellInRow. cbv zeta.
  rewrite existsb_exists. split.
  - intros [x [Hin Hx]]. exists x. split.
    + apply in_upto. exact Hin.
    + apply Z.eqb_eq. exact Hx.
  - intros [x [Hin Hx]]. exists x. split.
    + apply in_upto. exact Hin.
    + apply Z.eqb_eq. exact Hx.
Qed.

Lemma canClimbDown_cell (ladder : Grid) (box : Rect) :
  canClimbDown ladder box = true <->
  ladderCellInRow ladder box (iadd (bottom box) 1).
Proof.
  unfold canClimbDown, ladderCellInRow, bottom. cbv zeta.
  rewrite existsb_exists. split.
  - intros [x [Hin Hx]]. exists x. split.
    + apply in_upto. exact Hin.
    + apply Z.eqb_eq. exact Hx.
  - intros [x [Hin Hx]]. exists x. split.
    + apply in_upto. exact Hin.
    + apply Z.eqb_eq. exact Hx.
Qed.

Lemma reflects_query (b query : bool) (P : Prop) :
  (b = true <-> P) -> (query = true <-> P) -> query = b.
Proof.
  intros Hb Hq. apply eq_true_iff_eq. rewrite Hb, Hq. reflexivity.
Qed.

Lemma climbing_table (ladder : Grid)
    (es : list InteractableEntity) (hasTicks : bool)
    (inputs : PlayerInputState) (p : Player) :
  mState (controlled p) = ClimbingLadder ->
  let mv := filterInputs inputs in
  let box := worldSpaceBounds p in
  let drops := movingDown mv && negb (canClimbDown ladder box) in
  let jumps := mJumping inputs && negb drops in
  let p' := fst (update ladder es hasTicks inputs p) in
  velY (mVelocity (physical p')) =
    (if jumps then f_jump
     else if movingUp mv
     then (if canClimbUp ladder box then f_minus_one else f_zero)
     else if movingDown mv then f_one else f_zero) /\
  mState (controlled p') =
    (if drops || jumps then Airborne else ClimbingLadder) /\
  mGravityAffected (physical p') =
    (if drops || jumps then true else mGravityAffected (physical p)).
Proof.
  intros Hs mv box drops jumps p'. subst mv box drops jumps p'.
  pose proof (climbing_never_grabs ladder inputs p Hs) as Hgrab.
  open_update Hgrab.
  expose_player p inputs. cbn in Hs. subst s. clear Hgrab.
  open_blocks. unfold resolveMovementClosed.
  destruct (canClimbUp ladder box), (canClimbDown ladder box),
    pi, mu, md, ml, mr, j; eval_blocks; repeat split.
Qed.

(** On a ladder. Let [above] say whether the grid has a ladder cell in
    the row above the player's world-space box, at one of the columns
    of the box, and [below] whether it has one in the row below the
    box. Up alone climbs at velocity -1 when [above] holds and holds
    still at 0 otherwise; down alone descends at +1, leaving the
    ladder for the air, with gravity on, when [below] fails; with
    neither or both the player holds still. A jump leaves the ladder
    at velocity -3.6 with gravity on, except in the call that already
    drops the player off the lower end. Otherwise state and gravity
    flag stay. *)
Theorem climbing_vertical_motion (ladder : Grid)
    (es : list InteractableEntity) (hasTicks : bool)
    (inputs : PlayerInputState) (p : Player) (above below : bool) :
  mState (controlled p) = ClimbingLadder ->
  let mv := filterInputs inputs in
  let box := worldSpaceBounds p in
  (above = true <->
   ladderCellInRow ladder box (isub (vy (topLeft box)) 1)) ->
  (below = true <-> ladderCellInRow ladder box (iadd (bottom box) 1)) ->
  let drops := movingDown mv && negb below in
  let jumps := mJumping inputs && negb drops in
  let p' := fst (update ladder es hasTicks inputs p) in
  velY (mVelocity (physical p')) =
    (if jumps then f_jump
     else if movingUp mv
     then (if above then f_minus_one else f_zero)
     else if movingDown mv then f_one else f_zero) /\
  mState (controlled p') =
    (if drops || jumps then Airborne else ClimbingLadder) /\
  mGravityAffected (physical p') =
    (if drops || jumps then true else mGravityAffected (physical p)).
Proof.
  intros Hs mv box Habove Hbelow.
  rewrite <- (reflects_query above _ _ Habove (canClimbUp_cell ladder box)).
  rewrite <- (reflects_query below _ _ Hbelow (canClimbDown_cell ladder box)).
  exact (climbing_table ladder es hasTicks inputs p Hs).
Qed.

(** In the air, without grabbing a ladder: while the vertical velocity
    is not 0 the player stays airborne and a jump request changes
    nothing (no second jump). When the vertical velocity is 0 the player
    has landed: the state becomes [Standing], and a jump requested in
    that very call launches the player again. A horizontal input steers
    in the air as it walks on the ground: velocity -1 or +1 once the
    tick check succeeds, 0 without an input. *)
Theorem airborne_until_landed (ladder : Grid)
    (es : list InteractableEntity) (hasTicks : bool)
    (inputs : PlayerInputState) (p : Player) :
  mState (controlled p) = Airborne ->
  grabbedLadder ladder inputs p = None ->
  let mv := filterInputs inputs in
  let landed := SFeqb (velY (mVelocity (physical p))) f_zero in
  let p' := fst (update ladder es hasTicks inputs p) in
  mState (controlled p') =
    (if landed && negb (mJumping inputs) then Standing else Airborne) /\
  velY (mVelocity (physical p')) =
    (if landed && mJumping inputs then f_jump
     else velY (mVelocity (physical p))) /\
  mGravityAffected (physical p') =
    (if landed && mJumping inputs then true
     else mGravityAffected (physical p)) /\
  velX (mVelocity (physical p')) =
    (if movingLeft mv || movingRight mv
     then (if hasTicks
           then (if movingLeft mv then f_minus_one else f_one)
           else velX (mVelocity (physical p)))
     else f_zero) /\
  mIsLookingUp (controlled p') = false /\
  mIsLookingDown (controlled p') = false.
Proof.
  intros Hs Hgrab mv landed p'. subst mv landed p'.
  open_update Hgrab.
  expose_player p inputs. cbn in Hs. subst s. clear Hgrab.
  open_blocks. unfold resolveMovementClosed.
  destruct pi, mu, md, ml, mr, hasTicks, j; eval_blocks;
    destruct (SFeqb vely (S754_zero false)); repeat split.
Qed.

(** On the ground, without grabbing a ladder, the call resolves the
    inputs as follows (conflicting pairs cancelled). Up looks up and
    down crouches, and either one cancels walking; otherwise a
    horizontal input walks and no input stands. Walking picks up
    velocity -1 or +1 only in a call whose tick check succeeds, and
    keeps the velocity it had until then; every other case sets the
    horizontal velocity to 0. A jump overrides the state with
    [Airborne], launches with vertical velocity -3.6 and switches
    gravity on; without a jump vertical velocity and gravity stay. *)
Theorem ground_input_resolution (ladder : Grid)
    (es : list InteractableEntity) (hasTicks : bool)
    (inputs : PlayerInputState) (p : Player) :
  onGround (mState (controlled p)) = true ->
  grabbedLadder ladder inputs p = None ->
  let mv := filterInputs inputs in
  let walks :=
    (movingLeft mv || movingRight mv) &&
    negb (movingUp mv || movingDown mv) in
  let p' := fst (update ladder es hasTicks inputs p) in
  mState (controlled p') =
    (if mJumping inputs then Airborne
     else if movingUp mv then LookingUp
     else if movingDown mv then Crouching
     else if walks then Walking else Standing) /\
  mIsLookingUp (controlled p') = movingUp mv /\
  mIsLookingDown (controlled p') = movingDown mv /\
  velX (mVelocity (physical p')) =
    (if walks
     then (if hasTicks
           then (if movingLeft mv then f_minus_one else f_one)
           else velX (mVelocity (physical p)))
     else f_zero) /\
  velY (mVelocity (physical p')) =
    (if mJumping inputs then f_jump else velY (mVelocity (physical p))) /\
  mGravityAffected (physical p') =
    (if mJumping inputs then true else mGravityAffected (physical p)).
Proof.
  intros Hs Hgrab mv walks p'. subst mv walks p'.
  open_update Hgrab.
  expose_player p inputs. cbn in Hs. clear Hgrab.
  open_blocks. unfold resolveMovementClosed.
  destruct s; try discriminate Hs;
    destruct pi, mu, md, ml, mr, hasTicks, j; eval_blocks;
    repeat split.
Qed.

Lemma grab_needs_up (ladder : Grid) (inputs : PlayerInputState) (p : Player)
    (cell : Vector) :
  grabbedLadder ladder inputs p = Some cell ->
  mMovingUp inputs = true /\ mMovingDown inputs = false /\
  stateIs ClimbingLadder p = false.
Proof.
  rewrite grabbedLadder_checked. unfold attachmentChecked.
  destruct (stateIs ClimbingLadder p), (mMovingUp inputs),
    (mMovingDown inputs); cbn; intros H; try discriminate H.
  repeat split.
Qed.

Lemma grab_table (ladder : Grid)
    (es : list InteractableEntity) (hasTicks : bool)
    (inputs : PlayerInputState) (p : Player) (cell : Vector) :
  grabbedLadder ladder inputs p = Some cell ->
  let p' := fst (update ladder es hasTicks inputs p) in
  mState (controlled p') =
    (if mJumping inputs then Airborne else ClimbingLadder) /\
  mGravityAffected (physical p') = mJumping inputs /\
  velY (mVelocity (physical p')) =
    (if mJumping inputs then f_jump
     else if canClimbUp ladder (worldSpaceBounds p)
          then f_minus_one else f_zero) /\
  velX (mVelocity (physical p')) = f_zero /\
  mIsLookingUp (controlled p') = false /\
  mIsLookingDown (controlled p') = false.
Proof.
  intros Hgrab p'. subst p'.
  destruct (grab_needs_up ladder inputs p cell Hgrab) as [Hu [Hd _]].
  destruct (update_result ladder es hasTicks inputs p)
    as [Hc [Hv [Hg _]]].
  rewrite Hc, Hv, Hg. clear Hc Hv Hg.
  rewrite beforeOrientation_grab, Hgrab, worldSpaceBounds_clearInteraction.
  generalize (worldSpaceBounds p). intros box.
  destruct cell as [cx cy].
  expose_player p inputs. cbn in Hu, Hd. subst mu md. clear Hgrab.
  open_blocks.
  unfold resolveMovementClosed.
  destruct (canClimbUp ladder box), pi, ml, mr, hasTicks, j, o;
    eval_blocks; repeat split.
Qed.

(** In a call that grabs a ladder: horizontal velocity 0 and no look
    flag. Let [above] say whether the grid has a ladder cell in the
    row above the world-space box the player had before the snap, at
    one of the columns of that box. Without a jump the player climbs
    on at once, gravity off, at velocity -1 when [above] holds and 0
    otherwise; with a jump the player leaves the ladder in the same
    call, [Airborne] at velocity -3.6 with gravity on. *)
Theorem ladder_grab_motion (ladder : Grid)
    (es : list InteractableEntity) (hasTicks : bool)
    (inputs : PlayerInputState) (p : Player) (cell : Vector)
    (above : bool) :
  grabbedLadder ladder inputs p = Some cell ->
  let box := worldSpaceBounds p in
  (above = true <->
   ladderCellInRow ladder box (isub (vy (topLeft box)) 1)) ->
  let p' := fst (update ladder es hasTicks inputs p) in
  mState (controlled p') =
    (if mJumping inputs then Airborne else ClimbingLadder) /\
  mGravityAffected (physical p') = mJumping inputs /\
  velY (mVelocity (physical p')) =
    (if mJumping inputs then f_jump
     else if above then f_minus_one else f_zero) /\
  velX (mVelocity (physical p')) = f_zero /\
  mIsLookingUp (controlled p') = false /\
  mIsLookingDown (controlled p') = false.
Proof.
  intros Hgrab box Habove.
  rewrite <- (reflects_query above _ _ Habove (canClimbUp_cell ladder box)).
  exact (grab_table ladder es hasTicks inputs p cell Hgrab).
Qed.

Lemma update_events (ladder : Grid) (es : list InteractableEntity)
    (hasTicks : bool) (inputs : PlayerInputState) (p : Player) :
  snd (update ladder es hasTicks inputs p)
  = emitted (afterAttachment ladder es hasTicks (filterInputs inputs)
               (worldSpaceBounds (clearInteraction inputs p))
               (beforeOrientation ladder inputs p)).
Proof. reflexivity. Qed.

(** Interaction events. A call emits events only when up is pressed
    without down, the player is on the ground and grabs no ladder, and
    no interaction is pending; it then emits one event for each
    interactable entity whose box (built with the size of the player's
    collision box) meets the player's world-space box, in the order of
    enumeration. The pending flag after the call is set when an event
    was emitted, kept while up stays pressed, and cleared otherwise. *)
Theorem interaction_events_characterised (ladder : Grid)
    (es : list InteractableEntity) (hasTicks : bool)
    (inputs : PlayerInputState) (p : Player) :
  let mv := filterInputs inputs in
  let hit := interactableHit (worldSpaceBounds p) p in
  let active :=
    movingUp mv && onGround (mState (controlled p)) &&
    negb (mPerformedInteraction (controlled p)) &&
    match grabbedLadder ladder inputs p with
    | Some _ => false
    | None => true
    end in
  snd (update ladder es hasTicks inputs p)
    = (if active then map interactionOf (filter hit es) else []) /\
  mPerformedInteraction
    (controlled (fst (update ladder es hasTicks inputs p)))
    = (mPerformedInteraction (controlled p) && mMovingUp inputs)
      || (active && existsb hit es).
Proof.
  intros mv hit active. subst mv hit active.
  rewrite update_events.
  destruct (update_result ladder es hasTicks inputs p) as [Hc _].
  rewrite Hc. clear Hc.
  rewrite beforeOrientation_grab, worldSpaceBounds_clearInteraction.
  destruct (grabbedLadder ladder inputs p) as [cell|] eqn:Hgrab.
  - destruct (grab_needs_up ladder inputs p cell Hgrab) as [Hu [Hd _]].
    generalize (worldSpaceBounds p). intros box.
    destruct cell as [cx cy].
    expose_player p inputs. cbn in Hu, Hd. subst mu md. clear Hgrab.
    open_blocks. unfold resolveMovementClosed.
    destruct (canClimbUp ladder box), pi, ml, mr, hasTicks, j, s;
      eval_blocks; repeat split.
  - clear Hgrab. generalize (worldSpaceBounds p). intros box.
    expose_player p inputs.
    open_blocks. unfold resolveMovementClosed.
    destruct s;
      try match goal with
          | |- context [mkPlayerControlled _ ClimbingLadder] =>
              destruct (canClimbUp ladder box), (canClimbDown ladder box)
          end;
      destruct pi, mu, md, ml, mr, hasTicks, j;
      eval_blocks;
      try match goal with
          | |- context [SFeqb ?a ?b] => destruct (SFeqb a b)
          end;
      repeat split.
Qed.

(** Up and down pressed together are the same as neither pressed when
    no interaction is pending. With a pending interaction they are
    not: up still counts as held, so the pending flag survives the
    call, while a call with both keys released clears it. *)
Theorem up_and_down_cancel (ladder : Grid)
    (es : list InteractableEntity) (hasTicks : bool)
    (left right jump : bool) (p : Player) :
  let both := mkPlayerInputState left right true true jump in
  let neither := mkPlayerInputState left right false false jump in
  (mPerformedInteraction (controlled p) = false ->
   update ladder es hasTicks both p = update ladder es hasTicks neither p) /\
  mPerformedInteraction (controlled (fst (update ladder es hasTicks both p)))
    = mPerformedInteraction (controlled p) /\
  mPerformedInteraction
    (controlled (fst (update ladder es hasTicks neither p))) = false.
Proof.
  intros both neither. split.
  - intros Hflag.
    assert (E : clearInteraction both p = clearInteraction neither p)
      by (unfold clearInteraction; rewrite Hflag; reflexivity).
    unfold update, beforeOrientation, beforeAttachment.
    rewrite E. reflexivity.
  - assert (Gb : grabbedLadder ladder both p = None)
      by (rewrite grabbedLadder_checked; unfold attachmentChecked;
          cbn; rewrite andb_false_r; reflexivity).
    assert (Gn : grabbedLadder ladder neither p = None)
      by (rewrite grabbedLadder_checked; unfold attachmentChecked;
          cbn; rewrite andb_false_r; reflexivity).
    subst both neither. split.
    + open_update Gb. clear Gb Gn.
      destruct p as [[o s lu ld pi] [rect [velx vely] g] frames wp an].
      open_blocks. unfold resolveMovementClosed.
      destruct (canClimbUp ladder box), (canClimbDown ladder box),
        s, pi, left, right, hasTicks, jump; eval_blocks;
        try match goal with
            | |- context [SFeqb ?a ?b] => destruct (SFeqb a b)
            end;
        reflexivity.
    + open_update Gn. clear Gb Gn.
      destruct p as [[o s lu ld pi] [rect [velx vely] g] frames wp an].
      open_blocks. unfold resolveMovementClosed.
      destruct (canClimbUp ladder box), (canClimbDown ladder box),
        s, pi, left, right, hasTicks, jump; eval_blocks;
        try match goal with
            | |- context [SFeqb ?a ?b] => destruct (SFeqb a b)
            end;
        reflexivity.
Qed.

End UpdateScenarios.

(** A player on a ladder at (4, 8), whose box spans the rows 4 to 8
    and the columns 4 to 6, holds up. With the only ladder cell at
    (5, 3), in the row above the box, the player climbs at velocity
    -1; there is no ladder cell in row 9 below the box. *)
Lemma climbing_vertical_motion_witness :
  let ladder := Examples.ladderAtCell 5 3 in
  let p := Examples.playerAt (mkVector 4 8) Left ClimbingLadder in
  let p' := fst (PlayerControl.update ladder [] true Examples.holdUp p) in
  PlayerControl.worldSpaceBounds p
    = mkRect (mkVector 4 4) (mkExtents 3 5) /\
  velY (mVelocity (PlayerControl.physical p')) = PlayerControl.f_minus_one /\
  mState (PlayerControl.controlled p') = ClimbingLadder /\
  mGravityAffected (PlayerControl.physical p') = false.
Proof.
  split; [reflexivity|].
  apply (climbing_vertical_motion (Examples.ladderAtCell 5 3) [] true
           Examples.holdUp
           (Examples.playerAt (mkVector 4 8) Left ClimbingLadder)
           true false).
  - reflexivity.
  - split; [|reflexivity].
    intros _. exists 1. split; [simpl; lia | reflexivity].
  - split; [discriminate|].
    intros [x [Hx Hcell]]. simpl in Hx.
    assert (Ex : x = 0 \/ x = 1 \/ x = 2) by lia.
    destruct Ex as [-> | [-> | ->]]; vm_compute in Hcell; discriminate.
Defined.

(** A player in the air with vertical velocity 0 who requests a jump:
    landed and launched again in the same call. *)
Lemma airborne_until_landed_witness :
  let ladder := Examples.ladderAtCell 5 3 in
  let p := Examples.playerAt (mkVector 20 20) Right Airborne in
  let inputs := PlayerControl.mkPlayerInputState false true false false true in
  let mv := PlayerControl.filterInputs inputs in
  let landed :=
    SFeqb (velY (mVelocity (PlayerControl.physical p))) PlayerControl.f_zero in
  let p' := fst (PlayerControl.update ladder [] false inputs p) in
  mState (PlayerControl.controlled p') =
    (if landed && negb (PlayerControl.mJumping inputs)
     then Standing else Airborne) /\
  velY (mVelocity (PlayerControl.physical p')) =
    (if landed && PlayerControl.mJumping inputs then PlayerControl.f_jump
     else velY (mVelocity (PlayerControl.physical p))) /\
  mGravityAffected (PlayerControl.physical p') =
    (if landed && PlayerControl.mJumping inputs then true
     else mGravityAffected (PlayerControl.physical p)) /\
  velX (mVelocity (PlayerControl.physical p')) =
    (if PlayerControl.movingLeft mv || PlayerControl.movingRight mv
     then (if false
           then (if PlayerControl.movingLeft mv
                 then PlayerControl.f_minus_one else PlayerControl.f_one)
           else velX (mVelocity (PlayerControl.physical p)))
     else PlayerControl.f_zero) /\
  mIsLookingUp (PlayerControl.controlled p') = false /\
  mIsLookingDown (PlayerControl.controlled p') = false.
Proof.
  apply (airborne_until_landed (Examples.ladderAtCell 5 3) [] false
           (PlayerControl.mkPlayerInputState false true false false true)
           (Examples.playerAt (mkVector 20 20) Right Airborne));
    reflexivity.
Defined.

(** A standing player who holds left while the tick check succeeds:
    walking at velocity -1. *)
Lemma ground_input_resolution_witness :
  let ladder := Examples.ladderAtCell 5 3 in
  let p := Examples.playerAt (mkVector 20 20) Right Standing in
  let inputs := PlayerControl.mkPlayerInputState true false false false false in
  let mv := PlayerControl.filterInputs inputs in
  let walks :=
    (PlayerControl.movingLeft mv || PlayerControl.movingRight mv) &&
    negb (PlayerControl.movingUp mv || PlayerControl.movingDown mv) in
  let p' := fst (PlayerControl.update ladder [] true inputs p) in
  mState (PlayerControl.controlled p') =
    (if PlayerControl.mJumping inputs then Airborne
     else if PlayerControl.movingUp mv then LookingUp
     else if PlayerControl.movingDown mv then Crouching
     else if walks then Walking else Standing) /\
  mIsLookingUp (PlayerControl.controlled p') = PlayerControl.movingUp mv /\
  mIsLookingDown (PlayerControl.controlled p') = PlayerControl.movingDown mv /\
  velX (mVelocity (PlayerControl.physical p')) =
    (if walks
     then (if true
           then (if PlayerControl.movingLeft mv
                 then PlayerControl.f_minus_one else PlayerControl.f_one)
           else velX (mVelocity (PlayerControl.physical p)))
     else PlayerControl.f_zero) /\
  velY (mVelocity (PlayerControl.physical p')) =
    (if PlayerControl.mJumping inputs then PlayerControl.f_jump
     else velY (mVelocity (PlayerControl.physical p))) /\
  mGravityAffected (PlayerControl.physical p') =
    (if PlayerControl.mJumping inputs then true
     else mGravityAffected (PlayerControl.physical p)).
Proof.
  apply (ground_input_resolution (Examples.ladderAtCell 5 3) [] true
           (PlayerControl.mkPlayerInputState true false false false false)
           (Examples.playerAt (mkVector 20 20) Right Standing));
    reflexivity.
Defined.

(** A player at (4, 6), whose box spans the rows 2 to 6 and the
    columns 4 to 6, holds up. The ladder cell (5, 3) lies in the box
    and is grabbed; the ladder cell (5, 1) lies in the row above the
    box, so the player climbs on at velocity -1. *)
Lemma ladder_grab_motion_witness :
  let ladder := Examples.ladderAtTwoCells in
  let p := Examples.playerAt (mkVector 4 6) Right Standing in
  let p' := fst (PlayerControl.update ladder [] true Examples.holdUp p) in
  PlayerControl.worldSpaceBounds p
    = mkRect (mkVector 4 2) (mkExtents 3 5) /\
  mState (PlayerControl.controlled p') = ClimbingLadder /\
  mGravityAffected (PlayerControl.physical p') = false /\
  velY (mVelocity (PlayerControl.physical p')) = PlayerControl.f_minus_one /\
  velX (mVelocity (PlayerControl.physical p')) = PlayerControl.f_zero /\
  mIsLookingUp (PlayerControl.controlled p') = false /\
  mIsLookingDown (PlayerControl.controlled p') = false.
Proof.
  split; [reflexivity|].
  apply (ladder_grab_motion Examples.ladderAtTwoCells [] true
           Examples.holdUp
           (Examples.playerAt (mkVector 4 6) Right Standing)
           (mkVector 5 3) true).
  - vm_compute. reflexivity.
  - split; [|reflexivity].
    intros _. exists 1. split; [simpl; lia | reflexivity].
Defined.

(** A walking player who presses left and right together stops. *)
Lemma no_horizontal_request_stops_witness :
  velX (mVelocity
          (PlayerControl.physical
             (fst (PlayerControl.update (Examples.ladderAtCell 5 3) [] true
                     (PlayerControl.mkPlayerInputState true true false false
                        false)
                     (Examples.playerAt (mkVector 20 20) Left Walking)))))
  = PlayerControl.f_zero.
Proof.
  apply (no_horizontal_request_stops (Examples.ladderAtCell 5 3) [] true
           (PlayerControl.mkPlayerInputState true true false false false)
           (Examples.playerAt (mkVector 20 20) Left Walking)).
  left. reflexivity.
Defined.
